(** * ORF job-market summary: the analytical routes of [app.py]

    A shallow embedding of [src/app.py].  The Flask routes read one global
    data frame, [job_data], which [load_job_data] fills from an Excel sheet;
    every route filters it by a taxonomy column and reduces the rows to a
    JSON payload.  Modelled here: [load_job_data], the page [/] and the
    routes [/api/categories], [/api/levels], [/api/stats], [/api/jobs],
    [/api/automation_matrix], [/api/task_analysis] and
    [/api/risk_distribution].

    Conventions of the embedding.
    - Python values that come out of [json.loads] or go into [jsonify] are
      values of [pyval]; a Python [dict] is an association list in insertion
      order.
    - A [float] is a [pyfloat]: NaN, the two infinities, or a finite value
      carried by the rational it denotes.  Comparisons are exact on floats
      and are modelled exactly; sums, quotients and [round] are computed on
      the rationals (the rounding error of binary arithmetic is not
      modelled).
    - A [str] is the [string] of its UTF-8 bytes.  Case mapping ([lower],
      [title]) is the ASCII one: bytes above 127 are left alone and count as
      uncased.
    - The taxonomy columns and [Sector] hold text or are missing.
    - An exception that leaves a route is the response [Raised e]; inside
      the code it is the [Raise e] of the type [result].
    - [print] calls are dropped. *)

From Stdlib Require Import List String Ascii Bool Arith ZArith QArith Qround Lia.
From Stdlib Require Import Permutation Sorted.
Import ListNotations.

Set Warnings "-register-all".

Close Scope Q_scope.

Local Open Scope string_scope.
Local Open Scope list_scope.
Local Open Scope nat_scope.

(** ** Python values *)

Module Py.

Inductive pyfloat : Type :=
| FNaN
| FNegInf
| FFin (q : Q)
| FPosInf.

(** [x < y] on floats: false as soon as one side is NaN. *)
Definition flt (x y : pyfloat) : bool :=
  match x, y with
  | FNaN, _ | _, FNaN => false
  | _, FNegInf => false
  | FNegInf, _ => true
  | FPosInf, _ => false
  | FFin _, FPosInf => true
  | FFin a, FFin b => negb (Qle_bool b a)
  end.

(** [x >= y] on floats: false as soon as one side is NaN. *)
Definition fge (x y : pyfloat) : bool :=
  match x, y with
  | FNaN, _ | _, FNaN => false
  | _, FNegInf => true
  | FNegInf, _ => false
  | FPosInf, _ => true
  | FFin _, FPosInf => false
  | FFin a, FFin b => Qle_bool b a
  end.

Definition fadd (x y : pyfloat) : pyfloat :=
  match x, y with
  | FNaN, _ | _, FNaN => FNaN
  | FPosInf, FNegInf | FNegInf, FPosInf => FNaN
  | FPosInf, _ | _, FPosInf => FPosInf
  | FNegInf, _ | _, FNegInf => FNegInf
  | FFin a, FFin b => FFin (Qred (a + b)%Q)
  end.

(** [x / n] for a positive count [n]. *)
Definition fdiv_count (x : pyfloat) (n : nat) : pyfloat :=
  match x with
  | FFin a => FFin (Qred (a / inject_Z (Z.of_nat n))%Q)
  | other => other
  end.

Definition isnan (x : pyfloat) : bool :=
  match x with FNaN => true | _ => false end.

(** Nearest integer, ties to the even one. *)
Definition rint_half_even (q : Q) : Z :=
  let f := Qfloor q in
  let twice := Qred (2 * (q - inject_Z f))%Q in
  match Qcompare twice 1%Q with
  | Lt => f
  | Gt => (f + 1)%Z
  | Eq => if Z.even f then f else (f + 1)%Z
  end.

(** [round(x, 1)]: NaN and the infinities are returned as they are. *)
Definition round1 (x : pyfloat) : pyfloat :=
  match x with
  | FFin q => FFin (Qred (inject_Z (rint_half_even (q * 10)%Q) / 10)%Q)
  | other => other
  end.

Inductive pyval : Type :=
| PNone
| PBool (b : bool)
| PInt (n : Z)
| PFloat (f : pyfloat)
| PStr (s : string)
| PList (l : list pyval)
| PDict (d : list (string * pyval)).

Definition dict := list (string * pyval).

(** [d.get(k)]: [None] stands for a missing key. *)
Fixpoint dict_get (d : dict) (k : string) : option pyval :=
  match d with
  | [] => None
  | (k', v) :: rest => if String.eqb k' k then Some v else dict_get rest k
  end.

(** [d[k] = v]: an existing key keeps its place. *)
Fixpoint dict_set (d : dict) (k : string) (v : pyval) : dict :=
  match d with
  | [] => [(k, v)]
  | (k', v') :: rest =>
      if String.eqb k' k then (k', v) :: rest else (k', v') :: dict_set rest k v
  end.

Definition has_key (d : dict) (k : string) : bool :=
  match dict_get d k with Some _ => true | None => false end.

Definition of_nat (n : nat) : pyval := PInt (Z.of_nat n).

(** *** [str] methods (ASCII case mapping) *)

Definition is_upper (c : ascii) : bool :=
  let n := nat_of_ascii c in (65 <=? n) && (n <=? 90).

Definition is_lower (c : ascii) : bool :=
  let n := nat_of_ascii c in (97 <=? n) && (n <=? 122).

Definition to_lower (c : ascii) : ascii :=
  if is_upper c then ascii_of_nat (nat_of_ascii c + 32) else c.

Definition to_upper (c : ascii) : ascii :=
  if is_lower c then ascii_of_nat (nat_of_ascii c - 32) else c.

Fixpoint map_string (f : ascii -> ascii) (s : string) : string :=
  match s with
  | EmptyString => EmptyString
  | String c rest => String (f c) (map_string f rest)
  end.

(** [s.lower()] *)
Definition lower (s : string) : string := map_string to_lower s.

(** [s.replace(a, b)] for one-character [a] and [b]. *)
Definition replace_char (a b : ascii) (s : string) : string :=
  map_string (fun c => if Ascii.eqb c a then b else c) s.

(** [s.title()]: the first cased character after an uncased one is
    upper-cased, every other cased character lower-cased. *)
Fixpoint title_from (previous_is_cased : bool) (s : string) : string :=
  match s with
  | EmptyString => EmptyString
  | String c rest =>
      if is_lower c then
        String (if previous_is_cased then c else to_upper c) (title_from true rest)
      else if is_upper c then
        String (if previous_is_cased then to_lower c else c) (title_from true rest)
      else String c (title_from false rest)
  end.

Definition title (s : string) : string := title_from false s.

(** The length of the white-space character (in the sense of [str.isspace])
    that starts [s], in bytes; 0 when [s] starts with none. *)
Definition space_prefix (s : string) : nat :=
  match s with
  | String c rest =>
      let n := nat_of_ascii c in
      if ((9 <=? n) && (n <=? 13)) || ((28 <=? n) && (n <=? 32)) then 1
      else if n =? 194 then
        match rest with
        | String d _ =>
            let m := nat_of_ascii d in
            if (m =? 133) || (m =? 160) then 2 else 0
        | EmptyString => 0
        end
      else if (n =? 225) || (n =? 226) || (n =? 227) then
        match rest with
        | String d (String e _) =>
            let m := nat_of_ascii d in
            let k := nat_of_ascii e in
            if (n =? 225) && (m =? 154) && (k =? 128) then 3
            else if (n =? 226) && (m =? 128)
                    && (((128 <=? k) && (k <=? 138)) || (k =? 168) || (k =? 169) || (k =? 175))
            then 3
            else if (n =? 226) && (m =? 129) && (k =? 159) then 3
            else if (n =? 227) && (m =? 128) && (k =? 128) then 3
            else 0
        | _ => 0
        end
      else 0
  | EmptyString => 0
  end.

Fixpoint drop (n : nat) (s : string) : string :=
  match n, s with
  | S n', String _ rest => drop n' rest
  | _, _ => s
  end.

(** [s.lstrip()], by fuel on the length of [s]. *)
Fixpoint lstrip_fuel (fuel : nat) (s : string) : string :=
  match fuel with
  | O => s
  | S fuel' =>
      match space_prefix s with
      | O => s
      | n => lstrip_fuel fuel' (drop n s)
      end
  end.

Definition lstrip (s : string) : string := lstrip_fuel (String.length s) s.

(** [s.strip().startswith(c)]: only the left side of [strip] matters. *)
Definition strip_startswith (c : ascii) (s : string) : bool :=
  match lstrip s with
  | String c' _ => Ascii.eqb c' c
  | EmptyString => false
  end.

End Py.

Import Py.

(** ** [json.loads]

    The decoder of the standard library, on text given by its UTF-8 bytes:
    the grammar of [json.scanner] and [json.decoder] (objects, arrays,
    strings with their escapes, numbers, [true], [false], [null] and the
    three float literals the module accepts).  A number with a fraction or an
    exponent becomes the float of its exact decimal value, or an infinity
    when it is too large for a float.  The functions
    that call each other take fuel; [decode] gives them enough
    ([decode_fuel] below), and the recursion limit of the interpreter is not
    modelled. *)

Module Json.

Inductive parse (A : Type) : Type :=
| Parsed (a : A) (rest : string)
| Malformed
| OutOfFuel.

Arguments Parsed {A} a rest.
Arguments Malformed {A}.
Arguments OutOfFuel {A}.

Definition is_ws (c : ascii) : bool :=
  let n := nat_of_ascii c in
  (n =? 32) || (n =? 9) || (n =? 10) || (n =? 13).

Fixpoint skip_ws (s : string) : string :=
  match s with
  | String c rest => if is_ws c then skip_ws rest else s
  | EmptyString => s
  end.

Definition digit_val (c : ascii) : option Z :=
  let n := nat_of_ascii c in
  if (48 <=? n) && (n <=? 57) then Some (Z.of_nat (n - 48)) else None.

Definition hex_val (c : ascii) : option Z :=
  let n := nat_of_ascii c in
  if (48 <=? n) && (n <=? 57) then Some (Z.of_nat (n - 48))
  else if (97 <=? n) && (n <=? 102) then Some (Z.of_nat (n - 87))
  else if (65 <=? n) && (n <=? 70) then Some (Z.of_nat (n - 55))
  else None.

(** The longest run of decimal digits at the head of [s]: its value on top
    of [acc], its length on top of [n], and what follows. *)
Fixpoint digits (s : string) (acc : Z) (n : nat) : Z * nat * string :=
  match s with
  | String c rest =>
      match digit_val c with
      | Some d => digits rest (acc * 10 + d)%Z (S n)
      | None => (acc, n, s)
      end
  | EmptyString => (acc, n, s)
  end.

(** The float of a decimal value: infinite from the middle between the
    largest float and the next power of two on, and otherwise the value
    itself. *)
Definition float_of_decimal (q : Q) : pyfloat :=
  if Qle_bool (inject_Z (2 ^ 1024 - 2 ^ 970)) q then FPosInf
  else if Qle_bool q (inject_Z (- (2 ^ 1024 - 2 ^ 970))) then FNegInf
  else FFin (Qred q).

Definition pow10 (e : Z) : Q :=
  if (0 <=? e)%Z then inject_Z (10 ^ e) else (/ inject_Z (10 ^ (- e)))%Q.

(** [NUMBER_RE]: an optional minus sign, then 0 or a run of digits that
    does not start with 0, then an optional fraction (a dot and at least one
    digit), then an optional exponent (e or E, an optional sign, at least one
    digit).  The longest such prefix is taken. *)
Definition scan_number (s : string) : option (pyval * string) :=
  let (neg, s1) :=
    match s with
    | String c r => if Ascii.eqb c "-" then (true, r) else (false, s)
    | EmptyString => (false, s)
    end in
  match s1 with
  | EmptyString => None
  | String c r =>
      match digit_val c with
      | None => None
      | Some d =>
          let (ip, s2) :=
            if (d =? 0)%Z then (0%Z, r)
            else let '(v, _, r') := digits r d 1 in (v, r') in
          let (frac, s3) :=
            match s2 with
            | String c2 r2 =>
                if Ascii.eqb c2 "." then
                  let '(v, n, r3) := digits r2 0%Z 0 in
                  if (n =? 0)%nat then (None, s2) else (Some (v, n), r3)
                else (None, s2)
            | EmptyString => (None, s2)
            end in
          let (ex, s4) :=
            match s3 with
            | String e r3 =>
                if Ascii.eqb e "e" || Ascii.eqb e "E" then
                  let (sgn, r4) :=
                    match r3 with
                    | String c3 r' =>
                        if Ascii.eqb c3 "+" then (false, r')
                        else if Ascii.eqb c3 "-" then (true, r')
                        else (false, r3)
                    | EmptyString => (false, r3)
                    end in
                  let '(v, n, r5) := digits r4 0%Z 0 in
                  if (n =? 0)%nat then (None, s3)
                  else (Some (if sgn then (- v)%Z else v), r5)
                else (None, s3)
            | EmptyString => (None, s3)
            end in
          match frac, ex with
          | None, None => Some (PInt (if neg then (- ip)%Z else ip), s4)
          | _, _ =>
              let mantissa :=
                match frac with
                | Some (v, n) => (inject_Z ip + inject_Z v * pow10 (- Z.of_nat n))%Q
                | None => inject_Z ip
                end in
              let scaled :=
                match ex with
                | Some e => (mantissa * pow10 e)%Q
                | None => mantissa
                end in
              Some (PFloat (float_of_decimal (if neg then (- scaled)%Q else scaled)), s4)
          end
      end
  end.

Definition byte_of (z : Z) : ascii := ascii_of_nat (Z.to_nat z).

(** [chr(u)] as UTF-8 bytes. *)
Definition utf8 (u : Z) : string :=
  if (u <? 128)%Z then String (byte_of u) EmptyString
  else if (u <? 2048)%Z then
    String (byte_of (192 + Z.shiftr u 6))
      (String (byte_of (128 + Z.land u 63)) EmptyString)
  else if (u <? 65536)%Z then
    String (byte_of (224 + Z.shiftr u 12))
      (String (byte_of (128 + Z.land (Z.shiftr u 6) 63))
         (String (byte_of (128 + Z.land u 63)) EmptyString))
  else
    String (byte_of (240 + Z.shiftr u 18))
      (String (byte_of (128 + Z.land (Z.shiftr u 12) 63))
         (String (byte_of (128 + Z.land (Z.shiftr u 6) 63))
            (String (byte_of (128 + Z.land u 63)) EmptyString))).

(** Four hexadecimal digits. *)
Definition hex4 (s : string) : option (Z * string) :=
  match s with
  | String a (String b (String c (String d rest))) =>
      match hex_val a, hex_val b, hex_val c, hex_val d with
      | Some x, Some y, Some z, Some w =>
          Some ((((x * 16 + y) * 16 + z) * 16 + w)%Z, rest)
      | _, _, _, _ => None
      end
  | _ => None
  end.

(** What follows [\u]: four hexadecimal digits, and a second escape when
    the two are the halves of a surrogate pair. *)
Definition scan_unicode (s : string) : option (string * string) :=
  match hex4 s with
  | None => None
  | Some (u, rest1) =>
      let single := Some (utf8 u, rest1) in
      if ((55296 <=? u) && (u <=? 56319))%Z then
        match rest1 with
        | String c1 (String c2 rest2) =>
            if Ascii.eqb c1 "092" && Ascii.eqb c2 "u" then
              match hex4 rest2 with
              | Some (u2, rest3) =>
                  if ((56320 <=? u2) && (u2 <=? 57343))%Z then
                    Some (utf8 (65536 + Z.lor (Z.shiftl (u - 55296) 10) (u2 - 56320)),
                          rest3)
                  else single
              | None => single
              end
            else single
        | _ => single
        end
      else single
  end.

(** What follows a backslash. *)
Definition scan_escape (s : string) : option (string * string) :=
  match s with
  | String c rest =>
      let simple (b : ascii) := Some (String b EmptyString, rest) in
      if Ascii.eqb c "034" then simple "034"%char
      else if Ascii.eqb c "092" then simple "092"%char
      else if Ascii.eqb c "/" then simple "/"%char
      else if Ascii.eqb c "b" then simple "008"%char
      else if Ascii.eqb c "f" then simple "012"%char
      else if Ascii.eqb c "n" then simple "010"%char
      else if Ascii.eqb c "r" then simple "013"%char
      else if Ascii.eqb c "t" then simple "009"%char
      else if Ascii.eqb c "u" then scan_unicode rest
      else None
  | EmptyString => None
  end.

(** [scanstring], from just after the opening quote. *)
Fixpoint scanstring (fuel : nat) (s : string) (acc : string) : parse string :=
  match fuel with
  | O => OutOfFuel
  | S fuel' =>
      match s with
      | EmptyString => Malformed
      | String c rest =>
          if Ascii.eqb c "034" then Parsed acc rest
          else if Ascii.eqb c "092" then
            match scan_escape rest with
            | Some (chars, rest') => scanstring fuel' rest' (acc ++ chars)%string
            | None => Malformed
            end
          else if (nat_of_ascii c <? 32)%nat then Malformed
          else scanstring fuel' rest (acc ++ String c EmptyString)%string
      end
  end.

Definition scan_literal (s : string) : option (pyval * string) :=
  if String.prefix "null" s then Some (PNone, drop 4 s)
  else if String.prefix "true" s then Some (PBool true, drop 4 s)
  else if String.prefix "false" s then Some (PBool false, drop 5 s)
  else
    match scan_number s with
    | Some r => Some r
    | None =>
        if String.prefix "NaN" s then Some (PFloat FNaN, drop 3 s)
        else if String.prefix "Infinity" s then Some (PFloat FPosInf, drop 8 s)
        else if String.prefix "-Infinity" s then Some (PFloat FNegInf, drop 9 s)
        else None
    end.

Fixpoint scan_once (fuel : nat) (s : string) : parse pyval :=
  match fuel with
  | O => OutOfFuel
  | S fuel' =>
      match s with
      | EmptyString => Malformed
      | String c rest =>
          if Ascii.eqb c "034" then
            match scanstring (S (String.length rest)) rest EmptyString with
            | Parsed str r => Parsed (PStr str) r
            | Malformed => Malformed
            | OutOfFuel => OutOfFuel
            end
          else if Ascii.eqb c "{" then
            match skip_ws rest with
            | String c' r =>
                if Ascii.eqb c' "}" then Parsed (PDict []) r
                else if Ascii.eqb c' "034" then object_items fuel' r []
                else Malformed
            | EmptyString => Malformed
            end
          else if Ascii.eqb c "[" then
            match skip_ws rest with
            | String c' r =>
                if Ascii.eqb c' "]" then Parsed (PList []) r
                else array_items fuel' (String c' r) []
            | EmptyString => Malformed
            end
          else
            match scan_literal s with
            | Some (v, r) => Parsed v r
            | None => Malformed
            end
      end
  end

(** The items of an array, from the first character of one item;
    [acc] holds the items read so far, last first. *)
with array_items (fuel : nat) (s : string) (acc : list pyval) : parse pyval :=
  match fuel with
  | O => OutOfFuel
  | S fuel' =>
      match scan_once fuel' s with
      | Parsed v r =>
          match skip_ws r with
          | String c r' =>
              if Ascii.eqb c "]" then Parsed (PList (rev (v :: acc))) r'
              else if Ascii.eqb c "," then array_items fuel' (skip_ws r') (v :: acc)
              else Malformed
          | EmptyString => Malformed
          end
      | Malformed => Malformed
      | OutOfFuel => OutOfFuel
      end
  end

(** The members of an object, from just after the opening quote of a key. *)
with object_items (fuel : nat) (s : string) (acc : dict) : parse pyval :=
  match fuel with
  | O => OutOfFuel
  | S fuel' =>
      match scanstring (S (String.length s)) s EmptyString with
      | Parsed key r =>
          match skip_ws r with
          | String c r1 =>
              if Ascii.eqb c ":" then
                match scan_once fuel' (skip_ws r1) with
                | Parsed v r2 =>
                    match skip_ws r2 with
                    | String c' r3 =>
                        if Ascii.eqb c' "}" then Parsed (PDict (dict_set acc key v)) r3
                        else if Ascii.eqb c' "," then
                          match skip_ws r3 with
                          | String c'' r4 =>
                              if Ascii.eqb c'' "034"
                              then object_items fuel' r4 (dict_set acc key v)
                              else Malformed
                          | EmptyString => Malformed
                          end
                        else Malformed
                    | EmptyString => Malformed
                    end
                | Malformed => Malformed
                | OutOfFuel => OutOfFuel
                end
              else Malformed
          | EmptyString => Malformed
          end
      | Malformed => Malformed
      | OutOfFuel => OutOfFuel
      end
  end.

(** [JSONDecoder.decode]: one value between white space, nothing after. *)
Definition decode (s : string) : parse pyval :=
  match scan_once (2 * String.length s + 2) (skip_ws s) with
  | Parsed v r =>
      match skip_ws r with
      | EmptyString => Parsed v EmptyString
      | _ => Malformed
      end
  | other => other
  end.

End Json.

(** ** Exceptions *)

Definition exn := string.

Inductive result (A : Type) : Type :=
| Ok (a : A)
| Raise (e : exn).

Arguments Ok {A} a.
Arguments Raise {A} e.

Definition bind {A B : Type} (r : result A) (k : A -> result B) : result B :=
  match r with
  | Ok a => k a
  | Raise e => Raise e
  end.

Notation "x <- r ;; k" := (bind r (fun x => k))
  (at level 61, r at next level, right associativity).

(** A comprehension whose body may raise: the first exception wins. *)
Fixpoint mapM {A B : Type} (f : A -> result B) (l : list A) : result (list B) :=
  match l with
  | [] => Ok []
  | a :: rest => b <- f a ;; bs <- mapM f rest ;; Ok (b :: bs)
  end.

(** [json.loads(s)]: [JSONDecodeError] on malformed text.  The last case
    does not occur ([decode_fuel]).  The limits of the interpreter (the
    recursion depth, the number of digits of an integer) are not modelled:
    text that exceeds them decodes here. *)
Definition json_loads (s : string) : result pyval :=
  match Json.decode s with
  | Json.Parsed v _ => Ok v
  | Json.Malformed => Raise "JSONDecodeError"
  | Json.OutOfFuel => Raise "RecursionError"
  end.

(** ** Frames, series and counters *)

Module Pandas.

(** One row of [job_data].  [cells] holds the text cells of the columns
    other than the two scores and the parsed tasks (the taxonomy columns and
    [Sector]); a column without an entry is NaN in this row. *)
Record Row : Type := {
  auto_score : pyfloat;
  manual_score : pyfloat;
  cells : list (string * string);
  Automatability_Analysis_Parsed : list pyval
}.

Record DataFrame : Type := {
  columns : list string;
  rows : list Row
}.

(** [c in df.columns] *)
Definition has_column (df : DataFrame) (c : string) : bool :=
  existsb (String.eqb c) (columns df).

Fixpoint assoc {A : Type} (k : string) (l : list (string * A)) : option A :=
  match l with
  | [] => None
  | (k', v) :: rest => if String.eqb k' k then Some v else assoc k rest
  end.

(** [row[c]]: [None] is NaN. *)
Definition cell (c : string) (r : Row) : option string := assoc c (cells r).

(** One term of the mask [df[c] == v]. *)
Definition cell_is (c v : string) (r : Row) : bool :=
  match cell c r with
  | Some s => String.eqb s v
  | None => false
  end.

(** [df[mask]] *)
Definition select (mask : Row -> bool) (df : DataFrame) : DataFrame :=
  {| columns := columns df; rows := filter mask (rows df) |}.

(** The values of a column without the NaN ones, in row order. *)
Definition column_values (c : string) (df : DataFrame) : list string :=
  flat_map (fun r => match cell c r with Some s => [s] | None => [] end) (rows df).

Definition mem (s : string) (l : list string) : bool := existsb (String.eqb s) l.

(** Distinct values, in order of first occurrence. *)
Fixpoint unique_from (seen : list string) (l : list string) : list string :=
  match l with
  | [] => []
  | s :: rest =>
      if mem s seen then unique_from seen rest else s :: unique_from (s :: seen) rest
  end.

Definition unique (l : list string) : list string := unique_from [] l.

(** [df[c].nunique()] *)
Definition nunique (c : string) (df : DataFrame) : nat :=
  List.length (unique (column_values c df)).

Fixpoint insert_sorted (s : string) (l : list string) : list string :=
  match l with
  | [] => [s]
  | t :: rest => if String.leb s t then s :: l else t :: insert_sorted s rest
  end.

Definition sort_strings (l : list string) : list string :=
  fold_right insert_sorted [] l.

(** [df.groupby(c)]: one group per distinct non-NaN value of the column, in
    increasing order of the keys, each with its rows in frame order. *)
Definition groupby (c : string) (df : DataFrame) : list (string * list Row) :=
  map (fun k => (k, filter (cell_is c k) (rows df)))
      (sort_strings (unique (column_values c df))).

(** [Counter]: keys in order of first insertion. *)
Definition Counter := list (string * nat).

Fixpoint counter_add (c : Counter) (k : string) : Counter :=
  match c with
  | [] => [(k, 1)]
  | (k', n) :: rest =>
      if String.eqb k' k then (k', S n) :: rest else (k', n) :: counter_add rest k
  end.

(** [c.update(l)] *)
Definition counter_update (c : Counter) (l : list string) : Counter :=
  fold_left counter_add l c.

Definition counter_get (c : Counter) (k : string) : nat :=
  match assoc k c with Some n => n | None => 0 end.

(** One step of a stable sort by decreasing count: [x] goes behind the
    entries with a larger count and before all others. *)
Fixpoint insert_by_count (x : string * nat) (l : list (string * nat)) : list (string * nat) :=
  match l with
  | [] => [x]
  | y :: rest =>
      if snd x <? snd y then y :: insert_by_count x rest else x :: l
  end.

(** [sorted(items, key=count, reverse=True)]: equal counts keep their
    order. *)
Definition sort_by_count (l : list (string * nat)) : list (string * nat) :=
  fold_right insert_by_count [] l.

(** [df[c].value_counts()]: the distinct values with their counts, by
    decreasing count.  Among equal counts pandas leaves the order to its
    sorting routine; here the value seen first comes first. *)
Definition value_counts (c : string) (df : DataFrame) : list (string * nat) :=
  sort_by_count (counter_update [] (column_values c df)).

(** [c.most_common(n)] *)
Definition most_common (n : nat) (c : Counter) : list (string * nat) :=
  firstn n (sort_by_count c).

(** [s.mean()]: NaN entries are skipped, and the mean of nothing is NaN. *)
Definition mean (l : list pyfloat) : pyfloat :=
  let present := filter (fun x => negb (isnan x)) l in
  match present with
  | [] => FNaN
  | _ => fdiv_count (fold_left fadd present (FFin 0%Q)) (List.length present)
  end.

End Pandas.

Import Pandas.

(** ** The data behind the routes *)

(** A cell of the [Automatability_Analysis] column as [read_excel] gives it:
    missing, a [str], or a value of another type. *)
Inductive Cell : Type :=
| Blank
| Text (s : string)
| Other.

(** One row of the sheet.  The two scores are given as
    [pd.to_numeric(..., errors='coerce')] leaves them (lines 16-17): the
    number in the cell, or NaN for a cell that holds none. *)
Record SheetRow : Type := {
  sheet_auto_score : pyfloat;
  sheet_manual_score : pyfloat;
  sheet_cells : list (string * string);
  Automatability_Analysis : Cell
}.

Record Sheet : Type := {
  sheet_columns : list string;
  sheet_rows : list SheetRow
}.

(** The process: the file on disk ([None] when [read_excel] cannot read it)
    and the global [job_data]. *)
Record world : Type := {
  xlsx : option Sheet;
  job_data : option DataFrame
}.

(** The lambda of lines 19-21. *)
Definition parse_tasks (x : Cell) : result pyval :=
  match x with
  | Text s => if strip_startswith "[" s then json_loads s else Ok (PList [])
  | Blank | Other => Ok (PList [])
  end.

(** A decoded task cell as the list the routes iterate over.  Text that
    starts with a bracket decodes to a list or not at all
    ([parse_tasks_list] below); the other constructors are listed for
    totality. *)
Definition as_list (v : pyval) : list pyval :=
  match v with
  | PList l => l
  | _ => []
  end.

Definition dropna_scores (r : SheetRow) : bool :=
  negb (isnan (sheet_auto_score r)) && negb (isnan (sheet_manual_score r)).

Definition load_row (r : SheetRow) : result Row :=
  parsed <- parse_tasks (Automatability_Analysis r) ;;
  Ok {| auto_score := sheet_auto_score r;
        manual_score := sheet_manual_score r;
        cells := sheet_cells r;
        Automatability_Analysis_Parsed := as_list parsed |}.

(** The [try] block of [load_job_data] (lines 15-22). *)
Definition read_job_data (file : option Sheet) : result DataFrame :=
  match file with
  | None => Raise "FileNotFoundError"
  | Some df =>
      if negb (mem "auto_score" (sheet_columns df)) then Raise "KeyError"
      else if negb (mem "manual_score" (sheet_columns df)) then Raise "KeyError"
      else
        let kept := filter dropna_scores (sheet_rows df) in
        if negb (mem "Automatability_Analysis" (sheet_columns df)) then Raise "KeyError"
        else
          parsed <- mapM load_row kept ;;
          Ok {| columns := sheet_columns df ++ ["Automatability_Analysis_Parsed"];
                rows := parsed |}
  end.

(** [load_job_data]: the returned flag and the process afterwards. *)
Definition load_job_data (w : world) : bool * world :=
  match read_job_data (xlsx w) with
  | Ok df => (true, {| xlsx := xlsx w; job_data := Some df |})
  | Raise _ => (false, w)
  end.

(** ** Responses *)

Inductive response : Type :=
| Json (status : nat) (body : pyval)
| Raised (e : exn).

Definition no_data : response :=
  Json 500 (PDict [("error", PStr "No data available")]).

(** The guard every route starts with:
    [if job_data is None and not load_job_data(): return ..., 500]. *)
Definition with_job_data (w : world) (body : DataFrame -> response) : response * world :=
  match job_data w with
  | Some df => (body df, w)
  | None =>
      let (loaded, w') := load_job_data w in
      if loaded then
        match job_data w' with
        | Some df => (body df, w')
        | None => (Raised "AttributeError", w')
        end
      else (no_data, w')
  end.

(** [request.args.get('level', '4')] *)
Definition level_arg (level : option string) : string :=
  match level with
  | Some l => l
  | None => "4"
  end.

Definition level_column (level : string) : string :=
  ("level_" ++ level ++ "_name")%string.

(** The filter block the routes share (lines 105-109, 140-144, 233-237 and
    365-369): [if category:] holds for a category that is given and is not
    the empty string. *)
Definition filtered_data (job_data : DataFrame) (category : option string) (level : string) : DataFrame :=
  match category with
  | Some c =>
      if negb (String.eqb c EmptyString) then
        if has_column job_data (level_column level) then
          select (cell_is (level_column level) c) job_data
        else job_data
      else job_data
  | None => job_data
  end.

(** ** [/api/categories] *)

Definition categories_of (job_data : DataFrame) (level : option string) : response :=
  let level := level_arg level in
  if negb (has_column job_data (level_column level)) then
    Json 400 (PDict [("error", PStr ("Level " ++ level ++ " not available")%string)])
  else
    let category_counts := value_counts (level_column level) job_data in
    Json 200
      (PList (map (fun kc => PDict [("name", PStr (fst kc)); ("count", of_nat (snd kc))])
                  (sort_by_count category_counts))).

Definition get_categories (w : world) (level : option string) : response * world :=
  with_job_data w (fun job_data => categories_of job_data level).

(** ** [/api/stats] *)

Definition stats_of (job_data : DataFrame) : response :=
  let sector_count :=
    if has_column job_data "Sector" then nunique "Sector" job_data else 0 in
  if negb (has_column job_data "level_4_name") then Raised "KeyError"
  else
    Json 200
      (PDict [("total_jobs", of_nat (List.length (rows job_data)));
              ("unique_level_4_categories", of_nat (nunique "level_4_name" job_data));
              ("sector_count", of_nat sector_count);
              ("avg_auto_score", PFloat (round1 (mean (map auto_score (rows job_data)))));
              ("avg_manual_score", PFloat (round1 (mean (map manual_score (rows job_data)))))]).

Definition get_stats (w : world) : response * world :=
  with_job_data w stats_of.

(** ** [/api/jobs] *)

(** Lines 116-125.  The scores are carried as floats; for a column that
    holds whole numbers only pandas keeps integers, and the JSON number is
    the same. *)
Definition job_dict (df : DataFrame) (row : Row) : pyval :=
  PDict ([("auto_score", PFloat (auto_score row));
          ("manual_score", PFloat (manual_score row))]
         ++ flat_map
              (fun i =>
                 let level_col := level_column i in
                 if has_column df level_col then
                   [(level_col,
                     match cell level_col row with
                     | Some s => PStr s
                     | None => PFloat FNaN
                     end)]
                 else [])
              ["1"; "2"; "3"; "4"]).

Definition jobs_of (job_data : DataFrame) (category level : option string) : response :=
  let filtered := filtered_data job_data category (level_arg level) in
  match rows filtered with
  | [] => Json 200 (PList [])
  | _ => Json 200 (PList (map (job_dict filtered) (rows filtered)))
  end.

Definition get_jobs (w : world) (category level : option string) : response * world :=
  with_job_data w (fun job_data => jobs_of job_data category level).

(** ** Task frames: [pd.DataFrame(all_tasks)] *)

(** A frame built from a list of dicts has one row per dict and one column
    per key that occurs; a dict without the key has NaN there.  The tasks of
    a decoded cell are dicts.  For a list with an element that is not a
    dict, what [pd.DataFrame] builds depends on the element and on the
    version of pandas; the embedding raises there, and what it shows of a
    frame is shown of frames of dicts. *)
Definition as_dict (task : pyval) : result dict :=
  match task with
  | PDict d => Ok d
  | _ => Raise "AttributeError"
  end.

Definition task_frame (all_tasks : list pyval) : result (list dict) :=
  mapM as_dict all_tasks.

(** [tasks_df[c]]: [KeyError] when no task has the key. *)
Definition series (tasks_df : list dict) (c : string) : result (list (option pyval)) :=
  if existsb (fun d => has_key d c) tasks_df
  then Ok (map (fun d => dict_get d c) tasks_df)
  else Raise "KeyError".

(** One term of [series == s]. *)
Definition is_str (s : string) (v : option pyval) : bool :=
  match v with
  | Some (PStr t) => String.eqb t s
  | _ => false
  end.

(** One term of [series.str.lower() == s]: a value that is not a [str]
    becomes NaN under [.str.lower()]. *)
Definition lower_is (s : string) (v : option pyval) : bool :=
  match v with
  | Some (PStr t) => String.eqb (lower t) s
  | _ => false
  end.

Definition automatable (task : dict) : bool :=
  is_str "Automatable" (dict_get task "automatability_flag").

Definition count {A : Type} (p : A -> bool) (l : list A) : nat :=
  List.length (filter p l).

(** [(num / den) * 100].  For counts below 2^53 the float that Python
    computes is below 50, equal to 50 or above 50 exactly when this rational
    is: the quotient of two such counts is either one half or further from it
    than half the spacing of the floats there, and the product with 100 keeps
    the side. *)
Definition percentage (num den : nat) : Q :=
  Qred ((inject_Z (Z.of_nat num) / inject_Z (Z.of_nat den)) * 100)%Q.

Definition Qlt_bool (x y : Q) : bool := negb (Qle_bool y x).

(** ** [/api/automation_matrix] *)

(** Lines 194-208. *)
Definition quadrant_color (overall_automation_pct primary_automation_pct : Q) : string * string :=
  if Qlt_bool overall_automation_pct 50 && Qle_bool 50 primary_automation_pct then
    ("upper_left", "#8B5CF6")
  else if Qle_bool 50 overall_automation_pct && Qle_bool 50 primary_automation_pct then
    ("upper_right", "#EF4444")
  else if Qlt_bool overall_automation_pct 50 && Qlt_bool primary_automation_pct 50 then
    ("lower_left", "#10B981")
  else
    ("lower_right", "#F59E0B").

(** Line 182, for a non-empty frame. *)
Definition overall_automation_pct (tasks_df : list dict) : Q :=
  percentage (count automatable tasks_df) (List.length tasks_df).

Definition primary_tasks (tasks_df : list dict) : list dict :=
  filter (fun d => lower_is "primary" (dict_get d "importance_classification")) tasks_df.

(** Lines 188-192. *)
Definition primary_automation_pct (tasks_df : list dict) : Q :=
  match primary_tasks tasks_df with
  | [] => 0%Q
  | primary_tasks_df =>
      percentage (count automatable primary_tasks_df) (List.length primary_tasks_df)
  end.

(** [round(primary_automation_pct, 1)]: the integer 0 of line 189 stays an
    integer. *)
Definition rounded_primary_pct (tasks_df : list dict) : pyval :=
  match primary_tasks tasks_df with
  | [] => PInt 0
  | _ => PFloat (round1 (FFin (primary_automation_pct tasks_df)))
  end.

Section AutomationMatrix.

(** Whether pandas offers the [.str] accessor on a column: it does on a
    column of strings, and refuses columns it infers to be numeric or
    boolean.  The inference is internal to pandas; the routes are modelled
    for any such decision. *)
Variable str_accessor : list (option pyval) -> bool.

(** The body of the loop over the groups (lines 156-219): [None] for
    [continue], otherwise the entry appended to [results]. *)
Definition matrix_entry (level_4_category : string) (group_data : list Row) : result (option pyval) :=
  let all_tasks := flat_map Automatability_Analysis_Parsed group_data in
  match all_tasks with
  | [] => Ok None
  | _ =>
      tasks_df <- task_frame all_tasks ;;
      let total_tasks := List.length tasks_df in
      _ <- series tasks_df "automatability_flag" ;;
      classification <- series tasks_df "importance_classification" ;;
      if negb (str_accessor classification) then Raise "AttributeError"
      else
        let primary_tasks_df := primary_tasks tasks_df in
        let (quadrant, color) :=
          quadrant_color (overall_automation_pct tasks_df) (primary_automation_pct tasks_df) in
        Ok (Some (PDict
          [("category", PStr level_4_category);
           ("overall_automation_pct", PFloat (round1 (FFin (overall_automation_pct tasks_df))));
           ("primary_automation_pct", rounded_primary_pct tasks_df);
           ("total_tasks", of_nat total_tasks);
           ("primary_tasks", of_nat (List.length primary_tasks_df));
           ("total_jobs", of_nat (List.length group_data));
           ("quadrant", PStr quadrant);
           ("color", PStr color)]))
  end.

Definition entries (l : list (option pyval)) : list pyval :=
  flat_map (fun o => match o with Some p => [p] | None => [] end) l.

Definition automation_matrix_of (job_data : DataFrame) (category level : option string) : response :=
  let filtered := filtered_data job_data category (level_arg level) in
  match rows filtered with
  | [] => Json 200 (PDict [("matrix_data", PList [])])
  | _ =>
      if negb (has_column filtered "level_4_name") then Raised "KeyError"
      else
        match mapM (fun g => matrix_entry (fst g) (snd g)) (groupby "level_4_name" filtered) with
        | Ok results => Json 200 (PDict [("matrix_data", PList (entries results))])
        | Raise e => Raised e
        end
  end.

Definition get_automation_matrix (w : world) (category level : option string) : response * world :=
  with_job_data w (fun job_data => automation_matrix_of job_data category level).

End AutomationMatrix.

(** ** [/api/task_analysis] *)

(** [task.get('importance_classification', default).lower()] *)
Definition importance (default : string) (task : dict) : result string :=
  match dict_get task "importance_classification" with
  | None => Ok (lower default)
  | Some (PStr s) => Ok (lower s)
  | Some _ => Raise "AttributeError"
  end.

(** Lines 271-284; entries come in the order primary, secondary,
    ancillary, and a type without tasks has none. *)
Definition automation_by_type_entry (all_tasks : list dict) (task_type : string) : result (list (string * pyval)) :=
  kinds <- mapM (importance EmptyString) all_tasks ;;
  let type_tasks :=
    map fst (filter (fun tk => String.eqb (snd tk) task_type) (combine all_tasks kinds)) in
  match type_tasks with
  | [] => Ok []
  | _ =>
      let automatable_n := count automatable type_tasks in
      let total := List.length type_tasks in
      Ok [(task_type,
           PDict [("automatable", of_nat automatable_n);
                  ("non_automatable", of_nat (total - automatable_n));
                  ("total", of_nat total);
                  ("automation_percentage",
                   PFloat (round1 (FFin (percentage automatable_n total))))])]
  end.

(** The questions of one task that reach the counter (lines 308-316): the
    [str] items of a non-empty list, with underscores turned into spaces and
    title-cased. *)
Definition cleaned_questions (task : dict) : list string :=
  match dict_get task "question" with
  | Some (PList question_list) =>
      flat_map (fun question =>
                  match question with
                  | PStr q => [title (replace_char "_" " " q)]
                  | _ => []
                  end) question_list
  | _ => []
  end.

(** [extract_questions_fast] on the rows [df] of a frame whose columns are
    those of [tasks_df]. *)
Definition extract_questions_fast (tasks_df df : list dict) : result Counter :=
  _ <- series tasks_df "question" ;;
  Ok (counter_update [] (flat_map cleaned_questions df)).

Definition reasons (top : list (string * nat)) : pyval :=
  PList (map (fun rc => PDict [("reason", PStr (fst rc)); ("count", of_nat (snd rc))]) top).

Definition other_count (type_counts : Counter) : nat :=
  list_sum (map snd (filter (fun kc => negb (mem (fst kc) ["primary"; "secondary"; "ancillary"]))
                            type_counts)).

(** Lines 256-354, for a non-empty [all_tasks].  The [task.get] of line 257
    raises on the first task that is not a dict, so that past it every task
    is one; [tasks_df] of line 293 has these dicts as its rows. *)
Definition analyse_tasks (all_tasks : list pyval) (total_jobs : nat) : result pyval :=
  tasks <- mapM as_dict all_tasks ;;
  let automatable_count := count automatable tasks in
  let non_automatable_count := List.length all_tasks - automatable_count in
  task_types <- mapM (importance "Not specified") tasks ;;
  let type_counts := counter_update [] task_types in
  let primary_count := counter_get type_counts "primary" in
  let secondary_count := counter_get type_counts "secondary" in
  let ancillary_count := counter_get type_counts "ancillary" in
  primary_entry <- automation_by_type_entry tasks "primary" ;;
  secondary_entry <- automation_by_type_entry tasks "secondary" ;;
  ancillary_entry <- automation_by_type_entry tasks "ancillary" ;;
  let automation_by_type := primary_entry ++ secondary_entry ++ ancillary_entry in
  tasks_df <- task_frame all_tasks ;;
  _ <- series tasks_df "automatability_flag" ;;
  let automatable_df := filter automatable tasks_df in
  let non_automatable_df := filter (fun d => negb (automatable d)) tasks_df in
  automation_drivers <- extract_questions_fast tasks_df automatable_df ;;
  automation_barriers <- extract_questions_fast tasks_df non_automatable_df ;;
  let top_drivers := reasons (most_common 10 automation_drivers) in
  let top_barriers := reasons (most_common 10 automation_barriers) in
  Ok (PDict
    [("total_tasks", of_nat (List.length all_tasks));
     ("total_jobs", of_nat total_jobs);
     ("automation_status",
      PDict [("automatable", of_nat automatable_count);
             ("non_automatable", of_nat non_automatable_count)]);
     ("task_type_distribution",
      PDict [("primary", of_nat primary_count);
             ("secondary", of_nat secondary_count);
             ("ancillary", of_nat ancillary_count);
             ("other", of_nat (other_count type_counts))]);
     ("automation_by_type", PDict automation_by_type);
     ("automation_drivers", top_drivers);
     ("automation_barriers", top_barriers)]).

(** Lines 239-244. *)
Definition pooled_tasks (filtered : DataFrame) : list pyval :=
  flat_map Automatability_Analysis_Parsed (rows filtered).

Definition task_analysis_of (job_data : DataFrame) (category level : option string) : response :=
  let filtered := filtered_data job_data category (level_arg level) in
  let all_tasks := pooled_tasks filtered in
  match all_tasks with
  | [] =>
      Json 200 (PDict
        [("total_tasks", PInt 0);
         ("automation_status", PDict [("automatable", PInt 0); ("non_automatable", PInt 0)]);
         ("task_type_distribution",
          PDict [("primary", PInt 0); ("secondary", PInt 0); ("ancillary", PInt 0)]);
         ("automation_by_type", PDict []);
         ("automation_drivers", PList []);
         ("automation_barriers", PList [])])
  | _ =>
      match analyse_tasks all_tasks (List.length (rows filtered)) with
      | Ok payload => Json 200 payload
      | Raise e => Raised e
      end
  end.

Definition get_task_analysis (w : world) (category level : option string) : response * world :=
  with_job_data w (fun job_data => task_analysis_of job_data category level).

(** ** [/api/risk_distribution] *)

Definition low_risk (r : Row) : bool := flt (auto_score r) (FFin 30).
Definition medium_risk (r : Row) : bool :=
  fge (auto_score r) (FFin 30) && flt (auto_score r) (FFin 60).
Definition high_risk (r : Row) : bool := fge (auto_score r) (FFin 60).

Definition risk_distribution_of (job_data : DataFrame) (category level : option string) : response :=
  let filtered := filtered_data job_data category (level_arg level) in
  Json 200
    (PDict [("low_risk", of_nat (count low_risk (rows filtered)));
            ("medium_risk", of_nat (count medium_risk (rows filtered)));
            ("high_risk", of_nat (count high_risk (rows filtered)));
            ("total", of_nat (List.length (rows filtered)))]).

Definition get_risk_distribution (w : world) (category level : option string) : response * world :=
  with_job_data w (fun job_data => risk_distribution_of job_data category level).

(** ** Predicates and sample data used in the statements *)

(** Every frame held in [job_data] comes out of [read_job_data]: nothing
    else assigns the global. *)
Definition loaded (w : world) : Prop :=
  forall df, job_data w = Some df -> exists file, read_job_data file = Ok df.

(** The frame a route runs its body on: the one held in [job_data], or the
    one its guard loads from the file. *)
Definition serves (w : world) (df : DataFrame) : Prop :=
  job_data w = Some df \/ (job_data w = None /\ read_job_data (xlsx w) = Ok df).

(** A response that reports a failure to the caller: a status of 400 and
    above, or an exception that escapes the route. *)
Definition is_error (r : response) : bool :=
  match r with
  | Json status _ => 400 <=? status
  | Raised _ => true
  end.

(** A task [/api/task_analysis] can read: a dict whose classification, when
    it has one, is a string. *)
Definition well_typed (task : pyval) : bool :=
  match task with
  | PDict d =>
      match dict_get d "importance_classification" with
      | None | Some (PStr _) => true
      | Some _ => false
      end
  | _ => false
  end.

Definition carries (k : string) (task : pyval) : bool :=
  match task with
  | PDict d => has_key d k
  | _ => false
  end.

(** The task lists on which lines 256-354 run to their end: every task can
    be read, and the keys [automatability_flag] and [question] occur. *)
Definition analysable (all_tasks : list pyval) : bool :=
  forallb well_typed all_tasks
  && existsb (carries "automatability_flag") all_tasks
  && existsb (carries "question") all_tasks.

(** JSON text written as the parts between its double quotes: every second
    part is the content of a JSON string. *)
Definition quoted (parts : list string) : string :=
  String.concat (String "034" EmptyString) parts.

Definition legal_clerk_tasks : string :=
  quoted ["[{"; "automatability_flag"; ": "; "Automatable"; ", ";
          "importance_classification"; ": "; "Primary"; ", ";
          "question"; ": [";
          "years_experience"; ", "; "years_experience"; ", "; "physical_dexterity";
          "]}]"].

Definition legal_counsel_tasks : string :=
  quoted ["[{"; "automatability_flag"; ": "; "Not Automatable"; ", ";
          "importance_classification"; ": "; "Secondary"; ", ";
          "question"; ": ["; "human_judgement"; "]}]"].

Definition sample_columns : list string :=
  ["Sector"; "level_1_name"; "level_4_name"; "auto_score"; "manual_score";
   "Automatability_Analysis"].

Definition sample_row (auto manual : pyfloat) (sector level_1 level_4 : string) (tasks : Cell) : SheetRow :=
  {| sheet_auto_score := auto;
     sheet_manual_score := manual;
     sheet_cells := [("Sector", sector); ("level_1_name", level_1); ("level_4_name", level_4)];
     Automatability_Analysis := tasks |}.

(** Two legal occupations with one task each, a retail one without tasks,
    and a row whose score does not coerce. *)
Definition sample_sheet : Sheet :=
  {| sheet_columns := sample_columns;
     sheet_rows :=
       [sample_row (FFin 30) (FFin 40) "Services" "Professional" "Legal" (Text legal_clerk_tasks);
        sample_row (FFin 60) (FFin 20) "Services" "Professional" "Legal" (Text legal_counsel_tasks);
        sample_row (FFin 10) (FFin 5) "Trade" "Sales" "Retail" Blank;
        sample_row FNaN (FFin 50) "Trade" "Sales" "Retail" (Text "[")] |}.

(** The process before its first request. *)
Definition fresh (file : option Sheet) : world :=
  {| xlsx := file; job_data := None |}.

(** A decision on the [.str] accessor for the examples: offered on a
    column that holds a string.  (pandas offers it on some other columns
    too, one of nulls only among them; the theorems are stated for every
    decision.) *)
Definition has_str (column : list (option pyval)) : bool :=
  existsb (fun v => match v with Some (PStr _) => true | _ => false end) column.

(** The frame [load_job_data] builds from the sample sheet, and the process
    once it is loaded. *)
Definition sample_frame : DataFrame :=
  match read_job_data (Some sample_sheet) with
  | Ok df => df
  | Raise _ => {| columns := []; rows := [] |}
  end.

Definition sample_world : world :=
  {| xlsx := Some sample_sheet; job_data := Some sample_frame |}.

(** A sheet none of whose rows has both scores: the frame loaded from it has
    the columns and no row. *)
Definition unscored_sheet : Sheet :=
  {| sheet_columns := sample_columns;
     sheet_rows := [sample_row FNaN (FFin 50) "Trade" "Sales" "Retail" Blank] |}.

Definition unscored_frame : DataFrame :=
  {| columns := sample_columns ++ ["Automatability_Analysis_Parsed"]; rows := [] |}.

(** The payload of [/api/task_analysis] when no task is left (lines
    247-254). *)
Definition zero_analysis : dict :=
  [("total_tasks", PInt 0);
   ("automation_status", PDict [("automatable", PInt 0); ("non_automatable", PInt 0)]);
   ("task_type_distribution",
    PDict [("primary", PInt 0); ("secondary", PInt 0); ("ancillary", PInt 0)]);
   ("automation_by_type", PDict []);
   ("automation_drivers", PList []);
   ("automation_barriers", PList [])].

(** How often [k] occurs in [l]. *)
Definition occurrences (k : string) (l : list string) : nat :=
  count (String.eqb k) l.

Definition keys (c : Counter) : list string := map fst c.

(** [x] comes before [y] in a ranking: its count is at least as large. *)
Definition outranks (x y : string * nat) : Prop := snd y <= snd x.


(** The entry of the sample matrix: half of the legal tasks are automatable,
    and the only primary one is. *)
Definition legal_point : pyval :=
  PDict [("category", PStr "Legal");
         ("overall_automation_pct", PFloat (FFin 50));
         ("primary_automation_pct", PFloat (FFin 100));
         ("total_tasks", PInt 2);
         ("primary_tasks", PInt 1);
         ("total_jobs", PInt 2);
         ("quadrant", PStr "upper_right");
         ("color", PStr "#EF4444")].

(** An occupation whose second task has no automatability flag and whose
    third has neither a classification nor questions. *)
Definition mixed_tasks : string :=
  quoted ["[{"; "automatability_flag"; ": "; "Automatable"; ", ";
          "importance_classification"; ": "; "Primary"; ", ";
          "question"; ": ["; "years_experience"; "]}, {";
          "importance_classification"; ": "; "Ancillary"; ", ";
          "question"; ": []}, {";
          "automatability_flag"; ": "; "Automatable"; "}]"].

Definition mixed_sheet : Sheet :=
  {| sheet_columns := sample_columns;
     sheet_rows :=
       [sample_row (FFin 45) (FFin 55) "Services" "Professional" "Legal" (Text mixed_tasks)] |}.

Definition mixed_frame : DataFrame :=
  match read_job_data (Some mixed_sheet) with
  | Ok df => df
  | Raise _ => {| columns := []; rows := [] |}
  end.

(** An occupation whose only task has a classification and a question and
    no automatability flag. *)
Definition unflagged_tasks : string :=
  quoted ["[{"; "importance_classification"; ": "; "Primary"; ", ";
          "question"; ": ["; "years_experience"; "]}]"].

Definition unflagged_sheet : Sheet :=
  {| sheet_columns := sample_columns;
     sheet_rows :=
       [sample_row (FFin 45) (FFin 55) "Services" "Professional" "Legal" (Text unflagged_tasks)] |}.

Definition unflagged_frame : DataFrame :=
  match read_job_data (Some unflagged_sheet) with
  | Ok df => df
  | Raise _ => {| columns := []; rows := [] |}
  end.



Definition experience_ranking : pyval :=
  PList [PDict [("reason", PStr "Years Experience"); ("count", PInt 2)];
         PDict [("reason", PStr "Physical Dexterity"); ("count", PInt 1)]].

(** What [/api/task_analysis] answers for the mixed sheet and for the
    sample sheet. *)
Definition mixed_analysis : pyval :=
  PDict
    [("total_tasks", PInt 3); ("total_jobs", PInt 1);
     ("automation_status", PDict [("automatable", PInt 2); ("non_automatable", PInt 1)]);
     ("task_type_distribution",
      PDict [("primary", PInt 1); ("secondary", PInt 0); ("ancillary", PInt 1);
             ("other", PInt 1)]);
     ("automation_by_type",
      PDict
        [("primary",
          PDict [("automatable", PInt 1); ("non_automatable", PInt 0); ("total", PInt 1);
                 ("automation_percentage", PFloat (FFin 100))]);
         ("ancillary",
          PDict [("automatable", PInt 0); ("non_automatable", PInt 1); ("total", PInt 1);
                 ("automation_percentage", PFloat (FFin 0))])]);
     ("automation_drivers",
      PList [PDict [("reason", PStr "Years Experience"); ("count", PInt 1)]]);
     ("automation_barriers", PList [])].

Definition sample_analysis : dict :=
  [("total_tasks", PInt 2); ("total_jobs", PInt 3);
   ("automation_status", PDict [("automatable", PInt 1); ("non_automatable", PInt 1)]);
   ("task_type_distribution",
    PDict [("primary", PInt 1); ("secondary", PInt 1); ("ancillary", PInt 0);
           ("other", PInt 0)]);
   ("automation_by_type",
    PDict
      [("primary",
        PDict [("automatable", PInt 1); ("non_automatable", PInt 0); ("total", PInt 1);
               ("automation_percentage", PFloat (FFin 100))]);
       ("secondary",
        PDict [("automatable", PInt 0); ("non_automatable", PInt 1); ("total", PInt 1);
               ("automation_percentage", PFloat (FFin 0))])]);
   ("automation_drivers", experience_ranking);
   ("automation_barriers",
    PList [PDict [("reason", PStr "Human Judgement"); ("count", PInt 1)]])].

(** The legal clerk of the sample sheet, and an occupation with both scores
    whose task text opens a list and an object and ends there. *)
Definition malformed_sheet : Sheet :=
  {| sheet_columns := sample_columns;
     sheet_rows :=
       [sample_row (FFin 30) (FFin 40) "Services" "Professional" "Legal" (Text legal_clerk_tasks);
        sample_row (FFin 60) (FFin 20) "Services" "Professional" "Legal" (Text "[{")] |}.

(** ** [/] and [/api/levels] *)

(** What [index] returns: the rendered template, or a plain text. *)
Inductive page : Type :=
| Template (name : string)
| Plain (text : string).

Definition index (w : world) : page * world :=
  match job_data w with
  | Some _ => (Template "index.html", w)
  | None =>
      let (loaded, w') := load_job_data w in
      if loaded then (Template "index.html", w')
      else (Plain "Error: Could not load job data.", w')
  end.

(** [range(1, 5)], each number with its text in the f-strings. *)
Definition level_numbers : list (Z * string) :=
  [(1%Z, "1"); (2%Z, "2"); (3%Z, "3"); (4%Z, "4")].

Definition levels_of (job_data : DataFrame) : response :=
  Json 200
    (PList (flat_map
              (fun i =>
                 if has_column job_data (level_column (snd i)) then
                   [PDict [("level", PInt (fst i));
                           ("name", PStr ("Level " ++ snd i)%string);
                           ("count", of_nat (nunique (level_column (snd i)) job_data))]]
                 else [])
              level_numbers)).

Definition get_available_levels (w : world) : response * world :=
  with_job_data w levels_of.

(** ** Further predicates used in the statements *)

(** [p[k]] for a payload that is a dict. *)
Definition field (k : string) (p : pyval) : option pyval :=
  match p with
  | PDict d => dict_get d k
  | _ => None
  end.

(** The row of the frame that a row of the sheet becomes. *)
Definition row_of (r : SheetRow) (row : Row) : Prop :=
  auto_score row = sheet_auto_score r /\
  manual_score row = sheet_manual_score r /\
  cells row = sheet_cells r /\
  parse_tasks (Automatability_Analysis r) = Ok (PList (Automatability_Analysis_Parsed row)) /\
  isnan (auto_score row) = false /\
  isnan (manual_score row) = false.

(** One entry of the answer of [/api/categories]. *)
Definition category_entry (kc : string * nat) : pyval :=
  PDict [("name", PStr (fst kc)); ("count", of_nat (snd kc))].

(** Whether a row has a value in a column. *)
Definition has_cell (c : string) (r : Row) : bool :=
  match cell c r with
  | Some _ => true
  | None => false
  end.

(** One entry of the answer of [/api/levels]. *)
Definition level_entry (e : (Z * string) * nat) : pyval :=
  PDict [("level", PInt (fst (fst e)));
         ("name", PStr ("Level " ++ snd (fst e))%string);
         ("count", of_nat (snd e))].

(** The keys a job of [/api/jobs] can have. *)
Definition job_keys : list string :=
  ["auto_score"; "manual_score"; "level_1_name"; "level_2_name"; "level_3_name"; "level_4_name"].

(** The job listed for an occupation: its two scores, and its name at each
    of the levels 1 to 4 the data has (NaN where the cell is empty). *)
Definition job_of (df : DataFrame) (r : Row) (job : pyval) : Prop :=
  field "auto_score" job = Some (PFloat (auto_score r)) /\
  field "manual_score" job = Some (PFloat (manual_score r)) /\
  (forall i, In i ["1"; "2"; "3"; "4"] ->
     field (level_column i) job
     = if has_column df (level_column i) then
         Some (match cell (level_column i) r with
               | Some s => PStr s
               | None => PFloat FNaN
               end)
       else None) /\
  (forall k, field k job <> None -> In k job_keys).

(** The occupations of a level-4 category among the filtered ones, and
    their pooled tasks. *)
Definition group_of (filtered : DataFrame) (name : string) : list Row :=
  filter (cell_is "level_4_name" name) (rows filtered).

Definition group_tasks (filtered : DataFrame) (name : string) : list pyval :=
  flat_map Automatability_Analysis_Parsed (group_of filtered name).

(** What the matrix says about a category besides its percentages. *)
Definition matrix_point (filtered : DataFrame) (name : string) (point : pyval) : Prop :=
  field "category" point = Some (PStr name) /\
  field "total_jobs" point = Some (of_nat (List.length (group_of filtered name))) /\
  field "total_tasks" point = Some (of_nat (List.length (group_tasks filtered name))) /\
  exists primary,
    field "primary_tasks" point = Some (of_nat primary) /\
    primary <= List.length (group_tasks filtered name).

Definition is_dict (task : pyval) : bool :=
  match task with
  | PDict _ => true
  | _ => false
  end.

(** The column [importance_classification] of the frame of a task list. *)
Definition classifications (all_tasks : list pyval) : list (option pyval) :=
  map (fun task => field "importance_classification" task) all_tasks.

(** The task lists of a category, all of them dicts, for which the loop
    body of the matrix runs to its end: there is no task, or the keys
    [automatability_flag] and [importance_classification] occur and pandas
    offers [.str] on the classifications. *)
Definition plottable (str_accessor : list (option pyval) -> bool) (all_tasks : list pyval) : bool :=
  match all_tasks with
  | [] => true
  | _ =>
      existsb (carries "automatability_flag") all_tasks
      && existsb (carries "importance_classification") all_tasks
      && str_accessor (classifications all_tasks)
  end.

(** Among the reasons of [top] with the same count, the one that comes
    first in [questions] comes first: listed by count, they are the first of
    the reasons with that count, in the order in which they were first
    seen. *)
Definition ties_in_order (questions : list string) (top : list (string * nat)) : Prop :=
  forall n,
  exists rest,
    filter (fun reason => occurrences reason questions =? n) (unique questions)
    = map fst (filter (fun entry => snd entry =? n) top) ++ rest.


Fixpoint has_char (a : ascii) (s : string) : bool :=
  match s with
  | EmptyString => false
  | String c rest => Ascii.eqb c a || has_char a rest
  end.

(** What two questions must share to be counted as one reason: their
    letters, whatever the case, with underscores read as spaces. *)
Definition question_key (q : string) : string := lower (replace_char "_" " " q).

(** Text in which every character is an ASCII one: on such text the case
    mapping of the embedding is that of Python. *)
Fixpoint ascii_only (s : string) : bool :=
  match s with
  | EmptyString => true
  | String c rest => (nat_of_ascii c <? 128) && ascii_only rest
  end.

(** * Properties *)

(** ** The guard and the loaded frame *)

Lemma with_job_data_serves (w : world) (body : DataFrame -> response) (df : DataFrame) :
  serves w df ->
  with_job_data w body = (body df, {| xlsx := xlsx w; job_data := Some df |}).
Proof.
  unfold with_job_data, load_job_data. intros [H|[H Hread]]; rewrite H.
  - destruct w as [file jd]; cbn in *. now subst.
  - now rewrite Hread.
Qed.

Lemma serves_loaded (w : world) (df : DataFrame) :
  loaded w -> serves w df -> exists file, read_job_data file = Ok df.
Proof. intros Hw [H|[_ H]]; eauto. Qed.

Lemma mapM_Forall2 {A B : Type} (f : A -> result B) (l : list A) (bs : list B) :
  mapM f l = Ok bs -> Forall2 (fun a b => f a = Ok b) l bs.
Proof.
  revert bs. induction l as [|a l IH]; cbn; intros bs H.
  - inversion H. constructor.
  - destruct (f a) as [b|e] eqn:Hfa; cbn in H; [|discriminate].
    destruct (mapM f l) as [bs'|e]; cbn in H; [|discriminate].
    inversion H; subst. constructor; auto.
Qed.

Lemma mapM_length {A B : Type} (f : A -> result B) (l : list A) (bs : list B) :
  mapM f l = Ok bs -> List.length bs = List.length l.
Proof.
  intros H. apply mapM_Forall2 in H. symmetry. eapply Forall2_length; eauto.
Qed.

Lemma mapM_raises {A B : Type} (f : A -> result B) (l : list A) (a : A) (e : exn) :
  In a l -> f a = Raise e -> exists e', mapM f l = Raise e'.
Proof.
  induction l as [|x l IH]; cbn; [tauto|].
  intros [->|Hin] Hfa.
  - rewrite Hfa. cbn. eauto.
  - destruct (f x); cbn; [|eauto].
    destruct (IH Hin Hfa) as [e' ->]. cbn. eauto.
Qed.

Lemma mapM_total {A B : Type} (f : A -> result B) (l : list A) :
  (forall a, In a l -> exists b, f a = Ok b) -> exists bs, mapM f l = Ok bs.
Proof.
  induction l as [|x l IH]; cbn; intros H; [eauto|].
  destruct (H x (or_introl eq_refl)) as [b ->].
  destruct IH as [bs ->]; [intros; apply H; auto|]. cbn. eauto.
Qed.

(** [dropna] leaves no NaN score behind. *)
Lemma read_job_data_scores (file : option Sheet) (df : DataFrame) :
  read_job_data file = Ok df ->
  Forall (fun r => isnan (auto_score r) = false /\ isnan (manual_score r) = false) (rows df).
Proof.
  unfold read_job_data. destruct file as [sheet|]; [|discriminate].
  destruct (negb (mem "auto_score" _)); [discriminate|].
  destruct (negb (mem "manual_score" _)); [discriminate|].
  destruct (negb (mem "Automatability_Analysis" _)); [discriminate|].
  destruct (mapM load_row _) as [parsed|e] eqn:Hrows; cbn; [|discriminate].
  intros H; inversion H; subst; cbn. clear H.
  apply mapM_Forall2 in Hrows.
  assert (Hkept : Forall (fun r => dropna_scores r = true) (filter dropna_scores (sheet_rows sheet))).
  { apply Forall_forall. intros r Hr. now apply filter_In in Hr. }
  induction Hrows as [|r row l l' Hrow _ IH]; constructor.
  - inversion Hkept as [|? ? Hr _]; subst.
    unfold load_row in Hrow. destruct (parse_tasks _); cbn in Hrow; [|discriminate].
    inversion Hrow; subst; cbn.
    unfold dropna_scores in Hr. apply andb_prop in Hr as [H1 H2].
    split; now apply negb_true_iff.
  - apply IH. now inversion Hkept.
Qed.

Lemma filtered_data_rows_incl (df : DataFrame) (category : option string) (level : string) :
  incl (rows (filtered_data df category level)) (rows df).
Proof.
  unfold filtered_data.
  destruct category as [c|]; [|apply incl_refl].
  destruct (negb (c =? EmptyString)%string); [|apply incl_refl].
  destruct (has_column df _); [|apply incl_refl].
  cbn. intros r Hr. now apply filter_In in Hr.
Qed.

(** ** Risk buckets *)

Lemma risk_bucket_exclusive (r : Row) :
  isnan (auto_score r) = false ->
  (low_risk r = true /\ medium_risk r = false /\ high_risk r = false)
  \/ (low_risk r = false /\ medium_risk r = true /\ high_risk r = false)
  \/ (low_risk r = false /\ medium_risk r = false /\ high_risk r = true).
Proof.
  unfold low_risk, medium_risk, high_risk.
  destruct (auto_score r) as [| |q|]; cbn; try discriminate; auto.
  intros _.
  destruct (Qle_bool 30 q) eqn:H30; destruct (Qle_bool 60 q) eqn:H60; cbn; auto.
  exfalso. apply Qle_bool_iff in H60.
  assert (H : (30 <= q)%Q) by (eapply Qle_trans; [|exact H60]; discriminate).
  apply Qle_bool_iff in H. congruence.
Qed.

Lemma risk_counts_sum (l : list Row) :
  Forall (fun r => isnan (auto_score r) = false) l ->
  count low_risk l + count medium_risk l + count high_risk l = List.length l.
Proof.
  unfold count. induction 1 as [|r l Hr _ IH]; [reflexivity|]. cbn.
  destruct (risk_bucket_exclusive r Hr) as [(-> & -> & ->)|[(-> & -> & ->)|(-> & -> & ->)]];
    cbn; lia.
Qed.

(** C5.  The risk distribution partitions the occupations it counts: on
    every frame that [load_job_data] produced, and for every filter, the
    route answers with the three bucket counts and the total, the counts add
    up to the total, every counted occupation falls in exactly one bucket, a
    score of 30 falls in the medium bucket and a score of 60 in the high
    one. *)
Theorem risk_buckets_partition (w : world) (df : DataFrame) (category level : option string) :
  loaded w ->
  serves w df ->
  let occupations := rows (filtered_data df category (level_arg level)) in
  fst (get_risk_distribution w category level)
  = Json 200 (PDict [("low_risk", of_nat (count low_risk occupations));
                     ("medium_risk", of_nat (count medium_risk occupations));
                     ("high_risk", of_nat (count high_risk occupations));
                     ("total", of_nat (List.length occupations))]) /\
  count low_risk occupations + count medium_risk occupations
    + count high_risk occupations = List.length occupations /\
  (forall r, In r occupations ->
     (low_risk r = true /\ medium_risk r = false /\ high_risk r = false)
     \/ (low_risk r = false /\ medium_risk r = true /\ high_risk r = false)
     \/ (low_risk r = false /\ medium_risk r = false /\ high_risk r = true)) /\
  (forall r q, auto_score r = FFin q -> (q == 30)%Q ->
     low_risk r = false /\ medium_risk r = true /\ high_risk r = false) /\
  (forall r q, auto_score r = FFin q -> (q == 60)%Q ->
     low_risk r = false /\ medium_risk r = false /\ high_risk r = true).
Proof.
  intros Hw Hdf occupations.
  destruct (serves_loaded w df Hw Hdf) as [file Hfile].
  assert (Hscores : Forall (fun r => isnan (auto_score r) = false) occupations).
  { apply Forall_forall. intros r Hr.
    apply filtered_data_rows_incl in Hr.
    pose proof (read_job_data_scores _ _ Hfile) as Hall.
    rewrite Forall_forall in Hall. now apply Hall. }
  split; [|split; [|split; [|split]]].
  - unfold get_risk_distribution.
    now rewrite (with_job_data_serves w _ df Hdf).
  - now apply risk_counts_sum.
  - intros r Hr. apply risk_bucket_exclusive.
    rewrite Forall_forall in Hscores. now apply Hscores.
  - intros r q Hr Hq. unfold low_risk, medium_risk, high_risk.
    rewrite Hr. cbn. now rewrite Hq.
  - intros r q Hr Hq. unfold low_risk, medium_risk, high_risk.
    rewrite Hr. cbn. now rewrite Hq.
Qed.

Lemma sample_world_loaded : loaded sample_world.
Proof.
  intros df Hdf. exists (Some sample_sheet).
  cbn in Hdf. inversion Hdf. reflexivity.
Defined.

Lemma sample_world_serves : serves sample_world sample_frame.
Proof. left. reflexivity. Defined.

Lemma risk_buckets_partition_witness :
  let occupations := rows (filtered_data sample_frame None (level_arg None)) in
  fst (get_risk_distribution sample_world None None)
  = Json 200 (PDict [("low_risk", of_nat (count low_risk occupations));
                     ("medium_risk", of_nat (count medium_risk occupations));
                     ("high_risk", of_nat (count high_risk occupations));
                     ("total", of_nat (List.length occupations))]) /\
  count low_risk occupations + count medium_risk occupations
    + count high_risk occupations = List.length occupations /\
  (forall r, In r occupations ->
     (low_risk r = true /\ medium_risk r = false /\ high_risk r = false)
     \/ (low_risk r = false /\ medium_risk r = true /\ high_risk r = false)
     \/ (low_risk r = false /\ medium_risk r = false /\ high_risk r = true)) /\
  (forall r q, auto_score r = FFin q -> (q == 30)%Q ->
     low_risk r = false /\ medium_risk r = true /\ high_risk r = false) /\
  (forall r q, auto_score r = FFin q -> (q == 60)%Q ->
     low_risk r = false /\ medium_risk r = false /\ high_risk r = true).
Proof.
  exact (risk_buckets_partition sample_world sample_frame None None
           sample_world_loaded sample_world_serves).
Defined.

(** ** The taxonomy filter *)

Lemma filtered_data_absent_column (df : DataFrame) (category : option string) (level : string) :
  has_column df (level_column level) = false ->
  filtered_data df category level = df.
Proof.
  intros H. unfold filtered_data. rewrite H.
  destruct category as [c|]; [|reflexivity].
  now destruct (negb _).
Qed.

(** C6.  Without a category the filter is the identity: the frame comes
    back as it is, with the same rows in the same order, whatever the level;
    [/api/jobs] then lists every occupation of the frame, in frame order. *)
Theorem filter_absent_category_identity (df : DataFrame) (level : string) :
  filtered_data df None level = df /\
  rows (filtered_data df None level) = rows df /\
  jobs_of df None (Some level) = Json 200 (PList (map (job_dict df) (rows df))).
Proof.
  repeat split. unfold jobs_of. cbn.
  now destruct (rows df).
Qed.

(** C9.  An empty category string is treated like an absent category: each
    route that takes the filter answers as it does without a category, that
    is over the whole frame. *)
Theorem empty_category_is_absent
    (str_accessor : list (option pyval) -> bool) (w : world) (level : option string) :
  (forall df l, filtered_data df (Some EmptyString) l = df) /\
  get_jobs w (Some EmptyString) level = get_jobs w None level /\
  get_automation_matrix str_accessor w (Some EmptyString) level
  = get_automation_matrix str_accessor w None level /\
  get_task_analysis w (Some EmptyString) level = get_task_analysis w None level /\
  get_risk_distribution w (Some EmptyString) level = get_risk_distribution w None level.
Proof.
  repeat split.
Qed.

(** C2, as the code has it.  A level without a column is reported by
    [/api/categories] only, with status 400.  The routes that take a category
    skip the filter when the column is missing: they answer as they do
    without a category, over the whole frame. *)
Theorem absent_level_column
    (str_accessor : list (option pyval) -> bool) (w : world) (df : DataFrame)
    (category level : option string) :
  serves w df ->
  has_column df (level_column (level_arg level)) = false ->
  fst (get_categories w level)
  = Json 400 (PDict [("error", PStr ("Level " ++ level_arg level ++ " not available")%string)]) /\
  get_jobs w category level = get_jobs w None level /\
  get_automation_matrix str_accessor w category level
  = get_automation_matrix str_accessor w None level /\
  get_task_analysis w category level = get_task_analysis w None level /\
  get_risk_distribution w category level = get_risk_distribution w None level.
Proof.
  intros Hdf Hcol.
  unfold get_categories, get_jobs, get_automation_matrix, get_task_analysis,
    get_risk_distribution.
  rewrite !(with_job_data_serves w _ df Hdf). cbn [fst].
  unfold categories_of, jobs_of, automation_matrix_of, task_analysis_of,
    risk_distribution_of.
  rewrite Hcol, !(filtered_data_absent_column df category _ Hcol). cbn.
  repeat split.
Qed.

Lemma absent_level_column_witness :
  fst (get_categories sample_world (Some "9"))
  = Json 400 (PDict [("error", PStr "Level 9 not available")]) /\
  get_jobs sample_world (Some "Legal") (Some "9") = get_jobs sample_world None (Some "9") /\
  get_automation_matrix has_str sample_world (Some "Legal") (Some "9")
  = get_automation_matrix has_str sample_world None (Some "9") /\
  get_task_analysis sample_world (Some "Legal") (Some "9")
  = get_task_analysis sample_world None (Some "9") /\
  get_risk_distribution sample_world (Some "Legal") (Some "9")
  = get_risk_distribution sample_world None (Some "9").
Proof.
  exact (absent_level_column has_str sample_world sample_frame (Some "Legal") (Some "9")
           sample_world_serves eq_refl).
Defined.

(** C2, as stated, fails: with the category Legal and the level 9, which
    has no column, the risk distribution is not an error but the counts of
    the whole frame (three occupations, two of them legal). *)
Lemma invalid_level_not_reported :
  has_column sample_frame (level_column "9") = false /\
  fst (get_risk_distribution sample_world (Some "Legal") (Some "9"))
  = Json 200 (PDict [("low_risk", PInt 1); ("medium_risk", PInt 1);
                     ("high_risk", PInt 1); ("total", PInt 3)]) /\
  is_error (fst (get_risk_distribution sample_world (Some "Legal") (Some "9"))) = false /\
  fst (get_risk_distribution sample_world (Some "Legal") (Some "4"))
  = Json 200 (PDict [("low_risk", PInt 0); ("medium_risk", PInt 1);
                     ("high_risk", PInt 1); ("total", PInt 2)]).
Proof. repeat split. Qed.

(** ** Statistics of an empty frame *)

(** C8, as the code has it.  Over a frame without occupations that has the
    level-4 column, [/api/stats] answers with status 200, zero counts, and NaN
    for both averages: the mean of an empty column, which [round] and
    [jsonify] pass on as it is. *)
Theorem stats_of_no_occupations (w : world) (df : DataFrame) :
  serves w df ->
  rows df = [] ->
  has_column df "level_4_name" = true ->
  fst (get_stats w)
  = Json 200 (PDict [("total_jobs", PInt 0);
                     ("unique_level_4_categories", PInt 0);
                     ("sector_count", PInt 0);
                     ("avg_auto_score", PFloat FNaN);
                     ("avg_manual_score", PFloat FNaN)]).
Proof.
  intros Hdf Hrows Hcol. unfold get_stats.
  rewrite (with_job_data_serves w _ df Hdf). cbn [fst].
  unfold stats_of, nunique, column_values. rewrite Hcol, Hrows. cbn.
  now destruct (has_column df "Sector").
Qed.

Lemma unscored_world_serves : serves (fresh (Some unscored_sheet)) unscored_frame.
Proof. right. split; reflexivity. Defined.

Lemma stats_of_no_occupations_witness :
  fst (get_stats (fresh (Some unscored_sheet)))
  = Json 200 (PDict [("total_jobs", PInt 0);
                     ("unique_level_4_categories", PInt 0);
                     ("sector_count", PInt 0);
                     ("avg_auto_score", PFloat FNaN);
                     ("avg_manual_score", PFloat FNaN)]).
Proof.
  exact (stats_of_no_occupations (fresh (Some unscored_sheet)) unscored_frame
           unscored_world_serves eq_refl eq_refl).
Defined.

(** C8, as stated, fails: for a sheet whose only row has no auto score the
    frame is empty, and the average reported is NaN, which is neither zero
    nor [None]. *)
Lemma stats_empty_reports_nan :
  exists payload average,
    fst (get_stats (fresh (Some unscored_sheet))) = Json 200 (PDict payload) /\
    dict_get payload "total_jobs" = Some (PInt 0) /\
    dict_get payload "avg_auto_score" = Some average /\
    dict_get payload "avg_manual_score" = Some average /\
    average = PFloat FNaN /\
    average <> PNone /\ average <> PInt 0 /\ (forall q, average <> PFloat (FFin q)).
Proof.
  eexists. exists (PFloat FNaN).
  split; [reflexivity|]. repeat split; discriminate.
Qed.

(** ** Task analysis without tasks *)

(** C4, on the code.  When the filtered occupations have no task, the
    route answers with the fixed payload of lines 247-254.  Its
    [task_type_distribution] has the keys primary, secondary and ancillary
    and no key other, and the payload has no key total_jobs, both of which
    the answer for a non-empty task list has. *)
Theorem task_analysis_zero_shape (w : world) (df : DataFrame) (category level : option string) :
  serves w df ->
  pooled_tasks (filtered_data df category (level_arg level)) = [] ->
  fst (get_task_analysis w category level) = Json 200 (PDict zero_analysis) /\
  dict_get zero_analysis "total_tasks" = Some (PInt 0) /\
  dict_get zero_analysis "automation_status"
  = Some (PDict [("automatable", PInt 0); ("non_automatable", PInt 0)]) /\
  dict_get zero_analysis "automation_drivers" = Some (PList []) /\
  dict_get zero_analysis "automation_barriers" = Some (PList []) /\
  (exists distribution,
     dict_get zero_analysis "task_type_distribution" = Some (PDict distribution) /\
     dict_get distribution "primary" = Some (PInt 0) /\
     dict_get distribution "secondary" = Some (PInt 0) /\
     dict_get distribution "ancillary" = Some (PInt 0) /\
     dict_get distribution "other" = None) /\
  dict_get zero_analysis "total_jobs" = None.
Proof.
  intros Hdf Htasks. split.
  - unfold get_task_analysis.
    rewrite (with_job_data_serves w _ df Hdf). cbn [fst].
    unfold task_analysis_of. now rewrite Htasks.
  - repeat split. eexists. repeat split.
Qed.

Lemma task_analysis_zero_shape_witness :
  fst (get_task_analysis sample_world (Some "Retail") None) = Json 200 (PDict zero_analysis) /\
  dict_get zero_analysis "total_tasks" = Some (PInt 0) /\
  dict_get zero_analysis "automation_status"
  = Some (PDict [("automatable", PInt 0); ("non_automatable", PInt 0)]) /\
  dict_get zero_analysis "automation_drivers" = Some (PList []) /\
  dict_get zero_analysis "automation_barriers" = Some (PList []) /\
  (exists distribution,
     dict_get zero_analysis "task_type_distribution" = Some (PDict distribution) /\
     dict_get distribution "primary" = Some (PInt 0) /\
     dict_get distribution "secondary" = Some (PInt 0) /\
     dict_get distribution "ancillary" = Some (PInt 0) /\
     dict_get distribution "other" = None) /\
  dict_get zero_analysis "total_jobs" = None.
Proof.
  exact (task_analysis_zero_shape sample_world sample_frame (Some "Retail") None
           sample_world_serves eq_refl).
Defined.

(** ** The automation matrix *)

Lemma percentage_exact (num den : nat) :
  (percentage num den == inject_Z (Z.of_nat num) / inject_Z (Z.of_nat den) * 100)%Q.
Proof. unfold percentage. apply Qred_correct. Qed.

(** A percentage is at least 50 when at least half of the tasks are
    counted, and equal to 50 when exactly half are. *)
Lemma percentage_half (num den : nat) :
  0 < den ->
  ((50 <= percentage num den)%Q <-> den <= 2 * num) /\
  ((percentage num den == 50)%Q <-> den = 2 * num).
Proof.
  intros Hden.
  assert (Hp : (percentage num den == (Z.of_nat (100 * num) # Pos.of_nat den))%Q).
  { rewrite percentage_exact. destruct den as [|n]; [lia|].
    unfold Qeq, Qdiv, Qmult, Qinv, inject_Z. cbn [Qnum Qden].
    rewrite Nat2Z.inj_mul.
    change (Z.of_nat (S n)) with (Z.pos (Pos.of_succ_nat n)).
    cbn [Qnum Qden Z.mul]. rewrite Pos.of_nat_succ.
    rewrite Pos.mul_1_l, Pos.mul_1_r. change (Z.of_nat 100) with 100%Z. lia. }
  assert (Hd : Z.pos (Pos.of_nat den) = Z.of_nat den).
  { destruct den as [|n]; [lia|].
    now rewrite <- Pos.of_nat_succ, Zpos_P_of_succ_nat, Nat2Z.inj_succ. }
  rewrite Hp. unfold Qle, Qeq. cbn [Qnum Qden]. rewrite Hd.
  split; split; lia.
Qed.

Lemma Qlt_bool_iff (x y : Q) : Qlt_bool x y = true <-> (x < y)%Q.
Proof.
  unfold Qlt_bool. rewrite negb_true_iff. split.
  - intros H. apply Qnot_le_lt. intros Hle. apply Qle_bool_iff in Hle. congruence.
  - intros H. destruct (Qle_bool y x) eqn:Hle; [|reflexivity].
    apply Qle_bool_iff in Hle. exfalso. exact (Qlt_not_le _ _ H Hle).
Qed.

(** The four branches of lines 197-208, read off the two percentages. *)
Lemma quadrant_color_thresholds (overall primary : Q) :
  ((50 <= overall)%Q /\ (50 <= primary)%Q ->
     quadrant_color overall primary = ("upper_right", "#EF4444")) /\
  ((overall < 50)%Q /\ (50 <= primary)%Q ->
     quadrant_color overall primary = ("upper_left", "#8B5CF6")) /\
  ((overall < 50)%Q /\ (primary < 50)%Q ->
     quadrant_color overall primary = ("lower_left", "#10B981")) /\
  ((50 <= overall)%Q /\ (primary < 50)%Q ->
     quadrant_color overall primary = ("lower_right", "#F59E0B")).
Proof.
  assert (Hge : forall x, (50 <= x)%Q -> Qle_bool 50 x = true)
    by (intros x; apply Qle_bool_iff).
  assert (Hlt : forall x, (x < 50)%Q -> Qle_bool 50 x = false).
  { intros x Hx. apply negb_true_iff. now apply Qlt_bool_iff. }
  unfold quadrant_color, Qlt_bool.
  repeat split; intros [Ho Hp];
    first [apply Hge in Ho | apply Hlt in Ho];
    first [apply Hge in Hp | apply Hlt in Hp];
    now rewrite Ho, Hp.
Qed.

Lemma Forall2_In_r {A B : Type} (R : A -> B -> Prop) (l : list A) (l' : list B) (b : B) :
  Forall2 R l l' -> In b l' -> exists a, In a l /\ R a b.
Proof.
  induction 1 as [|x y l l' Hxy _ IH]; cbn; [tauto|].
  intros [->|Hin]; [eauto|].
  destruct (IH Hin) as (a & Ha & HR). eauto.
Qed.

Lemma entries_In (l : list (option pyval)) (p : pyval) :
  In p (entries l) -> In (Some p) l.
Proof.
  unfold entries. rewrite in_flat_map. intros ([q|] & Hin & Hp); cbn in Hp; [|tauto].
  destruct Hp as [->|[]]. exact Hin.
Qed.

(** What an entry of the matrix is made of. *)
Lemma matrix_entry_inv (str_accessor : list (option pyval) -> bool)
    (level_4_category : string) (group_data : list Row) (point : pyval) :
  matrix_entry str_accessor level_4_category group_data = Ok (Some point) ->
  exists tasks_df,
    task_frame (flat_map Automatability_Analysis_Parsed group_data) = Ok tasks_df /\
    tasks_df <> [] /\
    point = PDict
      [("category", PStr level_4_category);
       ("overall_automation_pct", PFloat (round1 (FFin (overall_automation_pct tasks_df))));
       ("primary_automation_pct", rounded_primary_pct tasks_df);
       ("total_tasks", of_nat (List.length tasks_df));
       ("primary_tasks", of_nat (List.length (primary_tasks tasks_df)));
       ("total_jobs", of_nat (List.length group_data));
       ("quadrant",
        PStr (fst (quadrant_color (overall_automation_pct tasks_df)
                                  (primary_automation_pct tasks_df))));
       ("color",
        PStr (snd (quadrant_color (overall_automation_pct tasks_df)
                                  (primary_automation_pct tasks_df))))].
Proof.
  unfold matrix_entry.
  destruct (flat_map Automatability_Analysis_Parsed group_data) as [|t ts] eqn:Htasks;
    [discriminate|].
  destruct (task_frame (t :: ts)) as [tasks_df|e] eqn:Hframe; cbn [bind]; [|discriminate].
  destruct (series tasks_df "automatability_flag"); cbn [bind]; [|discriminate].
  destruct (series tasks_df "importance_classification"); cbn [bind]; [|discriminate].
  destruct (negb (str_accessor _)); [discriminate|].
  destruct (quadrant_color _ _) as [quadrant color] eqn:Hq.
  intros H. exists tasks_df. split; [reflexivity|]. split.
  - apply mapM_length in Hframe. intros ->. discriminate.
  - injection H as <-. now rewrite Hq.
Qed.

(** C1.  Every entry of the matrix is classified by comparing the two
    percentages of its category with 50, the value 50 itself counting as
    high: both at 50 (or above) give upper_right, overall below and primary
    at or above give upper_left, both below give lower_left, overall at or
    above and primary below give lower_right.  The percentages compared are
    those of lines 182 and 192, before they are rounded for the payload. *)
Theorem matrix_quadrant_thresholds
    (str_accessor : list (option pyval) -> bool) (w : world) (df : DataFrame)
    (category level : option string) (points : list pyval) :
  serves w df ->
  fst (get_automation_matrix str_accessor w category level)
  = Json 200 (PDict [("matrix_data", PList points)]) ->
  forall point, In point points ->
  exists level_4_category group_data tasks_df fields quadrant,
    In (level_4_category, group_data)
       (groupby "level_4_name" (filtered_data df category (level_arg level))) /\
    task_frame (flat_map Automatability_Analysis_Parsed group_data) = Ok tasks_df /\
    tasks_df <> [] /\
    point = PDict fields /\
    dict_get fields "category" = Some (PStr level_4_category) /\
    dict_get fields "quadrant" = Some (PStr quadrant) /\
    let overall := overall_automation_pct tasks_df in
    let primary := primary_automation_pct tasks_df in
    ((overall == 50)%Q /\ (primary == 50)%Q -> quadrant = "upper_right") /\
    ((50 <= overall)%Q /\ (50 <= primary)%Q -> quadrant = "upper_right") /\
    ((overall < 50)%Q /\ (50 <= primary)%Q -> quadrant = "upper_left") /\
    ((overall < 50)%Q /\ (primary < 50)%Q -> quadrant = "lower_left") /\
    ((50 <= overall)%Q /\ (primary < 50)%Q -> quadrant = "lower_right").
Proof.
  intros Hdf Hresp point Hpoint.
  unfold get_automation_matrix in Hresp.
  rewrite (with_job_data_serves w _ df Hdf) in Hresp. cbn [fst] in Hresp.
  unfold automation_matrix_of in Hresp.
  destruct (rows (filtered_data df category (level_arg level))) eqn:Hrows.
  { inversion Hresp; subst. destruct Hpoint. }
  destruct (negb (has_column _ _)); [discriminate|].
  destruct (mapM _ _) as [results|e] eqn:Hresults; [|discriminate].
  inversion Hresp; subst. clear Hresp.
  apply entries_In in Hpoint.
  apply mapM_Forall2 in Hresults.
  destruct (Forall2_In_r _ _ _ _ Hresults Hpoint) as ([name group] & Hgroup & Hentry).
  cbn [fst snd] in Hentry.
  apply matrix_entry_inv in Hentry as (tasks_df & Hframe & Hne & ->).
  exists name, group, tasks_df. eexists. eexists.
  split; [exact Hgroup|]. split; [exact Hframe|]. split; [exact Hne|].
  split; [reflexivity|]. split; [reflexivity|]. split; [reflexivity|].
  cbn zeta.
  destruct (quadrant_color_thresholds (overall_automation_pct tasks_df)
              (primary_automation_pct tasks_df)) as (Hur & Hul & Hll & Hlr).
  repeat split.
  - intros [Ho Hp]. rewrite Hur; [reflexivity|].
    split; [rewrite Ho | rewrite Hp]; apply Qle_refl.
  - intros H. now rewrite Hur.
  - intros H. now rewrite Hul.
  - intros H. now rewrite Hll.
  - intros H. now rewrite Hlr.
Qed.

(** The sample sheet: two legal occupations with one task each, the
    primary one automatable and the secondary one not. *)
Example sample_automation_matrix :
  fst (get_automation_matrix has_str sample_world None None)
  = Json 200 (PDict [("matrix_data", PList [legal_point])]).
Proof. reflexivity. Qed.

Lemma matrix_quadrant_thresholds_witness :
  exists level_4_category group_data tasks_df fields quadrant,
    In (level_4_category, group_data)
       (groupby "level_4_name" (filtered_data sample_frame None (level_arg None))) /\
    task_frame (flat_map Automatability_Analysis_Parsed group_data) = Ok tasks_df /\
    tasks_df <> [] /\
    legal_point = PDict fields /\
    dict_get fields "category" = Some (PStr level_4_category) /\
    dict_get fields "quadrant" = Some (PStr quadrant) /\
    let overall := overall_automation_pct tasks_df in
    let primary := primary_automation_pct tasks_df in
    ((overall == 50)%Q /\ (primary == 50)%Q -> quadrant = "upper_right") /\
    ((50 <= overall)%Q /\ (50 <= primary)%Q -> quadrant = "upper_right") /\
    ((overall < 50)%Q /\ (50 <= primary)%Q -> quadrant = "upper_left") /\
    ((overall < 50)%Q /\ (primary < 50)%Q -> quadrant = "lower_left") /\
    ((50 <= overall)%Q /\ (primary < 50)%Q -> quadrant = "lower_right").
Proof.
  apply (matrix_quadrant_thresholds has_str sample_world sample_frame None None
           [legal_point] sample_world_serves).
  - vm_compute. reflexivity.
  - left. reflexivity.
Defined.

(** The payload carries the percentages rounded to one decimal; the
    quadrant is decided before rounding.  With 1000 automatable tasks out of
    2001 the payload shows 50.0 and the category counts as below 50. *)
Remark quadrant_decided_before_rounding :
  round1 (FFin (percentage 1000 2001)) = FFin 50 /\
  fst (quadrant_color (percentage 1000 2001) 50) = "upper_left".
Proof. split; reflexivity. Qed.

(** ** Counters and rankings *)

Lemma count_cons {A : Type} (p : A -> bool) (x : A) (l : list A) :
  count p (x :: l) = (if p x then 1 else 0) + count p l.
Proof. unfold count. cbn. now destruct (p x). Qed.

Lemma count_complement {A : Type} (p : A -> bool) (l : list A) :
  count p l + count (fun a => negb (p a)) l = List.length l.
Proof.
  induction l as [|x l IH]; [reflexivity|].
  rewrite !count_cons. cbn [List.length]. destruct (p x); cbn; lia.
Qed.

Lemma occurrences_In (k : string) (l : list string) :
  In k l <-> 1 <= occurrences k l.
Proof.
  unfold occurrences. induction l as [|x l IH]; [cbn; split; [tauto|lia]|].
  rewrite count_cons. cbn [In]. destruct (String.eqb_spec k x) as [->|Hne].
  - split; [lia|auto].
  - rewrite IH. cbn. split; [intros [H|H]; [congruence|exact H]|auto].
Qed.

Lemma counter_get_add (c : Counter) (k k' : string) :
  counter_get (counter_add c k) k'
  = (if String.eqb k' k then 1 else 0) + counter_get c k'.
Proof.
  unfold counter_get. induction c as [|[x n] c IH]; cbn.
  - rewrite String.eqb_sym. now destruct (String.eqb k' k).
  - destruct (String.eqb_spec x k) as [->|Hxk]; cbn.
    + rewrite (String.eqb_sym k' k). now destruct (String.eqb k k').
    + destruct (String.eqb_spec x k') as [->|Hxk'].
      * destruct (String.eqb_spec k' k); [congruence|reflexivity].
      * exact IH.
Qed.

Lemma counter_get_update (l : list string) (c : Counter) (k : string) :
  counter_get (counter_update c l) k = counter_get c k + occurrences k l.
Proof.
  unfold counter_update, occurrences. revert c.
  induction l as [|x l IH]; intros c; cbn [fold_left].
  - cbn. lia.
  - rewrite IH, counter_get_add, count_cons. lia.
Qed.

Lemma counter_add_keys (c : Counter) (k k' : string) :
  In k' (keys (counter_add c k)) <-> k' = k \/ In k' (keys c).
Proof.
  unfold keys. induction c as [|[x n] c IH]; cbn.
  - intuition.
  - destruct (String.eqb_spec x k) as [->|Hxk]; cbn; [intuition|].
    rewrite IH. intuition.
Qed.

Lemma counter_add_NoDup (c : Counter) (k : string) :
  NoDup (keys c) -> NoDup (keys (counter_add c k)).
Proof.
  unfold keys. induction c as [|[x n] c IH]; cbn; intros Hc.
  - repeat constructor. intros [].
  - inversion Hc as [|? ? Hx Hrest]; subst.
    destruct (String.eqb_spec x k) as [->|Hxk]; cbn; [now constructor|].
    constructor; [|now apply IH].
    intros Hin. apply (counter_add_keys c k x) in Hin as [->|Hin]; [congruence|].
    exact (Hx Hin).
Qed.

Lemma counter_update_NoDup (l : list string) (c : Counter) :
  NoDup (keys c) -> NoDup (keys (counter_update c l)).
Proof.
  unfold counter_update. revert c.
  induction l as [|x l IH]; intros c Hc; cbn; [exact Hc|].
  apply IH. now apply counter_add_NoDup.
Qed.

Lemma counter_update_keys (l : list string) (c : Counter) (k : string) :
  In k (keys (counter_update c l)) <-> In k (keys c) \/ In k l.
Proof.
  unfold counter_update. revert c.
  induction l as [|x l IH]; intros c; cbn [fold_left In].
  - tauto.
  - rewrite IH, counter_add_keys. intuition.
Qed.

Lemma counter_get_entry (c : Counter) (k : string) (n : nat) :
  NoDup (keys c) -> In (k, n) c -> counter_get c k = n.
Proof.
  unfold keys, counter_get. induction c as [|[x m] c IH]; cbn; [tauto|].
  intros Hc [Heq|Hin].
  - inversion Heq; subst. now rewrite String.eqb_refl.
  - inversion Hc as [|? ? Hx Hrest]; subst.
    destruct (String.eqb_spec x k) as [->|Hxk]; [|now apply IH].
    exfalso. apply Hx. now apply (in_map fst) in Hin.
Qed.

Lemma counter_get_absent (c : Counter) (k : string) :
  ~ In k (keys c) -> counter_get c k = 0.
Proof.
  unfold keys, counter_get. induction c as [|[x m] c IH]; cbn; [reflexivity|].
  intros Hk. destruct (String.eqb_spec x k) as [->|Hxk]; [tauto|].
  apply IH. tauto.
Qed.

(** The counter of a list holds each of its strings once, with the number
    of its occurrences. *)
Lemma counter_of_list (l : list string) :
  NoDup (keys (counter_update [] l)) /\
  (forall k n, In (k, n) (counter_update [] l) -> n = occurrences k l /\ 1 <= n) /\
  (forall k, In k l -> In (k, occurrences k l) (counter_update [] l)).
Proof.
  assert (Hnodup : NoDup (keys (counter_update [] l)))
    by (apply counter_update_NoDup; constructor).
  assert (Hentry : forall k n, In (k, n) (counter_update [] l) -> n = occurrences k l).
  { intros k n Hin. rewrite <- (counter_get_entry _ _ _ Hnodup Hin).
    now rewrite counter_get_update. }
  split; [exact Hnodup|]. split.
  - intros k n Hin. split; [now apply Hentry|].
    rewrite (Hentry k n Hin). apply occurrences_In.
    apply (in_map fst) in Hin. apply counter_update_keys in Hin as [[]|Hin]. exact Hin.
  - intros k Hk.
    assert (Hkey : In k (keys (counter_update [] l)))
      by (apply counter_update_keys; now right).
    unfold keys in Hkey. apply in_map_iff in Hkey as ([k' n] & Hfst & Hin).
    cbn in Hfst; subst k'. now rewrite <- (Hentry k n Hin).
Qed.

Lemma counter_add_total (c : Counter) (k : string) :
  list_sum (map snd (counter_add c k)) = S (list_sum (map snd c)).
Proof.
  unfold list_sum. induction c as [|[x n] c IH]; [reflexivity|].
  cbn [counter_add]. destruct (String.eqb x k); cbn [map snd fold_right] in *; lia.
Qed.

Lemma counter_update_total (l : list string) (c : Counter) :
  list_sum (map snd (counter_update c l)) = list_sum (map snd c) + List.length l.
Proof.
  unfold counter_update. revert c.
  induction l as [|x l IH]; intros c; cbn [fold_left List.length]; [lia|].
  rewrite IH, counter_add_total. lia.
Qed.

Lemma counter_get_cons (x : string) (n : nat) (c : Counter) (k : string) :
  counter_get ((x, n) :: c) k = if String.eqb x k then n else counter_get c k.
Proof. unfold counter_get. cbn. now destruct (String.eqb x k). Qed.

Lemma other_count_cons (x : string) (n : nat) (c : Counter) :
  other_count ((x, n) :: c)
  = (if mem x ["primary"; "secondary"; "ancillary"] then 0 else n) + other_count c.
Proof.
  unfold other_count. cbn [filter fst].
  now destruct (mem x ["primary"; "secondary"; "ancillary"]).
Qed.

(** The counts of a counter with distinct keys split into those of primary,
    secondary and ancillary and the rest. *)
Lemma counter_split (c : Counter) :
  NoDup (keys c) ->
  list_sum (map snd c)
  = counter_get c "primary" + counter_get c "secondary" + counter_get c "ancillary"
    + other_count c.
Proof.
  induction c as [|[x n] c IH]; [reflexivity|].
  intros Hc. inversion Hc as [|? ? Hx Hrest]; subst.
  specialize (IH Hrest).
  rewrite !counter_get_cons, other_count_cons.
  change (list_sum (map snd ((x, n) :: c))) with (n + list_sum (map snd c)).
  unfold mem. cbn [existsb].
  destruct (String.eqb_spec x "primary") as [->|Hp];
    [rewrite (counter_get_absent c "primary" Hx) in *; cbn; lia|].
  destruct (String.eqb_spec x "secondary") as [->|Hs];
    [rewrite (counter_get_absent c "secondary" Hx) in *; cbn; lia|].
  destruct (String.eqb_spec x "ancillary") as [->|Ha];
    [rewrite (counter_get_absent c "ancillary" Hx) in *; cbn; lia|].
  cbn. lia.
Qed.

Lemma insert_by_count_perm (x : string * nat) (l : list (string * nat)) :
  Permutation (insert_by_count x l) (x :: l).
Proof.
  induction l as [|y l IH]; cbn [insert_by_count]; [reflexivity|].
  destruct (snd x <? snd y); [|reflexivity].
  rewrite IH. apply perm_swap.
Qed.

Lemma sort_by_count_perm (l : list (string * nat)) :
  Permutation (sort_by_count l) l.
Proof.
  induction l as [|x l IH]; cbn; [reflexivity|].
  fold (sort_by_count l). rewrite insert_by_count_perm. now constructor.
Qed.

Lemma insert_by_count_sorted (x : string * nat) (l : list (string * nat)) :
  StronglySorted outranks l -> StronglySorted outranks (insert_by_count x l).
Proof.
  induction 1 as [|y l Hl IH Hy]; cbn [insert_by_count].
  - repeat constructor.
  - destruct (Nat.ltb_spec (snd x) (snd y)) as [Hlt|Hge].
    + constructor; [exact IH|].
      apply Forall_forall. intros z Hz.
      apply (Permutation_in _ (insert_by_count_perm x l)) in Hz as [<-|Hz].
      * unfold outranks. lia.
      * rewrite Forall_forall in Hy. now apply Hy.
    + constructor; [now constructor|].
      constructor; [exact Hge|].
      apply Forall_forall. intros z Hz.
      rewrite Forall_forall in Hy. specialize (Hy z Hz).
      unfold outranks in *. lia.
Qed.

Lemma sort_by_count_sorted (l : list (string * nat)) :
  StronglySorted outranks (sort_by_count l).
Proof.
  induction l as [|x l IH]; cbn; [constructor|].
  now apply insert_by_count_sorted.
Qed.




(** ** Task analysis *)

Lemma automatable_iff (task : dict) :
  automatable task = true
  <-> dict_get task "automatability_flag" = Some (PStr "Automatable").
Proof.
  unfold automatable, is_str.
  destruct (dict_get task "automatability_flag") as [[| | | |s| |]|];
    try (split; discriminate).
  rewrite String.eqb_eq. split; [now intros ->|now intros [= ->]].
Qed.

(** The payload of lines 338-354, piece by piece. *)
Lemma analyse_tasks_inv (all_tasks : list pyval) (total_jobs : nat) (body : pyval) :
  analyse_tasks all_tasks total_jobs = Ok body ->
  exists tasks task_types by_type,
    mapM as_dict all_tasks = Ok tasks /\
    mapM (importance "Not specified") tasks = Ok task_types /\
    existsb (fun d => has_key d "automatability_flag") tasks = true /\
    existsb (fun d => has_key d "question") tasks = true /\
    body = PDict
      [("total_tasks", of_nat (List.length all_tasks));
       ("total_jobs", of_nat total_jobs);
       ("automation_status",
        PDict [("automatable", of_nat (count automatable tasks));
               ("non_automatable", of_nat (List.length all_tasks - count automatable tasks))]);
       ("task_type_distribution",
        PDict [("primary", of_nat (counter_get (counter_update [] task_types) "primary"));
               ("secondary", of_nat (counter_get (counter_update [] task_types) "secondary"));
               ("ancillary", of_nat (counter_get (counter_update [] task_types) "ancillary"));
               ("other", of_nat (other_count (counter_update [] task_types)))]);
       ("automation_by_type", PDict by_type);
       ("automation_drivers",
        reasons (most_common 10
          (counter_update [] (flat_map cleaned_questions (filter automatable tasks)))));
       ("automation_barriers",
        reasons (most_common 10
          (counter_update []
             (flat_map cleaned_questions
                (filter (fun task => negb (automatable task)) tasks)))))].
Proof.
  unfold analyse_tasks, task_frame, extract_questions_fast.
  destruct (mapM as_dict all_tasks) as [tasks|e] eqn:Htasks; cbn [bind]; [|discriminate].
  destruct (mapM (importance "Not specified") tasks) as [task_types|e] eqn:Htypes;
    cbn [bind]; [|discriminate].
  destruct (automation_by_type_entry tasks "primary") as [e1|e]; cbn [bind]; [|discriminate].
  destruct (automation_by_type_entry tasks "secondary") as [e2|e]; cbn [bind]; [|discriminate].
  destruct (automation_by_type_entry tasks "ancillary") as [e3|e]; cbn [bind]; [|discriminate].
  unfold series.
  destruct (existsb (fun d => has_key d "automatability_flag") tasks) eqn:Hflag;
    cbn [bind]; [|discriminate].
  destruct (existsb (fun d => has_key d "question") tasks) eqn:Hquestion;
    cbn [bind]; [|discriminate].
  intros [= <-]. exists tasks, task_types, (e1 ++ e2 ++ e3).
  split; [reflexivity|]. split; [exact Htypes|].
  split; [exact Hflag|]. split; [exact Hquestion|]. reflexivity.
Qed.

Lemma task_analysis_inv (w : world) (df : DataFrame) (category level : option string) (body : pyval) :
  serves w df ->
  pooled_tasks (filtered_data df category (level_arg level)) <> [] ->
  fst (get_task_analysis w category level) = Json 200 body ->
  analyse_tasks (pooled_tasks (filtered_data df category (level_arg level)))
                (List.length (rows (filtered_data df category (level_arg level))))
  = Ok body.
Proof.
  intros Hdf Hne. unfold get_task_analysis.
  rewrite (with_job_data_serves w _ df Hdf). cbn [fst].
  unfold task_analysis_of.
  destruct (pooled_tasks _) as [|t ts] eqn:Htasks; [congruence|].
  destruct (analyse_tasks _ _); [|discriminate].
  now intros [= ->].
Qed.

Lemma importance_total (default : string) (tasks : list dict) :
  forallb well_typed (map PDict tasks) = true ->
  exists kinds, mapM (importance default) tasks = Ok kinds.
Proof.
  intros Hall. apply mapM_total. intros d Hd.
  rewrite forallb_forall in Hall. specialize (Hall (PDict d) (in_map PDict _ _ Hd)).
  unfold importance. cbn in Hall.
  destruct (dict_get d "importance_classification") as [[| | | |s| |]|];
    try discriminate; eauto.
Qed.

Lemma as_dict_map (all_tasks : list pyval) (tasks : list dict) :
  mapM as_dict all_tasks = Ok tasks <-> all_tasks = map PDict tasks.
Proof.
  revert tasks. induction all_tasks as [|t ts IH]; intros tasks; cbn.
  - split; [intros [= <-]; reflexivity|]. destruct tasks; [reflexivity|discriminate].
  - destruct t as [| | | | | |d]; cbn;
      try (split; [discriminate|destruct tasks; discriminate]).
    destruct (mapM as_dict ts) as [ds|e] eqn:Hts; cbn.
    + split.
      * intros [= <-]. cbn. f_equal. now apply IH.
      * destruct tasks as [|d' tasks]; [discriminate|]. cbn. intros [= -> Hrest].
        apply IH in Hrest. now injection Hrest as ->.
    + split; [discriminate|].
      destruct tasks as [|d' tasks]; [discriminate|]. cbn. intros [= -> Hrest].
      apply IH in Hrest. discriminate.
Qed.

Lemma automation_by_type_entry_total (tasks : list dict) (task_type : string) :
  forallb well_typed (map PDict tasks) = true ->
  exists entry, automation_by_type_entry tasks task_type = Ok entry.
Proof.
  intros Hall. unfold automation_by_type_entry.
  destruct (importance_total EmptyString tasks Hall) as [kinds ->]. cbn [bind].
  destruct (map fst _); eauto.
Qed.

Lemma existsb_carries (k : string) (tasks : list dict) :
  existsb (carries k) (map PDict tasks) = existsb (fun d => has_key d k) tasks.
Proof. induction tasks as [|d tasks IH]; cbn; [reflexivity|]. now rewrite IH. Qed.

(** The task lists on which the analysis runs to its end. *)
Lemma analyse_tasks_answers (all_tasks : list pyval) (total_jobs : nat) :
  analysable all_tasks = true <-> exists body, analyse_tasks all_tasks total_jobs = Ok body.
Proof.
  unfold analysable. split.
  - intros H. apply andb_prop in H as [H Hquestion]. apply andb_prop in H as [Htyped Hflag].
    assert (Hdicts : exists tasks, all_tasks = map PDict tasks).
    { clear Hflag Hquestion. induction all_tasks as [|t ts IH]; [now exists []|].
      cbn in Htyped. apply andb_prop in Htyped as [Ht Hts].
      destruct (IH Hts) as [tasks ->]. destruct t; try discriminate.
      now exists (d :: tasks). }
    destruct Hdicts as [tasks ->].
    rewrite existsb_carries in Hflag, Hquestion.
    unfold analyse_tasks, task_frame, extract_questions_fast, series.
    rewrite (proj2 (as_dict_map (map PDict tasks) tasks) eq_refl). cbn [bind].
    destruct (importance_total "Not specified" tasks Htyped) as [kinds ->]. cbn [bind].
    destruct (automation_by_type_entry_total tasks "primary" Htyped) as [e1 ->].
    destruct (automation_by_type_entry_total tasks "secondary" Htyped) as [e2 ->].
    destruct (automation_by_type_entry_total tasks "ancillary" Htyped) as [e3 ->].
    cbn [bind]. rewrite Hflag. cbn [bind]. rewrite Hquestion. cbn [bind]. eauto.
  - intros [body Hbody].
    apply analyse_tasks_inv in Hbody
      as (tasks & task_types & by_type & Htasks & Htypes & Hflag & Hquestion & _).
    apply as_dict_map in Htasks. subst all_tasks.
    rewrite !existsb_carries, Hflag, Hquestion, !andb_true_r.
    apply forallb_forall. intros t Ht. apply in_map_iff in Ht as (d & <- & Hd).
    apply mapM_Forall2 in Htypes.
    assert (Hkind : exists kind, importance "Not specified" d = Ok kind).
    { clear -Htypes Hd. induction Htypes as [|x y l l' Hxy _ IH]; [destruct Hd|].
      destruct Hd as [->|Hd]; eauto. }
    destruct Hkind as [kind Hkind]. unfold importance in Hkind. cbn.
    destruct (dict_get d "importance_classification") as [[| | | |s| |]|];
      try discriminate; reflexivity.
Qed.

(** When tasks are left after the filter, the route answers with status
    200 on the analysable lists and on no other. *)
Lemma task_analysis_answers (w : world) (df : DataFrame) (category level : option string) :
  serves w df ->
  pooled_tasks (filtered_data df category (level_arg level)) <> [] ->
  analysable (pooled_tasks (filtered_data df category (level_arg level))) = true
  <-> exists body, fst (get_task_analysis w category level) = Json 200 body.
Proof.
  intros Hdf Hne.
  rewrite (analyse_tasks_answers _ (List.length (rows (filtered_data df category (level_arg level))))).
  unfold get_task_analysis. rewrite (with_job_data_serves w _ df Hdf). cbn [fst].
  unfold task_analysis_of.
  destruct (pooled_tasks _) as [|t ts]; [congruence|].
  destruct (analyse_tasks _ _) as [body|e].
  - split; eauto.
  - split; intros [body Hbody]; discriminate.
Qed.

Lemma well_typed_dicts (all_tasks : list pyval) :
  forallb well_typed all_tasks = true -> exists tasks, all_tasks = map PDict tasks.
Proof.
  induction all_tasks as [|t ts IH]; [now exists []|].
  cbn [forallb]. intros H. apply andb_prop in H as [Ht Hts].
  destruct (IH Hts) as [tasks ->]. destruct t; try discriminate.
  now exists (d :: tasks).
Qed.

(** Lines 296 and 308: the column lookups on the frame of the tasks raise
    when no task has the key. *)
Lemma analyse_tasks_key_error (k : string) (all_tasks : list pyval) (total_jobs : nat) :
  k = "automatability_flag" \/ k = "question" ->
  forallb well_typed all_tasks = true ->
  existsb (carries k) all_tasks = false ->
  analyse_tasks all_tasks total_jobs = Raise "KeyError".
Proof.
  intros Hk Htyped Hkey.
  destruct (well_typed_dicts all_tasks Htyped) as [tasks ->].
  rewrite existsb_carries in Hkey.
  unfold analyse_tasks, task_frame, extract_questions_fast, series.
  rewrite (proj2 (as_dict_map (map PDict tasks) tasks) eq_refl). cbn [bind].
  destruct (importance_total "Not specified" tasks Htyped) as [kinds ->]. cbn [bind].
  destruct (automation_by_type_entry_total tasks "primary" Htyped) as [e1 ->].
  destruct (automation_by_type_entry_total tasks "secondary" Htyped) as [e2 ->].
  destruct (automation_by_type_entry_total tasks "ancillary" Htyped) as [e3 ->].
  cbn [bind]. destruct Hk as [->| ->].
  - now rewrite Hkey.
  - destruct (existsb (fun d => has_key d "automatability_flag") tasks); cbn [bind];
      [|reflexivity].
    now rewrite Hkey.
Qed.

(** C10.  When tasks are left after the filter and the route answers, the
    two counts of [automation_status] add up to [total_tasks]: a task counts
    as automatable exactly when its flag is the string Automatable, and every
    other task, the ones without a flag among them, as non-automatable.  The
    four counts of [task_type_distribution] add up to [total_tasks] as
    well.  The route does not answer for every list of tasks: line 257 reads
    the flag with a default, but the column lookups of lines 296 and 308 have
    none, and when no task carries the key [automatability_flag], or none
    the key [question], the request ends in a [KeyError] and no count is
    returned. *)
Theorem task_analysis_counts_add_up (w : world) (df : DataFrame)
    (category level : option string) :
  serves w df ->
  pooled_tasks (filtered_data df category (level_arg level)) <> [] ->
  let all_tasks := pooled_tasks (filtered_data df category (level_arg level)) in
  (forall body,
     fst (get_task_analysis w category level) = Json 200 body ->
     exists tasks task_types automatable_n non_automatable_n primary secondary ancillary other
            total_jobs by_type drivers barriers,
       mapM as_dict all_tasks = Ok tasks /\
       mapM (importance "Not specified") tasks = Ok task_types /\
       body = PDict
         [("total_tasks", of_nat (List.length all_tasks));
          ("total_jobs", total_jobs);
          ("automation_status",
           PDict [("automatable", of_nat automatable_n);
                  ("non_automatable", of_nat non_automatable_n)]);
          ("task_type_distribution",
           PDict [("primary", of_nat primary);
                  ("secondary", of_nat secondary);
                  ("ancillary", of_nat ancillary);
                  ("other", of_nat other)]);
          ("automation_by_type", by_type);
          ("automation_drivers", drivers);
          ("automation_barriers", barriers)] /\
       automatable_n = count automatable tasks /\
       non_automatable_n = count (fun task => negb (automatable task)) tasks /\
       (forall task, automatable task = true
                     <-> dict_get task "automatability_flag" = Some (PStr "Automatable")) /\
       automatable_n + non_automatable_n = List.length all_tasks /\
       primary = occurrences "primary" task_types /\
       secondary = occurrences "secondary" task_types /\
       ancillary = occurrences "ancillary" task_types /\
       primary + secondary + ancillary + other = List.length all_tasks) /\
  (forallb well_typed all_tasks = true ->
   existsb (carries "automatability_flag") all_tasks = false ->
   fst (get_task_analysis w category level) = Raised "KeyError") /\
  (forallb well_typed all_tasks = true ->
   existsb (carries "question") all_tasks = false ->
   fst (get_task_analysis w category level) = Raised "KeyError").
Proof.
  intros Hdf Hne. cbv zeta.
  assert (Hroute : fst (get_task_analysis w category level)
                   = match analyse_tasks
                             (pooled_tasks (filtered_data df category (level_arg level)))
                             (List.length (rows (filtered_data df category (level_arg level))))
                     with
                     | Ok payload => Json 200 payload
                     | Raise e => Raised e
                     end).
  { unfold get_task_analysis. rewrite (with_job_data_serves w _ df Hdf). cbn [fst].
    unfold task_analysis_of. cbv zeta.
    destruct (pooled_tasks (filtered_data df category (level_arg level)));
      [congruence|reflexivity]. }
  split; [|split; intros Htyped Hkey; rewrite Hroute].
  2:{ now rewrite (analyse_tasks_key_error "automatability_flag" _ _
                     (or_introl eq_refl) Htyped Hkey). }
  2:{ now rewrite (analyse_tasks_key_error "question" _ _ (or_intror eq_refl) Htyped Hkey). }
  intros body Hresp.
  apply (task_analysis_inv w df category level body Hdf Hne) in Hresp.
  apply analyse_tasks_inv in Hresp as (tasks & task_types & by_type & Htasks & Htypes & _ & _ & ->).
  pose proof (mapM_length _ _ _ Htasks) as Hlen.
  pose proof (mapM_length _ _ _ Htypes) as Hlen'.
  pose proof (count_complement automatable tasks) as Hsplit.
  pose proof (counter_update_total task_types []) as Htotal.
  pose proof (counter_split _ (counter_update_NoDup task_types [] (NoDup_nil _))) as Hparts.
  cbn [map list_sum fold_right] in Htotal.
  do 12 eexists.
  split; [exact Htasks|]. split; [exact Htypes|]. split; [reflexivity|].
  split; [reflexivity|]. split; [|split; [exact automatable_iff|]].
  - lia.
  - split; [lia|].
    rewrite !counter_get_update. cbn [counter_get assoc].
    repeat split. rewrite !counter_get_update in Hparts. cbn [counter_get assoc] in Hparts.
    lia.
Qed.

Lemma mixed_world_serves : serves (fresh (Some mixed_sheet)) mixed_frame.
Proof. right. split; reflexivity. Defined.

Lemma unflagged_world_serves : serves (fresh (Some unflagged_sheet)) unflagged_frame.
Proof. right. split; reflexivity. Defined.

Lemma task_analysis_counts_add_up_witness :
  (let all_tasks := pooled_tasks (filtered_data mixed_frame None (level_arg None)) in
   exists tasks task_types automatable_n non_automatable_n primary secondary ancillary other
          total_jobs by_type drivers barriers,
     mapM as_dict all_tasks = Ok tasks /\
     mapM (importance "Not specified") tasks = Ok task_types /\
     mixed_analysis = PDict
       [("total_tasks", of_nat (List.length all_tasks));
        ("total_jobs", total_jobs);
        ("automation_status",
         PDict [("automatable", of_nat automatable_n);
                ("non_automatable", of_nat non_automatable_n)]);
        ("task_type_distribution",
         PDict [("primary", of_nat primary);
                ("secondary", of_nat secondary);
                ("ancillary", of_nat ancillary);
                ("other", of_nat other)]);
        ("automation_by_type", by_type);
        ("automation_drivers", drivers);
        ("automation_barriers", barriers)] /\
     automatable_n = count automatable tasks /\
     non_automatable_n = count (fun task => negb (automatable task)) tasks /\
     (forall task, automatable task = true
                   <-> dict_get task "automatability_flag" = Some (PStr "Automatable")) /\
     automatable_n + non_automatable_n = List.length all_tasks /\
     primary = occurrences "primary" task_types /\
     secondary = occurrences "secondary" task_types /\
     ancillary = occurrences "ancillary" task_types /\
     primary + secondary + ancillary + other = List.length all_tasks) /\
  fst (get_task_analysis (fresh (Some unflagged_sheet)) None None) = Raised "KeyError".
Proof.
  split.
  - assert (Hne : pooled_tasks (filtered_data mixed_frame None (level_arg None)) <> [])
      by (vm_compute; discriminate).
    apply (proj1 (task_analysis_counts_add_up (fresh (Some mixed_sheet)) mixed_frame None None
                    mixed_world_serves Hne)).
    vm_compute. reflexivity.
  - assert (Hne : pooled_tasks (filtered_data unflagged_frame None (level_arg None)) <> [])
      by (vm_compute; discriminate).
    apply (proj1 (proj2 (task_analysis_counts_add_up (fresh (Some unflagged_sheet))
                           unflagged_frame None None unflagged_world_serves Hne)));
      vm_compute; reflexivity.
Defined.



(** ** The decoder: fuel and shape of the result *)

Lemma skip_ws_length (s : string) :
  String.length (Json.skip_ws s) <= String.length s.
Proof.
  induction s as [|c s IH]; cbn; [lia|].
  destruct (Json.is_ws c); cbn; lia.
Qed.

Lemma drop_prefix_length (p s : string) :
  String.prefix p s = true ->
  String.length (drop (String.length p) s) + String.length p = String.length s.
Proof.
  revert s. induction p as [|c p IH]; intros s; destruct s as [|c' s]; cbn;
    try lia; try discriminate.
  destruct (Ascii.ascii_dec c c'); [|discriminate].
  intros H. specialize (IH s H). lia.
Qed.

Lemma digits_length (s : string) (acc : Z) (n : nat) (v : Z) (m : nat) (r : string) :
  Json.digits s acc n = (v, m, r) ->
  String.length r + m = String.length s + n /\ n <= m.
Proof.
  revert acc n. induction s as [|c s IH]; intros acc n; cbn.
  - intros [= <- <- <-]. cbn. lia.
  - destruct (Json.digit_val c).
    + intros H. apply IH in H. lia.
    + intros [= <- <- <-]. cbn. lia.
Qed.

Lemma scan_number_length (s : string) (v : pyval) (r : string) :
  Json.scan_number s = Some (v, r) -> String.length r < String.length s.
Proof.
  unfold Json.scan_number.
  destruct (match s with
            | String c r' => if Ascii.eqb c "-" then (true, r') else (false, s)
            | EmptyString => (false, s)
            end) as [neg s1] eqn:Hs1.
  assert (H1 : String.length s1 <= String.length s).
  { destruct s as [|c t]; [injection Hs1 as <- <-; lia|].
    destruct (Ascii.eqb c "-"); injection Hs1 as <- <-; cbn; lia. }
  clear Hs1.
  destruct s1 as [|c r0]; [discriminate|].
  destruct (Json.digit_val c) as [d|]; [|discriminate].
  destruct (if (d =? 0)%Z then (0%Z, r0)
            else let '(v0, _, r') := Json.digits r0 d 1 in (v0, r')) as [ip s2] eqn:Hs2.
  assert (H2 : String.length s2 <= String.length r0).
  { destruct (d =? 0)%Z; [injection Hs2 as <- <-; lia|].
    destruct (Json.digits r0 d 1) as [[v0 m] r'] eqn:Hd. injection Hs2 as <- <-.
    apply digits_length in Hd. lia. }
  clear Hs2.
  match goal with
  | |- (let (frac, s3) := ?fraction in _) = _ -> _ =>
      destruct fraction as [frac s3] eqn:Hs3
  end.
  assert (H3 : String.length s3 <= String.length s2).
  { destruct s2 as [|c2 r2]; [injection Hs3 as <- <-; lia|].
    destruct (Ascii.eqb c2 "."); [|injection Hs3 as <- <-; lia].
    destruct (Json.digits r2 0%Z 0) as [[v0 m] r3] eqn:Hd.
    apply digits_length in Hd.
    destruct (m =? 0); injection Hs3 as <- <-; cbn; lia. }
  clear Hs3.
  match goal with
  | |- (let (ex, s4) := ?exponent in _) = _ -> _ =>
      destruct exponent as [ex s4] eqn:Hs4
  end.
  assert (H4 : String.length s4 <= String.length s3).
  { destruct s3 as [|e r3]; [injection Hs4 as <- <-; lia|].
    destruct (Ascii.eqb e "e" || Ascii.eqb e "E")%bool; [|injection Hs4 as <- <-; lia].
    match type of Hs4 with
    | (let (sgn, r4) := ?sign in _) = _ => destruct sign as [sgn r4] eqn:Hr4
    end.
    assert (Hr : String.length r4 <= String.length r3).
    { destruct r3 as [|c3 r3']; [injection Hr4 as <- <-; lia|].
      destruct (Ascii.eqb c3 "+"); [injection Hr4 as <- <-; cbn; lia|].
      destruct (Ascii.eqb c3 "-"); injection Hr4 as <- <-; cbn; lia. }
    destruct (Json.digits r4 0%Z 0) as [[v0 m] r5] eqn:Hd.
    apply digits_length in Hd.
    destruct (m =? 0); injection Hs4 as <- <-; cbn; lia. }
  clear Hs4. cbn [String.length] in H1.
  destruct frac as [[fv fn]|]; destruct ex; intros [= _ <-]; lia.
Qed.

Lemma scan_literal_length (s : string) (v : pyval) (r : string) :
  Json.scan_literal s = Some (v, r) -> String.length r < String.length s.
Proof.
  unfold Json.scan_literal.
  destruct (String.prefix "null" s) eqn:H1.
  { intros [= _ <-]. apply drop_prefix_length in H1. cbn in H1. lia. }
  destruct (String.prefix "true" s) eqn:H2.
  { intros [= _ <-]. apply drop_prefix_length in H2. cbn in H2. lia. }
  destruct (String.prefix "false" s) eqn:H3.
  { intros [= _ <-]. apply drop_prefix_length in H3. cbn in H3. lia. }
  destruct (Json.scan_number s) as [[v' r']|] eqn:Hn.
  { intros [= _ <-]. now apply scan_number_length in Hn. }
  destruct (String.prefix "NaN" s) eqn:H4.
  { intros [= _ <-]. apply drop_prefix_length in H4. cbn in H4. lia. }
  destruct (String.prefix "Infinity" s) eqn:H5.
  { intros [= _ <-]. apply drop_prefix_length in H5. cbn in H5. lia. }
  destruct (String.prefix "-Infinity" s) eqn:H6; [|discriminate].
  intros [= _ <-]. apply drop_prefix_length in H6. cbn in H6. lia.
Qed.

Lemma hex4_length (s : string) (u : Z) (r : string) :
  Json.hex4 s = Some (u, r) -> String.length r + 4 = String.length s.
Proof.
  unfold Json.hex4.
  destruct s as [|a [|b [|c [|d rest]]]]; try discriminate.
  destruct (Json.hex_val a), (Json.hex_val b), (Json.hex_val c), (Json.hex_val d);
    try discriminate.
  intros [= _ <-]. cbn. lia.
Qed.

Lemma scan_unicode_length (s : string) (chars r : string) :
  Json.scan_unicode s = Some (chars, r) -> String.length r < String.length s.
Proof.
  unfold Json.scan_unicode.
  destruct (Json.hex4 s) as [[u rest1]|] eqn:H1; [|discriminate].
  apply hex4_length in H1.
  destruct ((55296 <=? u) && (u <=? 56319))%Z; [|intros [= _ <-]; lia].
  destruct rest1 as [|c1 [|c2 rest2]]; try (intros [= _ <-]; cbn in *; lia).
  destruct (Ascii.eqb c1 "092" && Ascii.eqb c2 "u")%bool; [|intros [= _ <-]; lia].
  destruct (Json.hex4 rest2) as [[u2 rest3]|] eqn:H2; [|intros [= _ <-]; lia].
  apply hex4_length in H2. cbn [String.length] in H1.
  destruct ((56320 <=? u2) && (u2 <=? 57343))%Z; intros [= _ <-]; cbn [String.length]; lia.
Qed.

Lemma scan_escape_length (s : string) (chars r : string) :
  Json.scan_escape s = Some (chars, r) -> String.length r < String.length s.
Proof.
  unfold Json.scan_escape. destruct s as [|c rest]; [discriminate|].
  cbn [String.length].
  repeat match goal with
         | |- (if Ascii.eqb c ?x then _ else _) = _ -> _ =>
             destruct (Ascii.eqb c x); [first [intros [= _ <-]; lia
                                              | intros H; apply scan_unicode_length in H; lia]|]
         end.
  discriminate.
Qed.

Lemma scanstring_length (fuel : nat) (s acc str r : string) :
  Json.scanstring fuel s acc = Json.Parsed str r -> String.length r < String.length s.
Proof.
  revert s acc. induction fuel as [|fuel IH]; intros s acc; cbn [Json.scanstring];
    [discriminate|].
  destruct s as [|c rest]; [discriminate|].
  destruct (Ascii.eqb c "034"); [intros [= _ <-]; cbn; lia|].
  destruct (Ascii.eqb c "092").
  - destruct (Json.scan_escape rest) as [[chars rest']|] eqn:He; [|discriminate].
    apply scan_escape_length in He. intros H. apply IH in H. cbn. lia.
  - destruct (nat_of_ascii c <? 32); [discriminate|].
    intros H. apply IH in H. cbn. lia.
Qed.

Lemma scanstring_fuel (fuel : nat) (s acc : string) :
  String.length s < fuel -> Json.scanstring fuel s acc <> Json.OutOfFuel.
Proof.
  revert s acc. induction fuel as [|fuel IH]; intros s acc Hlen; [lia|].
  cbn [Json.scanstring].
  destruct s as [|c rest]; [discriminate|]. cbn in Hlen.
  destruct (Ascii.eqb c "034"); [discriminate|].
  destruct (Ascii.eqb c "092").
  - destruct (Json.scan_escape rest) as [[chars rest']|] eqn:He; [|discriminate].
    apply scan_escape_length in He. apply IH. lia.
  - destruct (nat_of_ascii c <? 32); [discriminate|]. apply IH. lia.
Qed.

Lemma scan_length (fuel : nat) :
  (forall s v r, Json.scan_once fuel s = Json.Parsed v r ->
                 String.length r < String.length s) /\
  (forall s acc v r, Json.array_items fuel s acc = Json.Parsed v r ->
                     String.length r < String.length s) /\
  (forall s acc v r, Json.object_items fuel s acc = Json.Parsed v r ->
                     String.length r < String.length s).
Proof.
  induction fuel as [|fuel (IHv & IHa & IHo)]; [repeat split; discriminate|].
  split; [|split].
  - intros s v r. cbn [Json.scan_once].
    destruct s as [|c rest]; [discriminate|]. cbn [String.length].
    pose proof (skip_ws_length rest) as Hws.
    destruct (Ascii.eqb c "034").
    { destruct (Json.scanstring _ rest _) as [str r'| |] eqn:Hs; try discriminate.
      apply scanstring_length in Hs. intros [= _ <-]. lia. }
    destruct (Ascii.eqb c "{").
    { destruct (Json.skip_ws rest) as [|c' r']; [discriminate|]. cbn [String.length] in Hws.
      destruct (Ascii.eqb c' "}"); [intros [= _ <-]; lia|].
      destruct (Ascii.eqb c' "034"); [|discriminate].
      intros H. apply IHo in H. lia. }
    destruct (Ascii.eqb c "[").
    { destruct (Json.skip_ws rest) as [|c' r']; [discriminate|]. cbn [String.length] in Hws.
      destruct (Ascii.eqb c' "]"); [intros [= _ <-]; lia|].
      intros H. apply IHa in H. cbn [String.length] in H. lia. }
    destruct (Json.scan_literal _) as [[v' r']|] eqn:Hl; [|discriminate].
    apply scan_literal_length in Hl. intros [= _ <-]. exact Hl.
  - intros s acc v r. cbn [Json.array_items].
    destruct (Json.scan_once fuel s) as [v' r'| |] eqn:Hv; try discriminate.
    apply IHv in Hv. pose proof (skip_ws_length r') as Hws.
    destruct (Json.skip_ws r') as [|c r'']; [discriminate|]. cbn [String.length] in Hws.
    destruct (Ascii.eqb c "]"); [intros [= _ <-]; lia|].
    destruct (Ascii.eqb c ","); [|discriminate].
    intros H. apply IHa in H. pose proof (skip_ws_length r''). lia.
  - intros s acc v r. cbn [Json.object_items].
    destruct (Json.scanstring _ s _) as [key r1| |] eqn:Hk; try discriminate.
    apply scanstring_length in Hk. pose proof (skip_ws_length r1) as Hws1.
    destruct (Json.skip_ws r1) as [|c r2]; [discriminate|]. cbn [String.length] in Hws1.
    destruct (Ascii.eqb c ":"); [|discriminate].
    destruct (Json.scan_once fuel _) as [v' r3| |] eqn:Hv; try discriminate.
    apply IHv in Hv. pose proof (skip_ws_length r2) as Hws2.
    pose proof (skip_ws_length r3) as Hws3.
    destruct (Json.skip_ws r3) as [|c' r4]; [discriminate|]. cbn [String.length] in Hws3.
    destruct (Ascii.eqb c' "}"); [intros [= _ <-]; lia|].
    destruct (Ascii.eqb c' ","); [|discriminate].
    pose proof (skip_ws_length r4) as Hws4.
    destruct (Json.skip_ws r4) as [|c'' r5]; [discriminate|]. cbn [String.length] in Hws4.
    destruct (Ascii.eqb c'' "034"); [|discriminate].
    intros H. apply IHo in H. lia.
Qed.

Lemma scan_fuel (fuel : nat) :
  (forall s, 2 * String.length s + 1 <= fuel -> Json.scan_once fuel s <> Json.OutOfFuel) /\
  (forall s acc, 2 * String.length s + 2 <= fuel ->
                 Json.array_items fuel s acc <> Json.OutOfFuel) /\
  (forall s acc, 2 * String.length s + 2 <= fuel ->
                 Json.object_items fuel s acc <> Json.OutOfFuel).
Proof.
  induction fuel as [|fuel (IHv & IHa & IHo)]; [repeat split; intros; lia|].
  destruct (scan_length fuel) as (Lv & La & Lo).
  split; [|split].
  - intros s Hfuel. cbn [Json.scan_once].
    destruct s as [|c rest]; [discriminate|]. cbn [String.length] in Hfuel.
    pose proof (skip_ws_length rest) as Hws.
    destruct (Ascii.eqb c "034").
    { pose proof (scanstring_fuel (S (String.length rest)) rest EmptyString) as Hs.
      destruct (Json.scanstring _ rest _); try discriminate.
      exfalso. apply Hs; [lia|reflexivity]. }
    destruct (Ascii.eqb c "{").
    { destruct (Json.skip_ws rest) as [|c' r']; [discriminate|]. cbn [String.length] in Hws.
      destruct (Ascii.eqb c' "}"); [discriminate|].
      destruct (Ascii.eqb c' "034"); [|discriminate].
      apply IHo. lia. }
    destruct (Ascii.eqb c "[").
    { destruct (Json.skip_ws rest) as [|c' r']; [discriminate|]. cbn [String.length] in Hws.
      destruct (Ascii.eqb c' "]"); [discriminate|].
      apply IHa. cbn [String.length]. lia. }
    destruct (Json.scan_literal _) as [[v' r']|]; discriminate.
  - intros s acc Hfuel. cbn [Json.array_items].
    pose proof (IHv s) as Hv.
    destruct (Json.scan_once fuel s) as [v' r'| |] eqn:Hscan; [|discriminate|apply Hv; lia].
    apply Lv in Hscan. pose proof (skip_ws_length r') as Hws.
    destruct (Json.skip_ws r') as [|c r'']; [discriminate|]. cbn [String.length] in Hws.
    destruct (Ascii.eqb c "]"); [discriminate|].
    destruct (Ascii.eqb c ","); [|discriminate].
    apply IHa. pose proof (skip_ws_length r''). lia.
  - intros s acc Hfuel. cbn [Json.object_items].
    pose proof (scanstring_fuel (S (String.length s)) s EmptyString) as Hs.
    destruct (Json.scanstring _ s _) as [key r1| |] eqn:Hk;
      [|discriminate|exfalso; apply Hs; [lia|reflexivity]].
    apply scanstring_length in Hk. pose proof (skip_ws_length r1) as Hws1.
    destruct (Json.skip_ws r1) as [|c r2]; [discriminate|]. cbn [String.length] in Hws1.
    destruct (Ascii.eqb c ":"); [|discriminate].
    pose proof (skip_ws_length r2) as Hws2.
    pose proof (IHv (Json.skip_ws r2)) as Hv.
    destruct (Json.scan_once fuel _) as [v' r3| |] eqn:Hscan; [|discriminate|apply Hv; lia].
    apply Lv in Hscan.
    pose proof (skip_ws_length r3) as Hws3.
    destruct (Json.skip_ws r3) as [|c' r4]; [discriminate|]. cbn [String.length] in Hws3.
    destruct (Ascii.eqb c' "}"); [discriminate|].
    destruct (Ascii.eqb c' ","); [|discriminate].
    pose proof (skip_ws_length r4) as Hws4.
    destruct (Json.skip_ws r4) as [|c'' r5]; [discriminate|]. cbn [String.length] in Hws4.
    destruct (Ascii.eqb c'' "034"); [|discriminate].
    apply IHo. lia.
Qed.

(** The fuel of [Json.decode] is never used up: a text that does not
    decode is malformed. *)
Lemma decode_fuel (s : string) : Json.decode s <> Json.OutOfFuel.
Proof.
  unfold Json.decode.
  destruct (scan_fuel (2 * String.length s + 2)) as (Hv & _ & _).
  specialize (Hv (Json.skip_ws s)). pose proof (skip_ws_length s) as Hws.
  destruct (Json.scan_once _ _) as [v r| |]; [|discriminate|apply Hv; lia].
  destruct (Json.skip_ws r); discriminate.
Qed.

Lemma json_loads_cases (s : string) :
  (exists v, Json.decode s = Json.Parsed v EmptyString /\ json_loads s = Ok v)
  \/ (Json.decode s = Json.Malformed /\ json_loads s = Raise "JSONDecodeError").
Proof.
  unfold json_loads. pose proof (decode_fuel s) as Hfuel.
  destruct (Json.decode s) as [v r| |] eqn:Hd; [|now right|congruence].
  left. exists v. split; [|reflexivity].
  unfold Json.decode in Hd.
  destruct (Json.scan_once _ _) as [v' r'| |]; try discriminate.
  destruct (Json.skip_ws r'); [|discriminate]. now injection Hd as -> ->.
Qed.

Lemma array_items_list (fuel : nat) (s : string) (acc : list pyval) (v : pyval) (r : string) :
  Json.array_items fuel s acc = Json.Parsed v r -> exists l, v = PList l.
Proof.
  revert s acc. induction fuel as [|fuel IH]; intros s acc; cbn [Json.array_items];
    [discriminate|].
  destruct (Json.scan_once fuel s) as [v' r'| |]; try discriminate.
  destruct (Json.skip_ws r') as [|c r'']; [discriminate|].
  destruct (Ascii.eqb c "]"); [intros [= <- _]; eauto|].
  destruct (Ascii.eqb c ","); [apply IH|discriminate].
Qed.

Lemma is_ws_space_prefix (c : ascii) (rest : string) :
  Json.is_ws c = true -> space_prefix (String c rest) = 1.
Proof.
  unfold Json.is_ws, space_prefix. intros H.
  repeat (apply orb_true_iff in H as [H|H]); apply Nat.eqb_eq in H; now rewrite H.
Qed.

(** Where [strip] finds a bracket, the decoder finds the bracket or a
    character that is white space for [strip] only. *)
Lemma lstrip_bracket (n : nat) (s : string) :
  match lstrip_fuel n s with
  | String c _ => Ascii.eqb c "["
  | EmptyString => false
  end = true ->
  exists c rest,
    Json.skip_ws s = String c rest /\
    (c = "["%char \/ (Json.is_ws c = false /\ space_prefix (String c rest) <> 0)).
Proof.
  assert (Hbase : forall t,
            match t with String c _ => Ascii.eqb c "[" | EmptyString => false end = true ->
            exists c rest, Json.skip_ws t = String c rest /\
              (c = "["%char \/ (Json.is_ws c = false /\ space_prefix (String c rest) <> 0))).
  { intros [|c t]; [discriminate|]. intros Hc. apply Ascii.eqb_eq in Hc. subst c.
    exists "["%char, t. split; [reflexivity|now left]. }
  revert s. induction n as [|n IH]; intros s; cbn [lstrip_fuel]; [apply Hbase|].
  destruct (space_prefix s) as [|k] eqn:Hk; [apply Hbase|].
  destruct s as [|c t]; [discriminate|].
  destruct (Json.is_ws c) eqn:Hws.
  - rewrite (is_ws_space_prefix c t Hws) in Hk. injection Hk as <-.
    cbn [drop Json.skip_ws]. rewrite Hws. apply IH.
  - intros _. exists c, t. cbn [Json.skip_ws]. rewrite Hws.
    split; [reflexivity|]. right. split; [reflexivity|]. now rewrite Hk.
Qed.

(** No JSON value starts with a character that is white space for [strip]
    only. *)
Lemma scan_once_space (fuel : nat) (c : ascii) (rest : string) (v : pyval) (r : string) :
  Json.is_ws c = false ->
  space_prefix (String c rest) <> 0 ->
  Json.scan_once fuel (String c rest) <> Json.Parsed v r.
Proof.
  intros Hws Hsp.
  assert (Hn : In (nat_of_ascii c) [11; 12; 28; 29; 30; 31; 194; 225; 226; 227]).
  { unfold Json.is_ws in Hws. unfold space_prefix in Hsp.
    repeat (apply orb_false_iff in Hws as [Hws ?]).
    repeat match goal with H : (_ =? _) = false |- _ => apply Nat.eqb_neq in H end.
    destruct (((9 <=? nat_of_ascii c) && (nat_of_ascii c <=? 13))
              || ((28 <=? nat_of_ascii c) && (nat_of_ascii c <=? 32))) eqn:Hlow.
    - apply orb_true_iff in Hlow as [Hlow|Hlow]; apply andb_prop in Hlow as [Ha Hb];
        apply Nat.leb_le in Ha, Hb; cbn; lia.
    - destruct (Nat.eqb_spec (nat_of_ascii c) 194) as [->|_]; [cbn; tauto|].
      destruct ((nat_of_ascii c =? 225) || (nat_of_ascii c =? 226)
                || (nat_of_ascii c =? 227)) eqn:Hlead; [|congruence].
      repeat (apply orb_true_iff in Hlead as [Hlead|Hlead]);
        apply Nat.eqb_eq in Hlead; rewrite Hlead; cbn; tauto. }
  rewrite <- (ascii_nat_embedding c).
  destruct fuel as [|fuel]; [discriminate|].
  cbn [In] in Hn.
  repeat (destruct Hn as [<-|Hn]; [cbn; discriminate|]).
  destruct Hn.
Qed.

(** Text that passes the test of line 20 decodes to a list or not at
    all. *)
Lemma parse_tasks_list (x : Cell) (v : pyval) :
  parse_tasks x = Ok v -> exists l, v = PList l.
Proof.
  destruct x as [|s|]; cbn [parse_tasks]; try (intros [= <-]; now exists []).
  destruct (strip_startswith "[" s) eqn:Hstart; [|intros [= <-]; now exists []].
  unfold json_loads, Json.decode.
  destruct (Json.scan_once _ _) as [v' r| |] eqn:Hscan; try discriminate.
  destruct (Json.skip_ws r); [|discriminate]. intros [= <-].
  apply lstrip_bracket in Hstart as (c & rest & Hskip & [->|[Hws Hsp]]).
  - rewrite Hskip in Hscan.
    replace (2 * String.length s + 2) with (S (2 * String.length s + 1)) in Hscan by lia.
    cbn [Json.scan_once] in Hscan. cbn in Hscan.
    destruct (Json.skip_ws rest) as [|c' r']; [discriminate|].
    destruct (Ascii.eqb c' "]"); [injection Hscan as <- _; eauto|].
    now apply array_items_list in Hscan.
  - rewrite Hskip in Hscan. exfalso. exact (scan_once_space _ _ _ _ _ Hws Hsp Hscan).
Qed.

(** ** Loading *)

Lemma load_row_raises (r : SheetRow) (s : string) (e : exn) :
  Automatability_Analysis r = Text s ->
  strip_startswith "[" s = true ->
  json_loads s = Raise e ->
  load_row r = Raise e.
Proof.
  intros Hcell Hstart Hloads. unfold load_row, parse_tasks.
  now rewrite Hcell, Hstart, Hloads.
Qed.

(** The load succeeds when the three columns are there and the task cell
    of every row that keeps both scores decodes; the frame has one row for
    each of these rows. *)
Lemma load_succeeds (w : world) (sheet : Sheet) :
  xlsx w = Some sheet ->
  mem "auto_score" (sheet_columns sheet) = true ->
  mem "manual_score" (sheet_columns sheet) = true ->
  mem "Automatability_Analysis" (sheet_columns sheet) = true ->
  (forall r, In r (sheet_rows sheet) -> dropna_scores r = true ->
             exists v, parse_tasks (Automatability_Analysis r) = Ok v) ->
  exists df,
    load_job_data w = (true, {| xlsx := xlsx w; job_data := Some df |}) /\
    List.length (rows df) = count dropna_scores (sheet_rows sheet).
Proof.
  intros Hfile Hauto Hmanual Htasks Hrows.
  unfold load_job_data, read_job_data. rewrite Hfile, Hauto, Hmanual, Htasks. cbn [negb].
  destruct (mapM_total load_row (filter dropna_scores (sheet_rows sheet))) as [parsed Hparsed].
  { intros r Hr. apply filter_In in Hr as [Hin Hkept].
    destruct (Hrows r Hin Hkept) as [v Hv]. unfold load_row. rewrite Hv. cbn [bind]. eauto. }
  rewrite Hparsed. cbn [bind]. eexists. split; [reflexivity|]. cbn [rows].
  now apply mapM_length in Hparsed.
Qed.

(** C3, as the code has it.  The decoding error of a row is not recovered.
    When a row that keeps both scores has task text that starts with a
    bracket and does not decode, the exception leaves the [try] block:
    [load_job_data] returns False and [job_data] stays as it was.  An empty
    task sequence is what a cell gives that is missing, is not text, or does
    not start with a bracket; text that starts with a bracket gives it
    exactly when it decodes to the empty list. *)
Theorem malformed_tasks_fail_the_load (w : world) (sheet : Sheet) (r : SheetRow)
    (s : string) (e : exn) :
  xlsx w = Some sheet ->
  In r (sheet_rows sheet) ->
  dropna_scores r = true ->
  Automatability_Analysis r = Text s ->
  strip_startswith "[" s = true ->
  json_loads s = Raise e ->
  load_job_data w = (false, w) /\
  (job_data w = None -> forall body, with_job_data w body = (no_data, w)) /\
  parse_tasks Blank = Ok (PList []) /\
  parse_tasks Other = Ok (PList []) /\
  (forall t, strip_startswith "[" t = false -> parse_tasks (Text t) = Ok (PList [])) /\
  (forall t, strip_startswith "[" t = true ->
             (parse_tasks (Text t) = Ok (PList []) <-> json_loads t = Ok (PList []))).
Proof.
  intros Hfile Hin Hscores Hcell Hstart Hloads.
  assert (Hload : load_job_data w = (false, w)).
  { unfold load_job_data, read_job_data. rewrite Hfile.
    destruct (negb (mem "auto_score" _)); [reflexivity|].
    destruct (negb (mem "manual_score" _)); [reflexivity|].
    destruct (negb (mem "Automatability_Analysis" _)); [reflexivity|].
    destruct (mapM_raises load_row (filter dropna_scores (sheet_rows sheet)) r e) as [e' ->].
    - apply filter_In. now split.
    - now apply (load_row_raises r s).
    - reflexivity. }
  split; [exact Hload|]. split; [|split; [reflexivity|split; [reflexivity|split]]].
  - intros Hnone body. unfold with_job_data. now rewrite Hnone, Hload.
  - intros t Ht. cbn. now rewrite Ht.
  - intros t Ht. cbn [parse_tasks]. rewrite Ht. reflexivity.
Qed.

Lemma malformed_tasks_fail_the_load_witness :
  load_job_data (fresh (Some malformed_sheet)) = (false, fresh (Some malformed_sheet)) /\
  (job_data (fresh (Some malformed_sheet)) = None ->
   forall body, with_job_data (fresh (Some malformed_sheet)) body
                = (no_data, fresh (Some malformed_sheet))) /\
  parse_tasks Blank = Ok (PList []) /\
  parse_tasks Other = Ok (PList []) /\
  (forall t, strip_startswith "[" t = false -> parse_tasks (Text t) = Ok (PList [])) /\
  (forall t, strip_startswith "[" t = true ->
             (parse_tasks (Text t) = Ok (PList []) <-> json_loads t = Ok (PList []))).
Proof.
  apply (malformed_tasks_fail_the_load (fresh (Some malformed_sheet)) malformed_sheet
           (sample_row (FFin 60) (FFin 20) "Services" "Professional" "Legal" (Text "[{"))
           "[{" "JSONDecodeError").
  - reflexivity.
  - right. left. reflexivity.
  - reflexivity.
  - reflexivity.
  - reflexivity.
  - reflexivity.
Defined.

(** C3, as stated, fails: the second occupation of this sheet has both
    scores and the task text of an opened list and object.  The text passes
    the test of line 20 and does not decode; the load returns False, no frame
    is kept, and the routes answer that no data is available. *)
Lemma malformed_row_fails_whole_load :
  strip_startswith "[" "[{" = true /\
  Json.decode "[{" = Json.Malformed /\
  load_job_data (fresh (Some malformed_sheet)) = (false, fresh (Some malformed_sheet)) /\
  get_stats (fresh (Some malformed_sheet)) = (no_data, fresh (Some malformed_sheet)) /\
  read_job_data (Some malformed_sheet) <> Ok
    {| columns := sample_columns ++ ["Automatability_Analysis_Parsed"];
       rows := [{| auto_score := FFin 30; manual_score := FFin 40;
                   cells := [("Sector", "Services"); ("level_1_name", "Professional");
                             ("level_4_name", "Legal")];
                   Automatability_Analysis_Parsed :=
                     [PDict [("automatability_flag", PStr "Automatable");
                             ("importance_classification", PStr "Primary");
                             ("question",
                              PList [PStr "years_experience"; PStr "years_experience";
                                     PStr "physical_dexterity"])]] |};
                {| auto_score := FFin 60; manual_score := FFin 20;
                   cells := [("Sector", "Services"); ("level_1_name", "Professional");
                             ("level_4_name", "Legal")];
                   Automatability_Analysis_Parsed := [] |}] |}.
Proof.
  repeat split. vm_compute. discriminate.
Qed.

(** * Further properties *)

(** ** Loading and the guard *)

(** The frame that [load_job_data] builds has the columns of the sheet and
    the column of the parsed tasks.  Its rows are the rows of the sheet that
    have both scores, in sheet order, each with its scores and cells and with
    the list its task cell decodes to. *)
Theorem loaded_frame_rows (sheet : Sheet) (df : DataFrame) :
  read_job_data (Some sheet) = Ok df ->
  (forall c, has_column df c = true
             <-> mem c (sheet_columns sheet) = true \/ c = "Automatability_Analysis_Parsed") /\
  Forall2 row_of (filter dropna_scores (sheet_rows sheet)) (rows df) /\
  List.length (rows df) = count dropna_scores (sheet_rows sheet).
Proof.
  unfold read_job_data.
  destruct (negb (mem "auto_score" _)); [discriminate|].
  destruct (negb (mem "manual_score" _)); [discriminate|].
  destruct (negb (mem "Automatability_Analysis" _)); [discriminate|].
  destruct (mapM load_row _) as [parsed|e] eqn:Hrows; cbn [bind]; [|discriminate].
  intros [= <-]. cbn [columns rows].
  split; [|split; [|now apply mapM_length in Hrows]].
  { intros c. unfold has_column, mem. cbn [columns].
    rewrite existsb_app, orb_true_iff. cbn [existsb]. rewrite orb_false_r, String.eqb_eq.
    reflexivity. }
  apply mapM_Forall2 in Hrows.
  assert (Hkept : Forall (fun r => dropna_scores r = true)
                    (filter dropna_scores (sheet_rows sheet))).
  { apply Forall_forall. intros r Hr. now apply filter_In in Hr. }
  induction Hrows as [|r row l l' Hrow _ IH]; constructor.
  - inversion Hkept as [|? ? Hr _]; subst.
    unfold load_row in Hrow.
    destruct (parse_tasks (Automatability_Analysis r)) as [v|e] eqn:Hparse;
      cbn [bind] in Hrow; [|discriminate].
    injection Hrow as <-. unfold row_of. cbn.
    destruct (parse_tasks_list _ _ Hparse) as [tasks ->]. cbn [as_list].
    unfold dropna_scores in Hr. apply andb_prop in Hr as [H1 H2].
    apply negb_true_iff in H1, H2. repeat split; assumption || reflexivity.
  - apply IH. now inversion Hkept.
Qed.

Lemma loaded_frame_rows_witness :
  (forall c, has_column sample_frame c = true
             <-> mem c (sheet_columns sample_sheet) = true
                 \/ c = "Automatability_Analysis_Parsed") /\
  Forall2 row_of (filter dropna_scores (sheet_rows sample_sheet)) (rows sample_frame) /\
  List.length (rows sample_frame) = count dropna_scores (sheet_rows sample_sheet).
Proof.
  apply (loaded_frame_rows sample_sheet sample_frame). reflexivity.
Defined.

Lemma Forall2_In_l {A B : Type} (R : A -> B -> Prop) (l : list A) (l' : list B) (a : A) :
  Forall2 R l l' -> In a l -> exists b, In b l' /\ R a b.
Proof.
  induction 1 as [|x y l l' Hxy _ IH]; cbn; [tauto|].
  intros [->|Hin]; [eauto|].
  destruct (IH Hin) as (b & Hb & HR). eauto.
Qed.

Lemma filter_filter {A : Type} (f : A -> bool) (l : list A) :
  filter f (filter f l) = filter f l.
Proof.
  induction l as [|x l IH]; [reflexivity|]. cbn.
  destruct (f x) eqn:Hx; cbn; rewrite ?Hx, IH; reflexivity.
Qed.

Lemma loaded_frame_rows_parse (sheet : Sheet) (df : DataFrame) :
  read_job_data (Some sheet) = Ok df ->
  forall r, In r (sheet_rows sheet) -> dropna_scores r = true ->
            exists tasks, parse_tasks (Automatability_Analysis r) = Ok (PList tasks).
Proof.
  unfold read_job_data.
  destruct (negb (mem "auto_score" _)); [discriminate|].
  destruct (negb (mem "manual_score" _)); [discriminate|].
  destruct (negb (mem "Automatability_Analysis" _)); [discriminate|].
  destruct (mapM load_row _) as [parsed|e] eqn:Hrows; cbn [bind]; [|discriminate].
  intros _ r Hin Hkept. apply mapM_Forall2 in Hrows.
  destruct (Forall2_In_l _ _ _ r Hrows) as (row & _ & Hrow); [now apply filter_In|].
  unfold load_row in Hrow.
  destruct (parse_tasks (Automatability_Analysis r)) as [v|e] eqn:Hparse;
    cbn [bind] in Hrow; [|discriminate].
  destruct (parse_tasks_list _ _ Hparse) as [tasks ->]. eauto.
Qed.

(** [load_job_data] returns True exactly when the file can be read, has the
    columns [auto_score], [manual_score] and [Automatability_Analysis], and
    the task cell of every row with both scores decodes.  Rows without both
    scores play no part: the outcome is that of the sheet without them.  When
    it returns False the process is left as it was. *)
Theorem load_outcome (w : world) :
  (fst (load_job_data w) = true <->
   exists sheet,
     xlsx w = Some sheet /\
     mem "auto_score" (sheet_columns sheet) = true /\
     mem "manual_score" (sheet_columns sheet) = true /\
     mem "Automatability_Analysis" (sheet_columns sheet) = true /\
     forall r, In r (sheet_rows sheet) -> dropna_scores r = true ->
               exists tasks, parse_tasks (Automatability_Analysis r) = Ok (PList tasks)) /\
  (fst (load_job_data w) = false -> snd (load_job_data w) = w) /\
  (forall sheet,
     read_job_data (Some sheet)
     = read_job_data (Some {| sheet_columns := sheet_columns sheet;
                              sheet_rows := filter dropna_scores (sheet_rows sheet) |})).
Proof.
  split; [split|split].
  - unfold load_job_data.
    destruct (read_job_data (xlsx w)) as [df|e] eqn:Hread; [|discriminate].
    intros _. destruct (xlsx w) as [sheet|] eqn:Hfile; [|discriminate].
    exists sheet. split; [reflexivity|].
    pose proof (loaded_frame_rows_parse sheet df Hread) as Hrows.
    unfold read_job_data in Hread.
    destruct (mem "auto_score" _); [|discriminate].
    destruct (mem "manual_score" _); [|discriminate].
    destruct (mem "Automatability_Analysis" _); [|discriminate].
    repeat split. exact Hrows.
  - intros (sheet & Hfile & Hauto & Hmanual & Htasks & Hrows).
    destruct (load_succeeds w sheet Hfile Hauto Hmanual Htasks) as (df & -> & _);
      [|reflexivity].
    intros r Hin Hkept. destruct (Hrows r Hin Hkept) as [tasks Ht]. eauto.
  - unfold load_job_data. now destruct (read_job_data (xlsx w)).
  - intros sheet. unfold read_job_data. cbn [sheet_columns sheet_rows].
    now rewrite filter_filter.
Qed.

Lemma load_outcome_witness :
  fst (load_job_data (fresh (Some sample_sheet))) = true.
Proof.
  apply (proj1 (load_outcome (fresh (Some sample_sheet)))).
  exists sample_sheet. repeat split.
  intros r Hin Hkept. cbn in Hin.
  destruct Hin as [<-|[<-|[<-|[<-|[]]]]]; try discriminate; eexists; vm_compute; reflexivity.
Defined.

(** The sheet is read at most once.  A request that finds or loads a frame
    leaves it in [job_data], and every later request runs on that same frame,
    whatever has become of the file.  A load that fails leaves [job_data]
    unset, so that the next request reads the file again. *)
Theorem frame_loaded_once (w : world) (df : DataFrame) (body : DataFrame -> response) :
  serves w df ->
  fst (with_job_data w body) = body df /\
  job_data (snd (with_job_data w body)) = Some df /\
  xlsx (snd (with_job_data w body)) = xlsx w /\
  (loaded w -> loaded (snd (with_job_data w body))) /\
  (forall file' body',
     with_job_data {| xlsx := file'; job_data := job_data (snd (with_job_data w body)) |} body'
     = (body' df, {| xlsx := file'; job_data := Some df |})) /\
  (forall w0 e body0 sheet' df' body',
     job_data w0 = None ->
     read_job_data (xlsx w0) = Raise e ->
     read_job_data (Some sheet') = Ok df' ->
     with_job_data w0 body0 = (no_data, w0) /\
     fst (with_job_data {| xlsx := Some sheet';
                           job_data := job_data (snd (with_job_data w0 body0)) |} body')
     = body' df').
Proof.
  intros Hdf. rewrite (with_job_data_serves w body df Hdf). cbn [fst snd job_data xlsx].
  split; [reflexivity|]. split; [reflexivity|]. split; [reflexivity|].
  split; [|split; [reflexivity|]].
  - intros Hw df' [= <-]. exact (serves_loaded w df Hw Hdf).
  - intros w0 e body0 sheet' df' body' Hnone Hfail Hread.
    assert (Hfirst : with_job_data w0 body0 = (no_data, w0)).
    { unfold with_job_data, load_job_data. now rewrite Hnone, Hfail. }
    rewrite Hfirst. split; [reflexivity|]. cbn [snd].
    unfold with_job_data, load_job_data. cbn [job_data xlsx]. now rewrite Hnone, Hread.
Qed.

Lemma frame_loaded_once_witness :
  fst (with_job_data (fresh (Some sample_sheet)) stats_of) = stats_of sample_frame /\
  job_data (snd (with_job_data (fresh (Some sample_sheet)) stats_of)) = Some sample_frame.
Proof.
  destruct (frame_loaded_once (fresh (Some sample_sheet)) sample_frame stats_of)
    as (H1 & H2 & _).
  - right. split; reflexivity.
  - split; [exact H1|exact H2].
Defined.

(** The page and the routes share the guard: [index] shows its error text
    exactly when a route would answer that no data is available, it renders
    the template exactly when a frame is held or can be loaded, and it leaves
    the process as a route does. *)
Theorem index_shares_the_guard (w : world) (body : DataFrame -> response) :
  (fst (index w) = Plain "Error: Could not load job data."
   <-> job_data w = None /\ exists e, read_job_data (xlsx w) = Raise e) /\
  (fst (index w) = Template "index.html" <-> exists df, serves w df) /\
  (job_data w = None -> (exists e, read_job_data (xlsx w) = Raise e) ->
   with_job_data w body = (no_data, w)) /\
  snd (index w) = snd (with_job_data w body).
Proof.
  unfold index, with_job_data, load_job_data, serves.
  destruct (job_data w) as [df|] eqn:Hjd.
  - split; [|split; [|split]].
    + split; [discriminate|]. intros [Hnone _]. discriminate.
    + split; [eauto|reflexivity].
    + discriminate.
    + reflexivity.
  - destruct (read_job_data (xlsx w)) as [df|e] eqn:Hread; cbn [fst snd].
    + split; [|split; [|split]].
      * split; [discriminate|]. intros [_ [e He]]. discriminate.
      * split; [eauto|reflexivity].
      * intros _ [e He]. discriminate.
      * reflexivity.
    + split; [|split; [|split]].
      * split; eauto.
      * split; [discriminate|]. intros [df [Hdf|[_ Hdf]]]; discriminate.
      * reflexivity.
      * reflexivity.
Qed.

(** ** Categories and levels *)

Lemma occurrences_column (c name : string) (df : DataFrame) :
  occurrences name (column_values c df) = count (cell_is c name) (rows df).
Proof.
  unfold occurrences, column_values, cell_is.
  induction (rows df) as [|r l IH]; [reflexivity|].
  cbn [flat_map]. rewrite (count_cons _ r l).
  destruct (cell c r) as [s|]; cbn [app].
  - rewrite count_cons, IH, (String.eqb_sym name s). reflexivity.
  - rewrite IH. reflexivity.
Qed.

Lemma column_values_length (c : string) (df : DataFrame) :
  List.length (column_values c df) = count (has_cell c) (rows df).
Proof.
  unfold column_values, has_cell.
  induction (rows df) as [|r l IH]; [reflexivity|].
  cbn [flat_map]. rewrite (count_cons _ r l), length_app, IH.
  now destruct (cell c r).
Qed.

Lemma list_sum_perm (l l' : list nat) :
  Permutation l l' -> list_sum l = list_sum l'.
Proof.
  unfold list_sum. induction 1; cbn [fold_right] in *; lia.
Qed.

Lemma counter_add_keys_present (c : Counter) (k : string) :
  In k (keys c) -> keys (counter_add c k) = keys c.
Proof.
  unfold keys. induction c as [|[x n] c IH]; cbn; [tauto|].
  destruct (String.eqb_spec x k) as [->|Hxk]; [reflexivity|].
  intros [Heq|Hin]; [congruence|]. cbn. now rewrite IH.
Qed.

Lemma counter_add_keys_absent (c : Counter) (k : string) :
  ~ In k (keys c) -> keys (counter_add c k) = keys c ++ [k].
Proof.
  unfold keys. induction c as [|[x n] c IH]; cbn; [reflexivity|].
  intros Hk. destruct (String.eqb_spec x k) as [->|Hxk]; [tauto|].
  cbn. rewrite IH; tauto.
Qed.

Lemma mem_In (s : string) (l : list string) : mem s l = true <-> In s l.
Proof.
  unfold mem. rewrite existsb_exists. split.
  - intros (x & Hx & Heq). apply String.eqb_eq in Heq. now subst.
  - intros H. exists s. split; [exact H|apply String.eqb_refl].
Qed.

(** The keys of a counter come in the order in which they were first
    seen. *)
Lemma counter_update_keys_order (l : list string) (c : Counter) (seen : list string) :
  (forall x, In x seen <-> In x (keys c)) ->
  keys (counter_update c l) = keys c ++ unique_from seen l.
Proof.
  unfold counter_update. revert c seen.
  induction l as [|x l IH]; intros c seen Hseen; cbn [fold_left unique_from].
  - now rewrite app_nil_r.
  - destruct (mem x seen) eqn:Hx.
    + apply mem_In, Hseen in Hx.
      rewrite (IH (counter_add c x) seen), counter_add_keys_present; auto.
      intros y. rewrite counter_add_keys_present; auto.
    + assert (Hout : ~ In x (keys c)).
      { intros Hin. apply Hseen, mem_In in Hin. congruence. }
      rewrite (IH (counter_add c x) (x :: seen)), counter_add_keys_absent, <- app_assoc; auto.
      intros y. rewrite counter_add_keys_absent, in_app_iff; auto. cbn. rewrite Hseen. tauto.
Qed.

Lemma counter_keys_unique (l : list string) :
  keys (counter_update [] l) = unique l.
Proof. apply (counter_update_keys_order l [] []). intros x. reflexivity. Qed.

Lemma filtered_rows (df : DataFrame) (name level : string) :
  name <> EmptyString ->
  has_column df (level_column level) = true ->
  rows (filtered_data df (Some name) level) = filter (cell_is (level_column level) name) (rows df).
Proof.
  intros Hname Hcol. unfold filtered_data. rewrite Hcol.
  destruct (String.eqb_spec name EmptyString); [congruence|]. reflexivity.
Qed.

(** [/api/categories] lists every value of the column once, with the number
    of occupations that have it, in order of decreasing count; the counts add
    up to the number of occupations with a value in the column.  The count of
    a category other than the empty string is the total that
    [/api/risk_distribution] reports for it, and the number of jobs that
    [/api/jobs] lists for it. *)
Theorem categories_listing (w : world) (df : DataFrame) (level : option string) :
  serves w df ->
  has_column df (level_column (level_arg level)) = true ->
  exists listing,
    fst (get_categories w level) = Json 200 (PList (map category_entry listing)) /\
    NoDup (map fst listing) /\
    StronglySorted outranks listing /\
    (forall name n,
       In (name, n) listing
       <-> n = count (cell_is (level_column (level_arg level)) name) (rows df) /\ 1 <= n) /\
    list_sum (map snd listing) = count (has_cell (level_column (level_arg level))) (rows df) /\
    (forall name n,
       In (name, n) listing -> name <> EmptyString ->
       (exists body,
          fst (get_risk_distribution w (Some name) level) = Json 200 body /\
          field "total" body = Some (of_nat n)) /\
       (exists jobs,
          fst (get_jobs w (Some name) level) = Json 200 (PList jobs) /\
          List.length jobs = n)).
Proof.
  intros Hdf Hcol.
  set (column := level_column (level_arg level)) in *.
  set (c := counter_update [] (column_values column df)).
  exists (sort_by_count (sort_by_count c)).
  destruct (counter_of_list (column_values column df)) as (Hnodup & Hentry & Hpresent).
  fold c in Hnodup, Hentry, Hpresent.
  assert (Hperm : Permutation (sort_by_count (sort_by_count c)) c).
  { rewrite sort_by_count_perm. apply sort_by_count_perm. }
  assert (Hlisted : forall name n,
            In (name, n) (sort_by_count (sort_by_count c))
            <-> n = count (cell_is column name) (rows df) /\ 1 <= n).
  { intros name n. rewrite <- occurrences_column. split.
    - intros Hin. apply (Permutation_in _ Hperm) in Hin. now apply Hentry.
    - intros [-> Hn]. apply (Permutation_in _ (Permutation_sym Hperm)).
      apply Hpresent. now apply occurrences_In. }
  split; [|split; [|split; [|split; [exact Hlisted|split]]]].
  - unfold get_categories. rewrite (with_job_data_serves w _ df Hdf). cbn [fst].
    unfold categories_of. fold column. rewrite Hcol. reflexivity.
  - apply (Permutation_NoDup (l := keys c)); [|exact Hnodup].
    symmetry. now apply Permutation_map.
  - apply sort_by_count_sorted.
  - rewrite (list_sum_perm _ (map snd c)); [|now apply Permutation_map].
    unfold c. rewrite counter_update_total. cbn [map list_sum fold_right].
    now rewrite column_values_length.
  - intros name n Hin Hname. apply Hlisted in Hin as [-> _].
    pose proof (filtered_rows df name (level_arg level) Hname Hcol) as Hrows.
    fold column in Hrows. split.
    + unfold get_risk_distribution. rewrite (with_job_data_serves w _ df Hdf). cbn [fst].
      unfold risk_distribution_of. cbv zeta. rewrite Hrows.
      eexists. split; [reflexivity|]. reflexivity.
    + unfold get_jobs. rewrite (with_job_data_serves w _ df Hdf). cbn [fst].
      unfold jobs_of, count. cbv zeta. rewrite Hrows.
      destruct (filter _ _) eqn:Hf.
      * exists []. split; reflexivity.
      * eexists. split; [reflexivity|]. apply length_map.
Qed.

Lemma categories_listing_witness :
  exists listing,
    fst (get_categories sample_world None) = Json 200 (PList (map category_entry listing)) /\
    In ("Legal", 2) listing /\
    (exists body,
       fst (get_risk_distribution sample_world (Some "Legal") None) = Json 200 body /\
       field "total" body = Some (PInt 2)).
Proof.
  destruct (categories_listing sample_world sample_frame None sample_world_serves eq_refl)
    as (listing & Hbody & _ & _ & Hlisted & _ & Hroutes).
  assert (Hin : In ("Legal", 2) listing).
  { apply Hlisted. vm_compute. split; [reflexivity|lia]. }
  exists listing. split; [exact Hbody|split; [exact Hin|]].
  apply (Hroutes "Legal" 2 Hin). discriminate.
Defined.

Lemma flat_map_filter {A B : Type} (p : A -> bool) (f : A -> B) (l : list A) :
  flat_map (fun x => if p x then [f x] else []) l = map f (filter p l).
Proof.
  induction l as [|x l IH]; [reflexivity|].
  cbn. destruct (p x); cbn; now rewrite IH.
Qed.

Lemma categories_of_length (df : DataFrame) (level : string) :
  has_column df (level_column level) = true ->
  exists categories,
    categories_of df (Some level) = Json 200 (PList categories) /\
    List.length categories = nunique (level_column level) df.
Proof.
  intros Hcol. unfold categories_of. cbn [level_arg]. rewrite Hcol. cbn [negb].
  eexists. split; [reflexivity|].
  rewrite length_map. unfold value_counts.
  rewrite (Permutation_length (sort_by_count_perm _)),
    (Permutation_length (sort_by_count_perm _)).
  unfold nunique. rewrite <- counter_keys_unique. unfold keys. now rewrite length_map.
Qed.

(** [/api/levels] lists the levels 1 to 4 whose column the data has, in
    increasing order, and the count of a level is the number of categories
    that [/api/categories] lists for it; for a level that is left out,
    [/api/categories] answers 400. *)
Theorem levels_listing (w : world) (df : DataFrame) :
  serves w df ->
  exists listing,
    fst (get_available_levels w) = Json 200 (PList (map level_entry listing)) /\
    StronglySorted Z.lt (map (fun e => fst (fst e)) listing) /\
    (forall i s n,
       In (i, s, n) listing
       <-> In (i, s) level_numbers /\
           exists categories,
             fst (get_categories w (Some s)) = Json 200 (PList categories) /\
             List.length categories = n) /\
    (forall i s,
       In (i, s) level_numbers ->
       (forall n, ~ In (i, s, n) listing)
       <-> fst (get_categories w (Some s))
           = Json 400 (PDict [("error", PStr ("Level " ++ s ++ " not available")%string)])).
Proof.
  intros Hdf.
  set (present := fun i : Z * string => has_column df (level_column (snd i))).
  set (counted := fun i : Z * string => (i, nunique (level_column (snd i)) df)).
  exists (map counted (filter present level_numbers)).
  assert (Hcat : forall s, fst (get_categories w (Some s)) = categories_of df (Some s)).
  { intros s. unfold get_categories. now rewrite (with_job_data_serves w _ df Hdf). }
  assert (Hlisted : forall i s n,
            In (i, s, n) (map counted (filter present level_numbers))
            <-> In (i, s) level_numbers /\ has_column df (level_column s) = true
                /\ n = nunique (level_column s) df).
  { intros i s n. rewrite in_map_iff. split.
    - intros ([i' s'] & [= -> -> <-] & Hin). apply filter_In in Hin as [Hin Hp].
      repeat split; assumption.
    - intros (Hin & Hp & ->). exists (i, s). split; [reflexivity|].
      apply filter_In. split; assumption. }
  split; [|split; [|split]].
  - unfold get_available_levels. rewrite (with_job_data_serves w _ df Hdf). cbn [fst].
    unfold levels_of. rewrite (flat_map_filter present (fun i => level_entry (counted i))).
    now rewrite map_map.
  - rewrite map_map. cbn [counted fst]. unfold level_numbers. cbn [filter].
    repeat destruct (present _); cbn [map fst];
      repeat (constructor; try (cbn; lia)).
  - intros i s n. rewrite Hlisted, Hcat. split.
    + intros (Hin & Hp & ->). split; [exact Hin|]. now apply categories_of_length.
    + intros (Hin & categories & Hbody & Hn). split; [exact Hin|].
      destruct (has_column df (level_column s)) eqn:Hp.
      * split; [reflexivity|].
        destruct (categories_of_length df s Hp) as (categories' & Hbody' & Hn').
        congruence.
      * unfold categories_of in Hbody. cbn [level_arg] in Hbody. rewrite Hp in Hbody.
        discriminate.
  - intros i s Hin. rewrite Hcat. split.
    + intros Hout. unfold categories_of. cbn [level_arg].
      destruct (has_column df (level_column s)) eqn:Hp; [|reflexivity].
      exfalso. apply (Hout (nunique (level_column s) df)). apply Hlisted. auto.
    + intros Hbody n Hn. apply Hlisted in Hn as (_ & Hp & _).
      unfold categories_of in Hbody. cbn [level_arg] in Hbody. rewrite Hp in Hbody.
      discriminate.
Qed.

Lemma levels_listing_witness :
  exists listing,
    fst (get_available_levels sample_world) = Json 200 (PList (map level_entry listing)) /\
    In (4%Z, "4", 2) listing /\
    forall n, ~ In (2%Z, "2", n) listing.
Proof.
  destruct (levels_listing sample_world sample_frame sample_world_serves)
    as (listing & Hbody & _ & Hlisted & Hout).
  exists listing. split; [exact Hbody|split].
  - apply Hlisted. split; [cbn; tauto|].
    eexists. split; vm_compute; reflexivity.
  - apply Hout; [cbn; tauto|]. vm_compute. reflexivity.
Defined.

(** ** Counts that the routes share *)

Lemma unique_from_length (l seen : list string) :
  List.length (unique_from seen l) <= List.length l.
Proof.
  revert seen. induction l as [|x l IH]; intros seen; cbn; [lia|].
  destruct (mem x seen); cbn; [specialize (IH seen)|specialize (IH (x :: seen))]; lia.
Qed.

Lemma nunique_le (c : string) (df : DataFrame) :
  nunique c df <= List.length (rows df).
Proof.
  unfold nunique, unique.
  etransitivity; [apply unique_from_length|].
  rewrite column_values_length. unfold count. apply filter_length_le.
Qed.

Lemma jobs_of_length (df : DataFrame) (category level : option string) :
  exists jobs,
    jobs_of df category level = Json 200 (PList jobs) /\
    jobs = map (job_dict (filtered_data df category (level_arg level)))
               (rows (filtered_data df category (level_arg level))).
Proof.
  unfold jobs_of. cbv zeta.
  destruct (rows (filtered_data df category (level_arg level))); eexists; split; reflexivity.
Qed.

(** [/api/stats] needs the level-4 column: without it the route raises,
    where [/api/categories] answers 400.  With it, [total_jobs] is the number
    of jobs [/api/jobs] lists without a filter,
    [unique_level_4_categories] is the number of categories
    [/api/categories] lists by default, neither it nor [sector_count]
    exceeds [total_jobs], and [sector_count] is 0 for data without a Sector
    column. *)
Theorem stats_counts (w : world) (df : DataFrame) :
  serves w df ->
  (has_column df "level_4_name" = false ->
   fst (get_stats w) = Raised "KeyError" /\
   fst (get_categories w None) = Json 400 (PDict [("error", PStr "Level 4 not available")])) /\
  (has_column df "level_4_name" = true ->
   exists body categories jobs sectors,
     fst (get_stats w) = Json 200 body /\
     fst (get_categories w None) = Json 200 (PList categories) /\
     fst (get_jobs w None None) = Json 200 (PList jobs) /\
     field "total_jobs" body = Some (of_nat (List.length jobs)) /\
     field "unique_level_4_categories" body = Some (of_nat (List.length categories)) /\
     List.length categories <= List.length jobs /\
     field "sector_count" body = Some (of_nat sectors) /\
     sectors <= List.length jobs /\
     (has_column df "Sector" = false -> sectors = 0)).
Proof.
  intros Hdf. unfold get_stats, get_categories, get_jobs.
  rewrite !(with_job_data_serves w _ df Hdf). cbn [fst].
  split; intros Hcol.
  - unfold stats_of, categories_of. cbn [level_arg].
    change (level_column "4") with "level_4_name". rewrite Hcol. split; reflexivity.
  - destruct (categories_of_length df "4" Hcol) as (categories & Hcategories & Hlen).
    destruct (jobs_of_length df None None) as (jobs & Hjobs & ->).
    change (level_column "4") with "level_4_name" in Hlen.
    unfold stats_of. rewrite Hcol. cbn [negb].
    eexists. exists categories. eexists.
    exists (if has_column df "Sector" then nunique "Sector" df else 0).
    split; [reflexivity|]. split; [exact Hcategories|]. split; [exact Hjobs|].
    rewrite length_map, Hlen. cbn [filtered_data].
    split; [reflexivity|]. split; [reflexivity|]. split; [apply nunique_le|].
    split; [reflexivity|]. split.
    + destruct (has_column df "Sector"); [apply nunique_le|lia].
    + now intros ->.
Qed.

Lemma stats_counts_witness :
  exists body,
    fst (get_stats sample_world) = Json 200 body /\
    field "total_jobs" body = Some (PInt 3) /\
    field "unique_level_4_categories" body = Some (PInt 2) /\
    field "sector_count" body = Some (PInt 2).
Proof.
  destruct (stats_counts sample_world sample_frame sample_world_serves) as [_ Hstats].
  destruct (Hstats eq_refl)
    as (body & categories & jobs & sectors & Hbody & _ & _ & _ & _ & _ & _ & _ & _).
  exists body. split; [exact Hbody|].
  assert (Hvalue : Json 200 body = fst (get_stats sample_world)) by (now rewrite Hbody).
  vm_compute in Hvalue. injection Hvalue as ->. repeat split; reflexivity.
Defined.

(** ** [/api/jobs] *)

Lemma filtered_data_columns (df : DataFrame) (category : option string) (level : string) :
  columns (filtered_data df category level) = columns df.
Proof.
  unfold filtered_data. destruct category as [c|]; [|reflexivity].
  destruct (negb _); [|reflexivity]. now destruct (has_column df _).
Qed.

Lemma dict_get_In (d : dict) (k : string) :
  dict_get d k <> None -> In k (map fst d).
Proof.
  induction d as [|[k' v] d IH]; cbn; [congruence|].
  destruct (String.eqb_spec k' k) as [->|_]; auto.
Qed.

Lemma job_dict_job_of (df filtered : DataFrame) (r : Row) :
  columns filtered = columns df ->
  job_of df r (job_dict filtered r).
Proof.
  intros Hcolumns.
  assert (Hcol : forall c, has_column filtered c = has_column df c).
  { intros c. unfold has_column. now rewrite Hcolumns. }
  unfold job_of, job_dict, field.
  cbn [flat_map app level_column append]. rewrite !Hcol.
  split; [reflexivity|]. split; [reflexivity|]. split.
  - intros i Hi. cbn [In] in Hi.
    destruct Hi as [<-|[<-|[<-|[<-|[]]]]]; cbn [level_column append];
      destruct (has_column df "level_1_name"), (has_column df "level_2_name"),
        (has_column df "level_3_name"), (has_column df "level_4_name"); reflexivity.
  - intros k Hk. apply dict_get_In in Hk. unfold job_keys.
    destruct (has_column df "level_1_name"), (has_column df "level_2_name"),
      (has_column df "level_3_name"), (has_column df "level_4_name");
      cbn in Hk |- *; tauto.
Qed.

(** [/api/jobs] lists one job per occupation left by the filter, in the
    order of the data, with no other keys than the two scores and the level
    names, and with scores that are never NaN.  The number of jobs is the
    total of [/api/risk_distribution] for the same filter, and the
    [total_jobs] of [/api/task_analysis] whenever that reports one. *)
Theorem jobs_listing (w : world) (df : DataFrame) (category level : option string) :
  loaded w ->
  serves w df ->
  exists jobs,
    fst (get_jobs w category level) = Json 200 (PList jobs) /\
    Forall2 (job_of df) (rows (filtered_data df category (level_arg level))) jobs /\
    (forall job, In job jobs ->
       field "auto_score" job <> Some (PFloat FNaN) /\
       field "manual_score" job <> Some (PFloat FNaN)) /\
    (exists risk,
       fst (get_risk_distribution w category level) = Json 200 risk /\
       field "total" risk = Some (of_nat (List.length jobs))) /\
    (forall body n,
       fst (get_task_analysis w category level) = Json 200 body ->
       field "total_jobs" body = Some n ->
       n = of_nat (List.length jobs)).
Proof.
  intros Hw Hdf.
  destruct (serves_loaded w df Hw Hdf) as [file Hread].
  pose proof (read_job_data_scores file df Hread) as Hscores.
  unfold get_jobs, get_risk_distribution, get_task_analysis.
  rewrite !(with_job_data_serves w _ df Hdf). cbn [fst].
  destruct (jobs_of_length df category level) as (jobs & Hjobs & ->).
  set (filtered := filtered_data df category (level_arg level)) in *.
  eexists. split; [exact Hjobs|]. split; [|split; [|split]].
  - generalize (rows filtered) as l.
    induction l as [|r l IH]; cbn [map]; constructor; [|exact IH].
    apply job_dict_job_of. apply filtered_data_columns.
  - intros job Hjob. apply in_map_iff in Hjob as (r & <- & Hr).
    apply filtered_data_rows_incl in Hr.
    rewrite Forall_forall in Hscores. destruct (Hscores r Hr) as [Ha Hm].
    cbn [field job_dict app dict_get String.eqb Ascii.eqb Bool.eqb].
    split; intros [= Hnan]; rewrite Hnan in *; discriminate.
  - unfold risk_distribution_of. cbv zeta. fold filtered.
    eexists. split; [reflexivity|]. now rewrite length_map.
  - intros body n. unfold task_analysis_of. cbv zeta. fold filtered.
    rewrite length_map.
    destruct (pooled_tasks filtered) as [|t ts] eqn:Htasks.
    + intros [= <-]. discriminate.
    + destruct (analyse_tasks (t :: ts) _) as [payload|e] eqn:Hpayload; [|discriminate].
      intros [= <-]. apply analyse_tasks_inv in Hpayload
        as (tasks & task_types & by_type & _ & _ & _ & _ & ->).
      now intros [= <-].
Qed.

Lemma jobs_listing_witness :
  exists jobs,
    fst (get_jobs sample_world (Some "Legal") None) = Json 200 (PList jobs) /\
    Forall2 (job_of sample_frame)
            (rows (filtered_data sample_frame (Some "Legal") (level_arg None))) jobs /\
    List.length jobs = 2.
Proof.
  destruct (jobs_listing sample_world sample_frame (Some "Legal") None
              sample_world_loaded sample_world_serves)
    as (jobs & Hbody & Hjobs & _).
  exists jobs. split; [exact Hbody|split; [exact Hjobs|]].
  apply Forall2_length in Hjobs. rewrite <- Hjobs. vm_compute. reflexivity.
Defined.

(** ** [/api/automation_matrix] *)

Lemma unique_spec (l : list string) :
  NoDup (unique l) /\ forall x, In x (unique l) <-> In x l.
Proof.
  rewrite <- counter_keys_unique.
  destruct (counter_of_list l) as (Hnodup & Hentry & Hpresent).
  split; [exact Hnodup|]. intros x. split.
  - unfold keys. rewrite in_map_iff. intros ([k n] & <- & Hin).
    apply Hentry in Hin as [Heq Hn]. subst n. apply occurrences_In. exact Hn.
  - intros Hin. apply Hpresent in Hin. unfold keys. apply in_map_iff.
    now exists (x, occurrences x l).
Qed.

Lemma insert_sorted_perm (s : string) (l : list string) :
  Permutation (insert_sorted s l) (s :: l).
Proof.
  induction l as [|t l IH]; cbn; [reflexivity|].
  destruct (String.leb s t); [reflexivity|].
  rewrite IH. apply perm_swap.
Qed.

Lemma sort_strings_perm (l : list string) : Permutation (sort_strings l) l.
Proof.
  induction l as [|s l IH]; cbn; [reflexivity|].
  rewrite insert_sorted_perm. now constructor.
Qed.

Lemma column_values_In (c name : string) (df : DataFrame) :
  In name (column_values c df) <-> filter (cell_is c name) (rows df) <> [].
Proof.
  rewrite occurrences_In, occurrences_column. unfold count.
  destruct (filter _ _); cbn [List.length]; split; intros H; try congruence; try lia.
Qed.

(** One group per value of the column, with the rows that have it. *)
Lemma groupby_spec (c : string) (df : DataFrame) :
  NoDup (map fst (groupby c df)) /\
  forall name group,
    In (name, group) (groupby c df)
    <-> group = filter (cell_is c name) (rows df) /\ group <> [].
Proof.
  unfold groupby. destruct (unique_spec (column_values c df)) as [Hnodup Hin].
  pose proof (sort_strings_perm (unique (column_values c df))) as Hperm.
  split.
  - rewrite map_map. cbn [fst]. rewrite map_id.
    apply (Permutation_NoDup (Permutation_sym Hperm) Hnodup).
  - intros name group. rewrite in_map_iff. split.
    + intros (k & [= -> <-] & Hk). split; [reflexivity|].
      apply column_values_In, Hin. now apply (Permutation_in _ Hperm).
    + intros [-> Hne]. exists name. split; [reflexivity|].
      apply (Permutation_in _ (Permutation_sym Hperm)), Hin. now apply column_values_In.
Qed.

Lemma matrix_entry_none (str_accessor : list (option pyval) -> bool)
    (name : string) (group : list Row) :
  matrix_entry str_accessor name group = Ok None ->
  flat_map Automatability_Analysis_Parsed group = [].
Proof.
  unfold matrix_entry.
  destruct (flat_map Automatability_Analysis_Parsed group) as [|t ts]; [reflexivity|].
  destruct (task_frame (t :: ts)) as [tasks_df|e]; cbn [bind]; [|discriminate].
  destruct (series tasks_df "automatability_flag"); cbn [bind]; [|discriminate].
  destruct (series tasks_df "importance_classification"); cbn [bind]; [|discriminate].
  destruct (negb (str_accessor _)); [discriminate|].
  destruct (quadrant_color _ _). discriminate.
Qed.

(** The entries of the matrix, group by group. *)
Lemma matrix_points (str_accessor : list (option pyval) -> bool)
    (groups : list (string * list Row)) (results : list (option pyval)) :
  Forall2 (fun g o => matrix_entry str_accessor (fst g) (snd g) = Ok o) groups results ->
  exists names,
    Forall2 (fun name point =>
               exists group,
                 In (name, group) groups /\
                 matrix_entry str_accessor name group = Ok (Some point))
            names (entries results) /\
    (NoDup (map fst groups) -> NoDup names) /\
    incl names (map fst groups) /\
    (forall name group,
       In (name, group) groups ->
       flat_map Automatability_Analysis_Parsed group <> [] -> In name names).
Proof.
  induction 1 as [|[name group] o groups results Hentry _ (names & Hpoints & Hnodup & Hincl & Hall)].
  - exists []. repeat split; auto using incl_nil_l.
  - cbn [fst snd] in Hentry.
    assert (Hweaken : Forall2 (fun name' point =>
                                 exists group',
                                   In (name', group') ((name, group) :: groups) /\
                                   matrix_entry str_accessor name' group' = Ok (Some point))
                              names (entries results)).
    { eapply Forall2_impl; [|exact Hpoints].
      intros name' point (group' & Hin & Hsome). exists group'. split; [now right|exact Hsome]. }
    destruct o as [point|].
    + exists (name :: names). cbn [map fst]. split; [|split; [|split]].
      * change (entries (Some point :: results)) with (point :: entries results).
        constructor; [|exact Hweaken]. exists group. split; [now left|exact Hentry].
      * intros Hnd. inversion Hnd as [|x l Hout Hrest]; subst.
        constructor; [|now apply Hnodup]. intros Hin. apply Hout. now apply Hincl.
      * intros x [<-|Hx]; [now left|right; now apply Hincl].
      * intros name' group' [[= <- <-]|Hin] Hne; [now left|right; eauto].
    + exists names. cbn [map fst]. split; [|split; [|split]].
      * exact Hweaken.
      * intros Hnd. inversion Hnd; subst. now apply Hnodup.
      * intros x Hx. right. now apply Hincl.
      * intros name' group' [[= <- <-]|Hin] Hne; [|eauto].
        apply matrix_entry_none in Hentry. congruence.
Qed.

(** The categories of the matrix, in the order of its entries. *)
Lemma matrix_names
    (str_accessor : list (option pyval) -> bool) (w : world) (df : DataFrame)
    (category level : option string) (points : list pyval) :
  serves w df ->
  fst (get_automation_matrix str_accessor w category level)
  = Json 200 (PDict [("matrix_data", PList points)]) ->
  let filtered := filtered_data df category (level_arg level) in
  exists names,
    Forall2 (matrix_point filtered) names points /\
    NoDup names /\
    (forall name, In name names <-> group_tasks filtered name <> []) /\
    (names = [] \/ has_column df "level_4_name" = true).
Proof.
  intros Hdf Hresp filtered.
  unfold get_automation_matrix in Hresp.
  rewrite (with_job_data_serves w _ df Hdf) in Hresp. cbn [fst] in Hresp.
  unfold automation_matrix_of in Hresp. fold filtered in Hresp.
  destruct (rows filtered) eqn:Hrows.
  { injection Hresp as <-. exists []. split; [constructor|]. split; [constructor|].
    split; [|now left].
    intros name. unfold group_tasks, group_of. rewrite Hrows. cbn. tauto. }
  destruct (has_column filtered "level_4_name") eqn:Hcol; [|discriminate].
  cbn [negb] in Hresp.
  unfold has_column in Hcol. unfold filtered in Hcol.
  rewrite filtered_data_columns in Hcol. fold (has_column df "level_4_name") in Hcol.
  destruct (mapM _ _) as [results|e] eqn:Hresults; [|discriminate].
  injection Hresp as <-.
  apply mapM_Forall2 in Hresults.
  destruct (groupby_spec "level_4_name" filtered) as [Hkeys Hgroups].
  destruct (matrix_points str_accessor _ _ Hresults) as (names & Hpoints & Hnodup & _ & Hall).
  assert (Hshape : forall name point,
            (exists group,
               In (name, group) (groupby "level_4_name" filtered) /\
               matrix_entry str_accessor name group = Ok (Some point)) ->
            matrix_point filtered name point /\ group_tasks filtered name <> []).
  { intros name point (group & Hin & Hentry).
    apply Hgroups in Hin as [-> _]. fold (group_of filtered name) in Hentry.
    apply matrix_entry_inv in Hentry as (tasks_df & Hframe & Hne & ->).
    fold (group_tasks filtered name) in Hframe.
    pose proof (mapM_length _ _ _ Hframe) as Hlen.
    split.
    - unfold matrix_point. rewrite <- Hlen.
      split; [reflexivity|]. split; [reflexivity|]. split; [reflexivity|].
      exists (List.length (primary_tasks tasks_df)). split; [reflexivity|].
      apply filter_length_le.
    - intros Hnil. rewrite Hnil in Hlen. destruct tasks_df; [congruence|discriminate]. }
  exists names. split; [|split; [now apply Hnodup|split; [|now right]]].
  - eapply Forall2_impl; [|exact Hpoints]. intros name point H. now apply Hshape.
  - intros name. split.
    + intros Hin. destruct (Forall2_In_l _ _ _ _ Hpoints Hin) as (point & _ & H).
      now apply (Hshape name point).
    + intros Hne. apply (Hall name (group_of filtered name)); [|exact Hne].
      apply Hgroups. split; [reflexivity|].
      intros Hnil. apply Hne. unfold group_tasks. fold (group_of filtered name) in Hnil.
      now rewrite Hnil.
Qed.

(** When [/api/automation_matrix] answers, it has one entry for each
    level-4 category whose occupations (those that pass the filter) have at
    least one task, and for no other; no category comes twice.  The entry
    carries the number of these occupations as [total_jobs], the number of
    their tasks as [total_tasks], and a [primary_tasks] count that does not
    exceed it.  Filtered by a level-4 category, the matrix has at most one
    entry, that of the category. *)
Theorem matrix_categories
    (str_accessor : list (option pyval) -> bool) (w : world) (df : DataFrame)
    (category level : option string) (points : list pyval) :
  serves w df ->
  fst (get_automation_matrix str_accessor w category level)
  = Json 200 (PDict [("matrix_data", PList points)]) ->
  let filtered := filtered_data df category (level_arg level) in
  exists names,
    Forall2 (matrix_point filtered) names points /\
    NoDup names /\
    (forall name, In name names <-> group_tasks filtered name <> []) /\
    (forall c, category = Some c -> c <> EmptyString -> level_arg level = "4" ->
               names = [] \/ names = [c]).
Proof.
  intros Hdf Hresp filtered.
  destruct (matrix_names str_accessor w df category level points Hdf Hresp)
    as (names & Hpoints & Hnodup & Hnames & Hcolumn).
  fold filtered in Hpoints, Hnames.
  exists names. split; [exact Hpoints|]. split; [exact Hnodup|]. split; [exact Hnames|].
  intros c -> Hc Hlevel.
  destruct Hcolumn as [->|Hcol]; [now left|].
  assert (Hone : forall name, In name names -> name = c).
  { intros name Hin. apply Hnames in Hin.
    unfold group_tasks, group_of in Hin.
    destruct (filter (cell_is "level_4_name" name) (rows filtered)) as [|r l] eqn:Hgroup;
      [now cbn in Hin|].
    assert (Hr : In r (filter (cell_is "level_4_name" name) (rows filtered)))
      by (rewrite Hgroup; now left).
    apply filter_In in Hr as [Hr Hcell].
    unfold filtered, filtered_data in Hr. rewrite Hlevel in Hr.
    change (level_column "4") with "level_4_name" in Hr.
    destruct (String.eqb_spec c EmptyString); [congruence|]. cbn [negb] in Hr.
    rewrite Hcol in Hr. cbn [select rows] in Hr. apply filter_In in Hr as [_ Hcell'].
    unfold cell_is in Hcell, Hcell'. destruct (cell "level_4_name" r); [|discriminate].
    apply String.eqb_eq in Hcell, Hcell'. congruence. }
  destruct names as [|x [|y names]]; [now left| |].
  - right. f_equal. apply Hone. now left.
  - exfalso. inversion Hnodup as [|? ? Hout _]; subst. apply Hout.
    rewrite (Hone x), (Hone y); cbn; auto.
Qed.

Lemma matrix_categories_witness :
  exists names,
    Forall2 (matrix_point (filtered_data sample_frame None (level_arg None))) names [legal_point] /\
    NoDup names /\
    (forall name,
       In name names
       <-> group_tasks (filtered_data sample_frame None (level_arg None)) name <> []).
Proof.
  destruct (matrix_categories has_str sample_world sample_frame None None [legal_point]
              sample_world_serves eq_refl) as (names & Hpoints & Hnodup & Hnames & _).
  exists names. auto.
Defined.






Lemma is_dict_all (all_tasks : list pyval) :
  forallb is_dict all_tasks = true <-> exists tasks, mapM as_dict all_tasks = Ok tasks.
Proof.
  induction all_tasks as [|t ts IH]; cbn [forallb mapM].
  - split; eauto.
  - destruct t as [| | | | | |d]; cbn [is_dict as_dict bind andb];
      try (split; [discriminate|intros [tasks H]; discriminate]).
    rewrite IH. split.
    + intros [tasks ->]. cbn [bind]. eauto.
    + intros [tasks H]. destruct (mapM as_dict ts); [eauto|discriminate].
Qed.

Lemma classifications_map (tasks : list dict) :
  classifications (map PDict tasks)
  = map (fun d => dict_get d "importance_classification") tasks.
Proof. unfold classifications. now rewrite map_map. Qed.

Lemma matrix_entry_answers (str_accessor : list (option pyval) -> bool)
    (name : string) (group : list Row) :
  forallb is_dict (flat_map Automatability_Analysis_Parsed group) = true ->
  plottable str_accessor (flat_map Automatability_Analysis_Parsed group) = true
  <-> exists o, matrix_entry str_accessor name group = Ok o.
Proof.
  unfold matrix_entry, plottable, task_frame, series.
  destruct (flat_map Automatability_Analysis_Parsed group) as [|t ts]; [split; eauto|].
  intros Hdicts. apply is_dict_all in Hdicts as [tasks Htasks].
  rewrite Htasks. cbn [bind]. apply as_dict_map in Htasks. rewrite Htasks.
  rewrite !existsb_carries, classifications_map.
  destruct (existsb (fun d => has_key d "automatability_flag") tasks); cbn [bind andb];
    [|split; [discriminate|intros [o H]; discriminate]].
  destruct (existsb (fun d => has_key d "importance_classification") tasks);
    cbn [bind andb]; [|split; [discriminate|intros [o H]; discriminate]].
  destruct (str_accessor _); cbn [negb];
    [|split; [discriminate|intros [o H]; discriminate]].
  destruct (quadrant_color _ _). split; eauto.
Qed.

Lemma group_tasks_dicts (filtered : DataFrame) (name : string) :
  forallb is_dict (pooled_tasks filtered) = true ->
  forallb is_dict (group_tasks filtered name) = true.
Proof.
  unfold pooled_tasks, group_tasks, group_of. rewrite !forallb_forall.
  intros Hall t Ht. apply Hall.
  apply in_flat_map in Ht as (r & Hr & Ht). apply filter_In in Hr as [Hr _].
  apply in_flat_map. eauto.
Qed.

(** When occupations are left after the filter and their tasks are dicts,
    as the objects of a decoded list are, [/api/automation_matrix] answers
    with status 200 exactly when the data has the level-4 column and, in
    every level-4 category with tasks, the keys [automatability_flag] and
    [importance_classification] occur and pandas offers [.str] on the
    classifications: one category whose tasks lack a key makes the whole
    request fail. *)
Theorem matrix_answers
    (str_accessor : list (option pyval) -> bool) (w : world) (df : DataFrame)
    (category level : option string) :
  serves w df ->
  let filtered := filtered_data df category (level_arg level) in
  rows filtered <> [] ->
  forallb is_dict (pooled_tasks filtered) = true ->
  (exists points,
     fst (get_automation_matrix str_accessor w category level)
     = Json 200 (PDict [("matrix_data", PList points)]))
  <-> has_column df "level_4_name" = true /\
      forall name, plottable str_accessor (group_tasks filtered name) = true.
Proof.
  intros Hdf filtered Hrows Hdicts.
  unfold get_automation_matrix. rewrite (with_job_data_serves w _ df Hdf). cbn [fst].
  unfold automation_matrix_of. fold filtered.
  assert (Hcolumns : has_column filtered "level_4_name" = has_column df "level_4_name").
  { unfold has_column, filtered. now rewrite filtered_data_columns. }
  rewrite Hcolumns.
  destruct (rows filtered) as [|r l] eqn:Hfiltered; [congruence|].
  destruct (groupby_spec "level_4_name" filtered) as [_ Hgroups].
  destruct (has_column df "level_4_name"); cbn [negb];
    [|split; [intros [points H]; discriminate|intros [H _]; discriminate]].
  destruct (mapM _ _) as [results|e] eqn:Hresults.
  - split; [|eauto]. intros _. split; [reflexivity|]. intros name.
    apply mapM_Forall2 in Hresults.
    destruct (group_of filtered name) as [|r' l'] eqn:Hgroup.
    { unfold group_tasks. now rewrite Hgroup. }
    assert (Hin : In (name, group_of filtered name) (groupby "level_4_name" filtered)).
    { apply Hgroups. split; [reflexivity|]. fold (group_of filtered name). congruence. }
    destruct (Forall2_In_l _ _ _ _ Hresults Hin) as (o & _ & Ho). cbn [fst snd] in Ho.
    apply (matrix_entry_answers str_accessor name (group_of filtered name));
      [exact (group_tasks_dicts filtered name Hdicts)|eauto].
  - split; [intros [points H]; discriminate|]. intros [_ Hall]. exfalso.
    destruct (mapM_total (fun g => matrix_entry str_accessor (fst g) (snd g))
                (groupby "level_4_name" filtered)) as [results Hok]; [|congruence].
    intros [name group] Hin. apply Hgroups in Hin as [-> _]. cbn [fst snd].
    apply matrix_entry_answers; [exact (group_tasks_dicts filtered name Hdicts)|apply Hall].
Qed.

Lemma matrix_answers_witness :
  (exists points,
     fst (get_automation_matrix has_str sample_world None None)
     = Json 200 (PDict [("matrix_data", PList points)]))
  <-> has_column sample_frame "level_4_name" = true /\
      forall name,
        plottable has_str (group_tasks (filtered_data sample_frame None (level_arg None)) name)
        = true.
Proof.
  apply (matrix_answers has_str sample_world sample_frame None None sample_world_serves).
  - vm_compute. discriminate.
  - vm_compute. reflexivity.
Defined.

(** *** Percentages *)

Lemma rint_half_even_bounds (q : Q) (lo hi : Z) :
  (inject_Z lo <= q)%Q -> (q <= inject_Z hi)%Q ->
  (lo <= rint_half_even q <= hi)%Z.
Proof.
  intros Hlo Hhi. unfold rint_half_even.
  pose proof (Qfloor_le q) as Hfloor.
  assert (Hlow : (lo <= Qfloor q)%Z).
  { rewrite <- (Qfloor_Z lo). now apply Qfloor_resp_le. }
  assert (Hhigh : (Qfloor q <= hi)%Z).
  { rewrite <- (Qfloor_Z hi). now apply Qfloor_resp_le. }
  assert (Hstrict : (inject_Z (Qfloor q) < q)%Q -> (Qfloor q + 1 <= hi)%Z).
  { intros Hlt. assert (H : (inject_Z (Qfloor q) < inject_Z hi)%Q)
      by (eapply Qlt_le_trans; eassumption).
    rewrite <- Zlt_Qlt in H. lia. }
  assert (Hpart : (0 < Qred (2 * (q - inject_Z (Qfloor q))))%Q ->
                  (inject_Z (Qfloor q) < q)%Q).
  { rewrite Qred_correct. generalize (Qfloor q) as f. intros f.
    destruct q as [a b].
    unfold Qlt, Qminus, Qplus, Qmult, Qopp, inject_Z. cbn [Qnum Qden]. nia. }
  destruct (Qcompare_spec (Qred (2 * (q - inject_Z (Qfloor q)))) 1) as [Heq|Hlt|Hgt].
  - assert (Hq : (Qfloor q + 1 <= hi)%Z).
    { apply Hstrict, Hpart. rewrite Heq. reflexivity. }
    destruct (Z.even (Qfloor q)); lia.
  - lia.
  - assert (Hq : (Qfloor q + 1 <= hi)%Z).
    { apply Hstrict, Hpart. eapply Qlt_trans; [|exact Hgt]. reflexivity. }
    lia.
Qed.

Lemma round1_bounds (q : Q) :
  (0 <= q)%Q -> (q <= 100)%Q ->
  exists r, round1 (FFin q) = FFin r /\ (0 <= r)%Q /\ (r <= 100)%Q.
Proof.
  intros Hlo Hhi. unfold round1. eexists. split; [reflexivity|].
  destruct (rint_half_even_bounds (q * 10) 0 1000) as [Hz Hz'].
  - change (inject_Z 0) with (0 * 10)%Q. apply Qmult_le_compat_r; [exact Hlo|discriminate].
  - change (inject_Z 1000) with (100 * 10)%Q. apply Qmult_le_compat_r; [exact Hhi|discriminate].
  - rewrite Qred_correct. revert Hz Hz'. generalize (rint_half_even (q * 10)) as z.
    intros z Hz Hz'. unfold Qle, Qdiv, Qmult, Qinv, inject_Z. cbn [Qnum Qden].
    split; cbn; lia.
Qed.

Lemma percentage_bounds (num den : nat) :
  num <= den -> 0 < den ->
  (0 <= percentage num den)%Q /\ (percentage num den <= 100)%Q.
Proof.
  intros Hnum Hden.
  assert (Hp : (percentage num den == (Z.of_nat (100 * num) # Pos.of_nat den))%Q).
  { rewrite percentage_exact. destruct den as [|n]; [lia|].
    unfold Qeq, Qdiv, Qmult, Qinv, inject_Z. cbn [Qnum Qden].
    rewrite Nat2Z.inj_mul.
    change (Z.of_nat (S n)) with (Z.pos (Pos.of_succ_nat n)).
    cbn [Qnum Qden Z.mul]. rewrite Pos.of_nat_succ.
    rewrite Pos.mul_1_l, Pos.mul_1_r. change (Z.of_nat 100) with 100%Z. lia. }
  assert (Hd : Z.pos (Pos.of_nat den) = Z.of_nat den).
  { destruct den as [|n]; [lia|].
    now rewrite <- Pos.of_nat_succ, Zpos_P_of_succ_nat, Nat2Z.inj_succ. }
  rewrite Hp. unfold Qle. cbn [Qnum Qden]. rewrite Hd. split; lia.
Qed.

(** The percentages of a matrix entry lie between 0 and 100, after
    rounding as well; the primary one is the integer 0 for a category
    without primary tasks. *)
Theorem matrix_percentages_bounded
    (str_accessor : list (option pyval) -> bool) (w : world) (df : DataFrame)
    (category level : option string) (points : list pyval) (point : pyval) :
  serves w df ->
  fst (get_automation_matrix str_accessor w category level)
  = Json 200 (PDict [("matrix_data", PList points)]) ->
  In point points ->
  (exists overall,
     field "overall_automation_pct" point = Some (PFloat (FFin overall)) /\
     (0 <= overall)%Q /\ (overall <= 100)%Q) /\
  ((field "primary_tasks" point = Some (PInt 0) /\
    field "primary_automation_pct" point = Some (PInt 0))
   \/ exists primary,
        field "primary_automation_pct" point = Some (PFloat (FFin primary)) /\
        (0 <= primary)%Q /\ (primary <= 100)%Q).
Proof.
  intros Hdf Hresp Hpoint.
  unfold get_automation_matrix in Hresp.
  rewrite (with_job_data_serves w _ df Hdf) in Hresp. cbn [fst] in Hresp.
  unfold automation_matrix_of in Hresp.
  destruct (rows (filtered_data df category (level_arg level))).
  { injection Hresp as <-. destruct Hpoint. }
  destruct (negb (has_column _ _)); [discriminate|].
  destruct (mapM _ _) as [results|e] eqn:Hresults; [|discriminate].
  injection Hresp as <-.
  apply entries_In in Hpoint. apply mapM_Forall2 in Hresults.
  destruct (Forall2_In_r _ _ _ _ Hresults Hpoint) as ([name group] & _ & Hentry).
  cbn [fst snd] in Hentry.
  apply matrix_entry_inv in Hentry as (tasks_df & _ & Hne & ->).
  split.
  - unfold overall_automation_pct.
    destruct (percentage_bounds (count automatable tasks_df) (List.length tasks_df))
      as [Hlo Hhi]; [apply filter_length_le|destruct tasks_df; [congruence|cbn; lia]|].
    destruct (round1_bounds _ Hlo Hhi) as (pct & Hpct & Hbounds).
    exists pct. split; [|exact Hbounds]. cbn [field dict_get String.eqb Ascii.eqb Bool.eqb].
    now rewrite Hpct.
  - unfold rounded_primary_pct, primary_automation_pct.
    destruct (primary_tasks tasks_df) as [|d ds] eqn:Hprimary.
    + left. split; reflexivity.
    + right.
      destruct (percentage_bounds (count automatable (d :: ds)) (List.length (d :: ds)))
        as [Hlo Hhi]; [apply filter_length_le|cbn; lia|].
      destruct (round1_bounds _ Hlo Hhi) as (pct & Hpct & Hbounds).
      exists pct. split; [|exact Hbounds]. cbn [field dict_get String.eqb Ascii.eqb Bool.eqb].
      now rewrite Hpct.
Qed.

Lemma matrix_percentages_bounded_witness :
  (exists overall,
     field "overall_automation_pct" legal_point = Some (PFloat (FFin overall)) /\
     (0 <= overall)%Q /\ (overall <= 100)%Q) /\
  ((field "primary_tasks" legal_point = Some (PInt 0) /\
    field "primary_automation_pct" legal_point = Some (PInt 0))
   \/ exists primary,
        field "primary_automation_pct" legal_point = Some (PFloat (FFin primary)) /\
        (0 <= primary)%Q /\ (primary <= 100)%Q).
Proof.
  exact (matrix_percentages_bounded has_str sample_world sample_frame None None
           [legal_point] legal_point sample_world_serves eq_refl (or_introl eq_refl)).
Defined.

(** ** [/api/task_analysis] *)

Lemma task_analysis_answers_witness :
  exists body, fst (get_task_analysis sample_world None None) = Json 200 body.
Proof.
  apply (task_analysis_answers sample_world sample_frame None None sample_world_serves).
  - vm_compute. discriminate.
  - vm_compute. reflexivity.
Defined.






Lemma insert_by_count_filter (n : nat) (x : string * nat) (l : list (string * nat)) :
  filter (fun entry => snd entry =? n) (insert_by_count x l)
  = filter (fun entry => snd entry =? n) (x :: l).
Proof.
  induction l as [|y l IH]; [reflexivity|].
  cbn [insert_by_count]. destruct (Nat.ltb_spec (snd x) (snd y)) as [Hlt|Hge]; [|reflexivity].
  cbn [filter] in *. rewrite IH.
  destruct (Nat.eqb_spec (snd x) n), (Nat.eqb_spec (snd y) n); try reflexivity. lia.
Qed.

(** Sorting by count keeps the order of the entries with the same count. *)
Lemma sort_by_count_filter (n : nat) (l : list (string * nat)) :
  filter (fun entry => snd entry =? n) (sort_by_count l)
  = filter (fun entry => snd entry =? n) l.
Proof.
  induction l as [|x l IH]; [reflexivity|].
  cbn [sort_by_count fold_right]. fold (sort_by_count l).
  rewrite insert_by_count_filter. cbn [filter]. now rewrite IH.
Qed.

Lemma filter_keys (f : string -> nat) (n : nat) (c : list (string * nat)) :
  (forall k m, In (k, m) c -> m = f k) ->
  map fst (filter (fun entry => snd entry =? n) c) = filter (fun k => f k =? n) (map fst c).
Proof.
  induction c as [|[k m] c IH]; intros Hc; [reflexivity|].
  cbn [filter map fst snd]. rewrite <- (Hc k m (or_introl eq_refl)).
  rewrite <- IH by (intros k' m' Hin; apply Hc; now right).
  now destruct (m =? n).
Qed.

Lemma most_common_ties (limit : nat) (questions : list string) :
  ties_in_order questions (most_common limit (counter_update [] questions)).
Proof.
  intros n. unfold most_common.
  set (c := counter_update [] questions).
  exists (map fst (filter (fun entry => snd entry =? n) (skipn limit (sort_by_count c)))).
  rewrite <- map_app, <- filter_app, firstn_skipn, sort_by_count_filter.
  destruct (counter_of_list questions) as (_ & Hentry & _). fold c in Hentry.
  rewrite (filter_keys (fun k => occurrences k questions)).
  - fold (keys c). unfold c. now rewrite counter_keys_unique.
  - intros k m Hin. now apply Hentry in Hin.
Qed.

(** Drivers and barriers with the same count come in the order in which
    their reasons were first seen among the questions of the tasks: the ten
    that are listed are never reordered among equals, and when equal counts
    pass the tenth place it is the reasons seen first that stay. *)
Theorem reasons_ties_first_seen (w : world) (df : DataFrame)
    (category level : option string) (body : pyval) :
  serves w df ->
  pooled_tasks (filtered_data df category (level_arg level)) <> [] ->
  fst (get_task_analysis w category level) = Json 200 body ->
  exists tasks drivers barriers,
    mapM as_dict (pooled_tasks (filtered_data df category (level_arg level))) = Ok tasks /\
    field "automation_drivers" body = Some (reasons drivers) /\
    field "automation_barriers" body = Some (reasons barriers) /\
    ties_in_order (flat_map cleaned_questions (filter automatable tasks)) drivers /\
    ties_in_order (flat_map cleaned_questions (filter (fun task => negb (automatable task)) tasks))
                  barriers.
Proof.
  intros Hdf Hne Hresp.
  apply (task_analysis_inv w df category level _ Hdf Hne) in Hresp.
  apply analyse_tasks_inv in Hresp as (tasks & task_types & by_type & Htasks & _ & _ & _ & ->).
  exists tasks. do 2 eexists.
  split; [exact Htasks|]. split; [reflexivity|]. split; [reflexivity|].
  split; apply most_common_ties.
Qed.

Lemma reasons_ties_first_seen_witness :
  exists tasks drivers barriers,
    mapM as_dict (pooled_tasks (filtered_data sample_frame None (level_arg None))) = Ok tasks /\
    field "automation_drivers" (PDict sample_analysis) = Some (reasons drivers) /\
    field "automation_barriers" (PDict sample_analysis) = Some (reasons barriers) /\
    ties_in_order (flat_map cleaned_questions (filter automatable tasks)) drivers /\
    ties_in_order (flat_map cleaned_questions (filter (fun task => negb (automatable task)) tasks))
                  barriers.
Proof.
  apply (reasons_ties_first_seen sample_world sample_frame None None (PDict sample_analysis)
           sample_world_serves).
  - vm_compute. discriminate.
  - vm_compute. reflexivity.
Defined.

(** ** The matrix and the task analysis on the same filter *)

Lemma list_sum_cons (x : nat) (l : list nat) : list_sum (x :: l) = x + list_sum l.
Proof. reflexivity. Qed.

Lemma list_sum_map_add {A : Type} (f h : A -> nat) (l : list A) :
  list_sum (map (fun x => f x + h x) l) = list_sum (map f l) + list_sum (map h l).
Proof.
  induction l as [|x l IH]; [reflexivity|].
  cbn [map]. rewrite !list_sum_cons, IH. lia.
Qed.

Lemma list_sum_single (v : string) (x : nat) (ks : list string) :
  NoDup ks ->
  list_sum (map (fun k => if String.eqb v k then x else 0) ks) = if mem v ks then x else 0.
Proof.
  induction 1 as [|k ks Hout _ IH]; [reflexivity|].
  cbn [map]. rewrite list_sum_cons, IH.
  unfold mem. cbn [existsb]. fold (mem v ks).
  destruct (String.eqb_spec v k) as [->|Hne]; cbn [orb]; [|reflexivity].
  destruct (mem k ks) eqn:Hmem; [|lia].
  apply mem_In in Hmem. contradiction.
Qed.

(** Summed over the groups of a column, a weight of the rows gives the
    weight of the rows that have a value in the column, when every such row
    with a weight belongs to one of the groups. *)
Lemma group_sum (c : string) (g : Row -> nat) (ks : list string) (l : list Row) :
  NoDup ks ->
  (forall r v, In r l -> cell c r = Some v -> g r <> 0 -> In v ks) ->
  list_sum (map (fun k => list_sum (map g (filter (cell_is c k) l))) ks)
  = list_sum (map g (filter (has_cell c) l)).
Proof.
  intros Hnodup. induction l as [|r l IH]; intros Hks.
  - cbn [filter map]. clear. induction ks as [|k ks IHks]; [reflexivity|].
    cbn [map]. now rewrite list_sum_cons, IHks.
  - rewrite (map_ext _ (fun k => (if cell_is c k r then g r else 0)
                                 + list_sum (map g (filter (cell_is c k) l)))).
    2:{ intros k. cbn [filter]. now destruct (cell_is c k r). }
    rewrite list_sum_map_add, IH by (intros r' v Hin; apply Hks; now right).
    cbn [filter]. unfold cell_is.
    destruct (cell c r) as [v|] eqn:Hcell.
    + assert (Hhas : has_cell c r = true) by (unfold has_cell; now rewrite Hcell).
      rewrite Hhas, (list_sum_single v (g r) ks Hnodup). cbn [map]. rewrite list_sum_cons.
      destruct (mem v ks) eqn:Hmem; [reflexivity|].
      destruct (Nat.eq_dec (g r) 0) as [->|Hg]; [reflexivity|].
      apply (Hks r v (or_introl eq_refl) Hcell), mem_In in Hg. congruence.
    + assert (Hhas : has_cell c r = false) by (unfold has_cell; now rewrite Hcell).
      rewrite Hhas.
      replace (list_sum (map (fun _ : string => 0) ks)) with 0; [reflexivity|].
      clear. induction ks as [|k ks IH]; [reflexivity|].
      cbn [map]. now rewrite list_sum_cons, <- IH.
Qed.

Lemma filter_weight_le {A : Type} (g : A -> nat) (p : A -> bool) (l : list A) :
  list_sum (map g (filter p l)) <= list_sum (map g l).
Proof.
  induction l as [|x l IH]; [reflexivity|].
  cbn [filter map]. destruct (p x); cbn [map]; rewrite !list_sum_cons; lia.
Qed.

Lemma filter_all {A : Type} (p : A -> bool) (l : list A) :
  (forall x, In x l -> p x = true) -> filter p l = l.
Proof.
  induction l as [|x l IH]; intros H; [reflexivity|].
  cbn. rewrite (H x (or_introl eq_refl)), IH; [reflexivity|]. intros y Hy. apply H. now right.
Qed.

Lemma task_analysis_total_tasks (df : DataFrame) (category level : option string) (body : pyval) :
  task_analysis_of df category level = Json 200 body ->
  field "total_tasks" body
  = Some (of_nat (List.length (pooled_tasks (filtered_data df category (level_arg level))))).
Proof.
  unfold task_analysis_of. cbv zeta.
  destruct (pooled_tasks _) as [|t ts] eqn:Htasks.
  - intros [= <-]. reflexivity.
  - destruct (analyse_tasks (t :: ts) _) as [payload|e] eqn:Hpayload; [|discriminate].
    intros [= <-]. apply analyse_tasks_inv in Hpayload
      as (tasks & task_types & by_type & _ & _ & _ & _ & ->).
    reflexivity.
Qed.

(** The matrix leaves out the occupations without a level-4 name.  When
    both routes answer for the same filter, the [total_tasks] of the matrix
    entries add up to the number of tasks of the occupations that have a
    level-4 name; this is at most the [total_tasks] of the task analysis,
    and equal to it when every occupation has a level-4 name. *)
Theorem matrix_tasks_total
    (str_accessor : list (option pyval) -> bool) (w : world) (df : DataFrame)
    (category level : option string) (points : list pyval) (body : pyval) :
  serves w df ->
  fst (get_automation_matrix str_accessor w category level)
  = Json 200 (PDict [("matrix_data", PList points)]) ->
  fst (get_task_analysis w category level) = Json 200 body ->
  let filtered := filtered_data df category (level_arg level) in
  exists totals total_tasks,
    Forall2 (fun point n => field "total_tasks" point = Some (of_nat n)) points totals /\
    field "total_tasks" body = Some (of_nat total_tasks) /\
    list_sum totals
    = List.length (flat_map Automatability_Analysis_Parsed
                            (filter (has_cell "level_4_name") (rows filtered))) /\
    list_sum totals <= total_tasks /\
    ((forall r, In r (rows filtered) -> has_cell "level_4_name" r = true) ->
     list_sum totals = total_tasks).
Proof.
  intros Hdf Hmatrix Hanalysis filtered.
  destruct (matrix_names str_accessor w df category level points Hdf Hmatrix)
    as (names & Hpoints & Hnodup & Hnames & _).
  fold filtered in Hpoints, Hnames.
  unfold get_task_analysis in Hanalysis.
  rewrite (with_job_data_serves w _ df Hdf) in Hanalysis. cbn [fst] in Hanalysis.
  apply task_analysis_total_tasks in Hanalysis. fold filtered in Hanalysis.
  set (g := fun r : Row => List.length (Automatability_Analysis_Parsed r)).
  assert (Hweight : forall l, List.length (flat_map Automatability_Analysis_Parsed l)
                              = list_sum (map g l)).
  { intros l. apply length_flat_map. }
  exists (map (fun name => List.length (group_tasks filtered name)) names),
    (List.length (pooled_tasks filtered)).
  assert (Hsum : list_sum (map (fun name => List.length (group_tasks filtered name)) names)
                 = list_sum (map g (filter (has_cell "level_4_name") (rows filtered)))).
  { rewrite <- (group_sum "level_4_name" g names (rows filtered) Hnodup).
    - f_equal. apply map_ext. intros name. apply Hweight.
    - intros r v Hr Hcell Hg. apply Hnames. unfold group_tasks, group_of.
      intros Hnil. apply Hg. unfold g.
      assert (Hin : In r (filter (cell_is "level_4_name" v) (rows filtered))).
      { apply filter_In. split; [exact Hr|]. unfold cell_is. rewrite Hcell.
        apply String.eqb_refl. }
      destruct (Automatability_Analysis_Parsed r) as [|t ts] eqn:Htasks; [reflexivity|].
      exfalso. assert (Ht : In t (flat_map Automatability_Analysis_Parsed
                                    (filter (cell_is "level_4_name" v) (rows filtered)))).
      { apply in_flat_map. exists r. split; [exact Hin|]. rewrite Htasks. now left. }
      rewrite Hnil in Ht. destruct Ht. }
  split; [|split; [exact Hanalysis|split; [|split]]].
  - clear -Hpoints. induction Hpoints as [|name point names points Hpoint _ IH];
      cbn [map]; constructor; [|exact IH].
    now destruct Hpoint as (_ & _ & Htotal & _).
  - now rewrite Hsum, Hweight.
  - rewrite Hsum. unfold pooled_tasks. rewrite Hweight. apply filter_weight_le.
  - intros Hall. rewrite Hsum. unfold pooled_tasks. rewrite Hweight.
    now rewrite (filter_all _ _ Hall).
Qed.

Lemma matrix_tasks_total_witness :
  exists totals total_tasks,
    Forall2 (fun point n => field "total_tasks" point = Some (of_nat n)) [legal_point] totals /\
    field "total_tasks" (PDict sample_analysis) = Some (of_nat total_tasks) /\
    list_sum totals = total_tasks.
Proof.
  destruct (matrix_tasks_total has_str sample_world sample_frame None None [legal_point]
              (PDict sample_analysis) sample_world_serves eq_refl eq_refl)
    as (totals & total_tasks & Hpoints & Hbody & _ & _ & Hall).
  exists totals, total_tasks. split; [exact Hpoints|]. split; [exact Hbody|].
  apply Hall. intros r Hr. vm_compute in Hr.
  repeat (destruct Hr as [<-|Hr]; [reflexivity|]). destruct Hr.
Defined.
(** ** The reasons of drivers and barriers *)

Lemma is_upper_spec (c : ascii) :
  is_upper c = true <-> 65 <= nat_of_ascii c <= 90.
Proof. unfold is_upper. rewrite andb_true_iff, !Nat.leb_le. tauto. Qed.

Lemma is_lower_spec (c : ascii) :
  is_lower c = true <-> 97 <= nat_of_ascii c <= 122.
Proof. unfold is_lower. rewrite andb_true_iff, !Nat.leb_le. tauto. Qed.

Lemma is_upper_not_lower (c : ascii) : is_upper c = true -> is_lower c = false.
Proof.
  intros H. apply is_upper_spec in H. apply not_true_is_false.
  rewrite is_lower_spec. lia.
Qed.

Lemma nat_to_lower (c : ascii) :
  is_upper c = true -> nat_of_ascii (to_lower c) = nat_of_ascii c + 32.
Proof.
  intros H. unfold to_lower. rewrite H. apply is_upper_spec in H.
  apply nat_ascii_embedding. lia.
Qed.

Lemma nat_to_upper (c : ascii) :
  is_lower c = true -> nat_of_ascii (to_upper c) = nat_of_ascii c - 32.
Proof.
  intros H. unfold to_upper. rewrite H. apply is_lower_spec in H.
  apply nat_ascii_embedding. lia.
Qed.

Lemma to_lower_is_lower (c : ascii) : is_upper c = true -> is_lower (to_lower c) = true.
Proof.
  intros H. apply is_lower_spec. rewrite (nat_to_lower c H). apply is_upper_spec in H. lia.
Qed.

Lemma to_upper_is_upper (c : ascii) : is_lower c = true -> is_upper (to_upper c) = true.
Proof.
  intros H. apply is_upper_spec. rewrite (nat_to_upper c H). apply is_lower_spec in H. lia.
Qed.

Lemma to_upper_to_lower (c : ascii) : is_upper c = true -> to_upper (to_lower c) = c.
Proof.
  intros H. unfold to_upper. rewrite (to_lower_is_lower c H), (nat_to_lower c H).
  replace (nat_of_ascii c + 32 - 32) with (nat_of_ascii c) by lia.
  apply ascii_nat_embedding.
Qed.

Lemma to_lower_to_upper (c : ascii) : is_lower c = true -> to_lower (to_upper c) = c.
Proof.
  intros H. unfold to_lower. rewrite (to_upper_is_upper c H), (nat_to_upper c H).
  apply is_lower_spec in H.
  replace (nat_of_ascii c - 32 + 32) with (nat_of_ascii c) by lia.
  apply ascii_nat_embedding.
Qed.

Lemma to_lower_fixed (c : ascii) : is_upper c = false -> to_lower c = c.
Proof. intros H. unfold to_lower. now rewrite H. Qed.

(** Title-casing looks at the letters, not at their case. *)
Lemma title_from_lower (previous_is_cased : bool) (s : string) :
  title_from previous_is_cased (lower s) = title_from previous_is_cased s.
Proof.
  unfold lower. revert previous_is_cased.
  induction s as [|c s IH]; intros b; [reflexivity|].
  cbn [map_string title_from].
  destruct (is_upper c) eqn:Hupper.
  - rewrite (to_lower_is_lower c Hupper), (is_upper_not_lower c Hupper),
      (to_upper_to_lower c Hupper), IH. reflexivity.
  - rewrite (to_lower_fixed c Hupper), Hupper, !IH. reflexivity.
Qed.

Lemma lower_title_from (previous_is_cased : bool) (s : string) :
  lower (title_from previous_is_cased s) = lower s.
Proof.
  unfold lower. revert previous_is_cased.
  induction s as [|c s IH]; intros b; [reflexivity|].
  cbn [title_from].
  destruct (is_lower c) eqn:Hlower; [|destruct (is_upper c) eqn:Hupper];
    cbn [map_string]; rewrite IH; f_equal.
  - destruct b; [reflexivity|].
    rewrite (to_lower_to_upper c Hlower). symmetry. apply to_lower_fixed.
    destruct (is_upper c) eqn:Hupper; [|reflexivity].
    apply is_upper_not_lower in Hupper. congruence.
  - destruct b; [|reflexivity].
    apply to_lower_fixed. destruct (is_upper (to_lower c)) eqn:H; [|reflexivity].
    apply is_upper_not_lower in H. rewrite (to_lower_is_lower c Hupper) in H. discriminate.
Qed.

Lemma title_lower_iff (s t : string) : title s = title t <-> lower s = lower t.
Proof.
  unfold title. split; intros H.
  - rewrite <- (lower_title_from false s), <- (lower_title_from false t). now rewrite H.
  - rewrite <- (title_from_lower false s), <- (title_from_lower false t). now rewrite H.
Qed.

Lemma title_from_idempotent (previous_is_cased : bool) (s : string) :
  title_from previous_is_cased (title_from previous_is_cased s)
  = title_from previous_is_cased s.
Proof.
  revert previous_is_cased. induction s as [|c s IH]; intros b; [reflexivity|].
  cbn [title_from].
  destruct (is_lower c) eqn:Hlower; [|destruct (is_upper c) eqn:Hupper].
  - destruct b; cbn [title_from].
    + now rewrite Hlower, IH.
    + rewrite (to_upper_is_upper c Hlower),
        (is_upper_not_lower _ (to_upper_is_upper c Hlower)), IH. reflexivity.
  - destruct b; cbn [title_from].
    + now rewrite (to_lower_is_lower c Hupper), IH.
    + now rewrite Hlower, Hupper, IH.
  - cbn [title_from]. now rewrite Hlower, Hupper, IH.
Qed.

Lemma cased_not_underscore (c : ascii) :
  is_lower c || is_upper c = true -> Ascii.eqb c "_" = false.
Proof.
  intros H. destruct (Ascii.eqb_spec c "_") as [->|_]; [|reflexivity].
  discriminate.
Qed.

Lemma has_char_title_from (previous_is_cased : bool) (s : string) :
  has_char "_" (title_from previous_is_cased s) = has_char "_" s.
Proof.
  revert previous_is_cased. induction s as [|c s IH]; intros b; [reflexivity|].
  cbn [title_from].
  destruct (is_lower c) eqn:Hlower; [|destruct (is_upper c) eqn:Hupper];
    cbn [has_char]; rewrite IH; f_equal.
  - rewrite (cased_not_underscore c) by now rewrite Hlower.
    destruct b; [now apply cased_not_underscore; rewrite Hlower|].
    apply cased_not_underscore. now rewrite (to_upper_is_upper c Hlower), orb_true_r.
  - rewrite (cased_not_underscore c) by now rewrite Hupper, orb_true_r.
    destruct b; [|now apply cased_not_underscore; rewrite Hupper, orb_true_r].
    apply cased_not_underscore. now rewrite (to_lower_is_lower c Hupper).
Qed.

Lemma has_char_replaced (s : string) : has_char "_" (replace_char "_" " " s) = false.
Proof.
  unfold replace_char. induction s as [|c s IH]; [reflexivity|].
  cbn [map_string has_char]. rewrite IH, orb_false_r.
  destruct (Ascii.eqb_spec c "_") as [->|Hne]; [reflexivity|].
  now apply Ascii.eqb_neq.
Qed.

Lemma replace_char_absent (s : string) :
  has_char "_" s = false -> replace_char "_" " " s = s.
Proof.
  unfold replace_char. induction s as [|c s IH]; [reflexivity|].
  cbn [map_string has_char]. intros H. apply orb_false_elim in H as [Hc Hs].
  now rewrite Hc, IH.
Qed.

Lemma cleaned_questions_strings (task : dict) (questions : list string) :
  dict_get task "question" = Some (PList (map PStr questions)) ->
  cleaned_questions task = map (fun q => title (replace_char "_" " " q)) questions.
Proof.
  intros Hq. unfold cleaned_questions. rewrite Hq. clear Hq.
  induction questions as [|q questions IH]; [reflexivity|].
  cbn [map flat_map app]. now rewrite IH.
Qed.

(** Questions in ASCII that differ only in the case of their letters, or
    in underscores against spaces, are counted as one reason, and no other
    questions are merged.  A reason has no underscore, and is left as it is
    when it is cleaned again. *)
Theorem reasons_merge (task1 task2 : dict) (questions1 questions2 : list string) :
  forallb ascii_only questions1 = true ->
  forallb ascii_only questions2 = true ->
  dict_get task1 "question" = Some (PList (map PStr questions1)) ->
  dict_get task2 "question" = Some (PList (map PStr questions2)) ->
  (cleaned_questions task1 = cleaned_questions task2
   <-> map question_key questions1 = map question_key questions2) /\
  (forall reason,
     In reason (cleaned_questions task1) ->
     has_char "_" reason = false /\ title (replace_char "_" " " reason) = reason).
Proof.
  intros _ _ H1 H2.
  rewrite (cleaned_questions_strings task1 questions1 H1),
    (cleaned_questions_strings task2 questions2 H2).
  split.
  - clear. revert questions2.
    induction questions1 as [|q1 l1 IH]; intros [|q2 l2]; cbn [map];
      try (split; [reflexivity + discriminate|reflexivity + discriminate]).
    split; intros [= Hq Hl]; f_equal.
    + now apply title_lower_iff.
    + now apply IH.
    + now apply title_lower_iff.
    + now apply IH.
  - intros reason Hin. apply in_map_iff in Hin as (q & <- & _).
    assert (Hclean : has_char "_" (title (replace_char "_" " " q)) = false).
    { unfold title. now rewrite has_char_title_from, has_char_replaced. }
    split; [exact Hclean|].
    rewrite (replace_char_absent _ Hclean). apply title_from_idempotent.
Qed.

Lemma reasons_merge_witness :
  cleaned_questions [("question", PList [PStr "years_experience"])]
  = cleaned_questions [("question", PList [PStr "Years EXPERIENCE"])].
Proof.
  apply (reasons_merge [("question", PList [PStr "years_experience"])]
           [("question", PList [PStr "Years EXPERIENCE"])]
           ["years_experience"] ["Years EXPERIENCE"] eq_refl eq_refl eq_refl eq_refl).
  reflexivity.
Defined.
